(** * Point accounting and multi-model fan-out of the ai-painter backend

    A shallow embedding of [backend/services/user_service.py] (the ledger
    operations [deduct_points] and [add_points]) and of
    [backend/services/generation_service.py] ([optimize_prompt],
    [generate_image], [_call_ai_api], [_extract_image_data]), followed by
    the properties of the accounting and of the fan-out.  The further
    parts embed the history and the deletion of generation records, the
    redemption codes, the registration with its invite codes and the API
    configurations, with their properties.

    Python values that come out of [response.json()] are modelled by the
    type [json]; database rows are records; the SQLAlchemy session is an
    explicit state threaded through a small state-and-exception monad; the
    HTTP provider, the clock and the library functions whose results the
    code only passes along are fields of a [World]. *)

From Stdlib Require Import ZArith String Ascii List Lia.
From stdpp Require Import base option list gmap strings pretty.

Open Scope Z_scope.

(** ** Python values *)

(** The result of [response.json()]: [JNull] is Python's [None], a [JObj]
    is a [dict] given by its bindings (a lookup returns the first binding
    of the key).  Numbers are integers; the code never computes with
    them. *)
#[local] Unset Elimination Schemes.
Inductive json : Type :=
| JNull
| JBool (b : bool)
| JNum (z : Z)
| JStr (s : string)
| JArr (items : list json)
| JObj (fields : list (string * json)).
#[local] Set Elimination Schemes.

(** Exceptions: FastAPI's [HTTPException] and every other Python exception
    with its class name and message. *)
Inductive Exc : Type :=
| HTTPException (status_code : Z) (detail : string)
| PyExc (cls : string) (msg : string).

(** [str(e)] *)
Definition exc_str (e : Exc) : string :=
  match e with
  | HTTPException c d => pretty c +:+ ": " +:+ d
  | PyExc _ m => m
  end.

(** A computation that returns or raises. *)
Inductive Res (A : Type) : Type :=
| Ok (a : A)
| Raise (e : Exc).
Arguments Ok {A} a.
Arguments Raise {A} e.

Definition res_bind {A B} (r : Res A) (k : A -> Res B) : Res B :=
  match r with
  | Ok a => k a
  | Raise e => Raise e
  end.

Module Py.

(** Truth value of a parsed JSON value ([if x:] / [not x]). *)
Definition truthy (v : json) : bool :=
  match v with
  | JNull => false
  | JBool b => b
  | JNum z => negb (z =? 0)
  | JStr s => negb (String.eqb s "")
  | JArr l => match l with [] => false | _ => true end
  | JObj kv => match kv with [] => false | _ => true end
  end.

(** Truth value of an [Optional[str]]. *)
Definition truthy_str (o : option string) : bool :=
  match o with
  | Some s => negb (String.eqb s "")
  | None => false
  end.

(** [a or b] on [Optional[str]]. *)
Definition or_str (a b : option string) : option string :=
  if truthy_str a then a else b.

Fixpoint assoc (k : string) (kv : list (string * json)) : option json :=
  match kv with
  | [] => None
  | (k', v) :: rest => if String.eqb k k' then Some v else assoc k rest
  end.

(** [d.get(k, default)]; raises unless [d] is a dict. *)
Definition get (d : json) (k : string) (default : json) : Res json :=
  match d with
  | JObj kv => Ok (match assoc k kv with Some v => v | None => default end)
  | _ => Raise (PyExc "AttributeError" "object has no attribute 'get'")
  end.

(** [k in x] for a string [k]: key test on a dict, substring test on a
    string, element test on a list; other values are not iterable. *)
Definition contains (k : string) (x : json) : Res bool :=
  match x with
  | JObj kv => Ok (match assoc k kv with Some _ => true | None => false end)
  | JStr s => Ok (match String.index 0 k s with Some _ => true | None => false end)
  | JArr l => Ok (existsb (fun v => match v with JStr s => String.eqb s k | _ => false end) l)
  | _ => Raise (PyExc "TypeError" "argument is not iterable")
  end.

(** [x[k]] for a string [k]. *)
Definition item (x : json) (k : string) : Res json :=
  match x with
  | JObj kv => match assoc k kv with
               | Some v => Ok v
               | None => Raise (PyExc "KeyError" k)
               end
  | _ => Raise (PyExc "TypeError" "indices must be integers")
  end.

(** [x[0]]. *)
Definition item0 (x : json) : Res json :=
  match x with
  | JArr (v :: _) => Ok v
  | JArr [] => Raise (PyExc "IndexError" "list index out of range")
  | JStr (String c _) => Ok (JStr (String c EmptyString))
  | JStr EmptyString => Raise (PyExc "IndexError" "string index out of range")
  | JObj _ => Raise (PyExc "KeyError" "0")
  | _ => Raise (PyExc "TypeError" "object is not subscriptable")
  end.

(** The characters [str.strip()] removes are those of [str.isspace]:
    U+0009 to U+000D, U+001C to U+0020, U+0085, U+00A0, U+1680, U+2000 to
    U+200A, U+2028, U+2029, U+202F, U+205F and U+3000.  A string is the
    UTF-8 encoding of a Python [str], so a character is one, two or three
    bytes here: [is_space] tells the characters of one byte, [space2] and
    [space3] those of two and of three bytes. *)
Definition is_space (c : ascii) : bool :=
  let n := nat_of_ascii c in
  ((9 <=? n)%nat && (n <=? 13)%nat) || ((28 <=? n)%nat && (n <=? 32)%nat).

Definition space2 (a b : ascii) : bool :=
  let y := nat_of_ascii b in
  (nat_of_ascii a =? 194)%nat && ((y =? 133)%nat || (y =? 160)%nat).

Definition space3 (a b c : ascii) : bool :=
  let x := nat_of_ascii a in
  let y := nat_of_ascii b in
  let z := nat_of_ascii c in
  ((x =? 225)%nat && (y =? 154)%nat && (z =? 128)%nat)
  || ((x =? 226)%nat && (y =? 128)%nat
      && (((128 <=? z)%nat && (z <=? 138)%nat)
          || (z =? 168)%nat || (z =? 169)%nat || (z =? 175)%nat))
  || ((x =? 226)%nat && (y =? 129)%nat && (z =? 159)%nat)
  || ((x =? 227)%nat && (y =? 128)%nat && (z =? 128)%nat).

(** The bytes that are left when the white space at the front is skipped;
    [tok2] and [tok3] tell the characters of two and of three bytes in the
    direction in which the bytes are read. *)
Fixpoint skip_spaces (tok2 : ascii -> ascii -> bool)
    (tok3 : ascii -> ascii -> ascii -> bool) (l : list ascii) : list ascii :=
  match l with
  | [] => []
  | a :: rest =>
      if is_space a then skip_spaces tok2 tok3 rest
      else
        match rest with
        | [] => l
        | b :: rest2 =>
            if tok2 a b then skip_spaces tok2 tok3 rest2
            else
              match rest2 with
              | [] => l
              | c :: rest3 =>
                  if tok3 a b c then skip_spaces tok2 tok3 rest3 else l
              end
        end
  end.

Definition lstrip_bytes (l : list ascii) : list ascii := skip_spaces space2 space3 l.

(** From the end the bytes of a character are met in reverse. *)
Definition rstrip_bytes (l : list ascii) : list ascii :=
  rev (skip_spaces (fun b a => space2 a b) (fun c b a => space3 a b c) (rev l)).

Definition lstrip (s : string) : string :=
  string_of_list_ascii (lstrip_bytes (list_ascii_of_string s)).

Definition rstrip (s : string) : string :=
  string_of_list_ascii (rstrip_bytes (list_ascii_of_string s)).

(** [s.strip()]; raises unless [s] is a string. *)
Definition strip (v : json) : Res string :=
  match v with
  | JStr s => Ok (rstrip (lstrip s))
  | _ => Raise (PyExc "AttributeError" "object has no attribute 'strip'")
  end.

End Py.

(** ** Rows of the database ([backend/models/database.py]) *)

Record User : Type := mkUser {
  user_id : Z;
  username : string;
  is_active : bool;
  is_admin : bool;
  points : Z
}.

Definition set_points (u : User) (p : Z) : User :=
  {| user_id := user_id u; username := username u; is_active := is_active u;
     is_admin := is_admin u; points := p |}.

Record ApiConfig : Type := mkApiConfig {
  config_key : string;
  api_key : string;
  api_base_url : string;
  cfg_optimizer_model : option string;
  cfg_system_prompt : option string;
  cfg_is_active : bool
}.

(** The values the code assigns to [Generation.status]. *)
Inductive Status : Type := pending | processing | completed | failed.

Global Instance Status_eq_dec : EqDecision Status.
Proof. solve_decision. Defined.

(** A [Generation] object of the session.  An attribute of the object
    holds whatever the code assigns to it, so [image_url] and
    [base64_image] are JSON values; a commit writes them to the columns
    only when they are [storable] (see [commit]). *)
Record Generation : Type := mkGeneration {
  gen_id : option Z;
  gen_user_id : Z;
  prompt : string;
  optimized_prompt : option string;
  model : string;
  image_url : json;
  base64_image : json;
  points_used : Z;
  status : Status;
  error_message : option string;
  api_response : option string;
  completed_at : option Z
}.

(** Request body ([backend/models/schemas.py], [GenerationRequest]). *)
Record GenerationRequest : Type := mkRequest {
  req_prompt : string;
  enable_optimization : bool;
  models : list string;
  size : string;
  output_format : string;
  image_file : option string;
  req_optimizer_model : option string;
  req_system_prompt : option string
}.

(** ** The outside world *)

(** What an HTTP call can do: raise (connection error, timeout) or return a
    response with its status, its text and, when the body parses,
    [response.json()]. *)
Inductive HttpOutcome : Type :=
| TransportError (msg : string)
| Response (status_code : Z) (text : string) (body : option json).

(** [response.json()] *)
Definition response_json (body : option json) : Res json :=
  match body with
  | Some v => Ok v
  | None => Raise (PyExc "JSONDecodeError" "Expecting value")
  end.

(** The chat-completion request of [optimize_prompt] (its temperature and
    its timeout are constants of the source and are not represented). *)
Record ChatRequest : Type := mkChat {
  chat_url : string;
  chat_api_key : string;
  chat_model : option string;
  chat_system : string;
  chat_user : string;
  chat_max_tokens : Z
}.

(** The image request of [_call_ai_api]: generation mode sends
    [output_format] and no image, edit mode sends the decoded image. *)
Record ImageRequest : Type := mkImage {
  img_url : string;
  img_api_key : string;
  img_prompt : string;
  img_model : string;
  img_n : Z;
  img_size : string;
  img_output_format : option string;
  img_image : option string
}.

(** The provider answers the i-th image call of a batch; the clock is read
    in the i-th iteration; [b64decode], [json_dumps] and the [repr] of a
    value are library functions whose results are only passed along;
    [commit_error] is the exception of a commit that cannot write the
    records it is to flush. *)
Record World : Type := mkWorld {
  optimizer_api : ChatRequest -> HttpOutcome;
  image_api : nat -> ImageRequest -> HttpOutcome;
  utcnow : nat -> Z;
  b64decode : string -> option string;
  json_dumps : json -> string;
  py_repr : json -> string;
  commit_error : list Generation -> Exc
}.

(** The value of a JSON value inside an f-string. *)
Definition py_str (w : World) (v : json) : string :=
  match v with
  | JStr s => s
  | _ => py_repr w v
  end.

(** ** The session *)

(** What a run leaves behind for an observer: the external calls and the
    successful ledger mutations, oldest first. *)
Inductive Event : Type :=
| EvOptimize (r : ChatRequest)
| EvImage (i : nat) (r : ImageRequest)
| EvDebit (uid : Z) (amount : Z)
| EvCredit (uid : Z) (amount : Z).

(** The tables the two services use.  [generation_seq] is the last id the
    [generations] table handed out: a new row gets the next one
    ([autoincrement], line 80 of models/database.py).  This is the
    numbering of a database with a sequence (PostgreSQL).  SQLite, the
    default of [DATABASE_URL], numbers a new row one above the largest
    id in the table instead; the two agree as long as the row with the
    last id is in the table ([seq_is_top] below), and differ after that
    row has been deleted.  What is proved about the ids of new rows
    assumes [seq_is_top]. *)
Record DB : Type := mkDB {
  users : gmap Z User;
  api_configs : list ApiConfig;
  generations : gmap Z Generation;
  generation_seq : Z
}.

(** [db] is the session; [events] and [snapshots] are observation only:
    [snapshots] records the Python list [generations] of [generate_image]
    at the program points where [mark] is called. *)
Record St : Type := mkSt {
  db : DB;
  events : list Event;
  snapshots : list (list Generation)
}.

Definition M (A : Type) : Type := St -> Res A * St.

Definition ret {A} (a : A) : M A := fun st => (Ok a, st).

Definition raise {A} (e : Exc) : M A := fun st => (Raise e, st).

Definition bind {A B} (m : M A) (k : A -> M B) : M B :=
  fun st =>
    match m st with
    | (Ok a, st') => k a st'
    | (Raise e, st') => (Raise e, st')
    end.

(** [try: body except Exception as e: handler(e)] *)
Definition try_except {A} (body : M A) (handler : Exc -> M A) : M A :=
  fun st =>
    match body st with
    | (Ok a, st') => (Ok a, st')
    | (Raise e, st') => handler e st'
    end.

Declare Scope m_scope.
Delimit Scope m_scope with M.
Notation "x <- m ;; k" := (bind m (fun x => k))
  (at level 90, m at level 80, right associativity) : m_scope.
Notation "m ;;; k" := (bind m (fun _ => k))
  (at level 90, right associativity) : m_scope.

Definition get_db : M DB := fun st => (Ok (db st), st).

Definition put_db (d : DB) : M unit :=
  fun st => (Ok tt, {| db := d; events := events st; snapshots := snapshots st |}).

Definition emit (e : Event) : M unit :=
  fun st => (Ok tt, {| db := db st; events := events st ++ [e]; snapshots := snapshots st |}).

Definition mark (gens : list Generation) : M unit :=
  fun st => (Ok tt, {| db := db st; events := events st; snapshots := snapshots st ++ [gens] |}).

Definition lift {A} (r : Res A) : M A := fun st => (r, st).

(** A fresh session on a database. *)
Definition session (d : DB) : St := {| db := d; events := []; snapshots := [] |}.

(** ** [UserService] *)

Module UserService.
Open Scope m_scope.

(** [get_user_by_id], lines 97-103. *)
Definition get_user_by_id (uid : Z) : M User :=
  d <- get_db ;;
  match users d !! uid with
  | Some user => ret user
  | None => raise (HTTPException 404 "User not found")
  end.

(** [user.points = p; db.commit()] on the row [uid] that the query
    returned as [user]. *)
Definition store_points (uid : Z) (user : User) (p : Z) : M unit :=
  d <- get_db ;;
  put_db {| users := <[uid := set_points user p]> (users d);
            api_configs := api_configs d;
            generations := generations d;
            generation_seq := generation_seq d |}.

(** [deduct_points], lines 199-208.  The commit of line 207 writes the
    balance together with whatever else the session holds; [pending] is
    the flush of those other objects, which fails when one of them cannot
    be written, and then nothing is written. *)
Definition deduct_points_with (pending : M unit) (uid : Z) (pts : Z) : M bool :=
  user <- get_user_by_id uid ;;
  if points user <? pts
  then raise (HTTPException 400 "Insufficient points")
  else
    pending ;;;
    store_points uid user (points user - pts) ;;;
    emit (EvDebit uid pts) ;;;
    ret true.

(** [deduct_points] in a session that holds nothing else. *)
Definition deduct_points (uid : Z) (pts : Z) : M bool :=
  deduct_points_with (ret tt) uid pts.

(** [add_points], lines 210-216. *)
Definition add_points (uid : Z) (pts : Z) : M bool :=
  user <- get_user_by_id uid ;;
  store_points uid user (points user + pts) ;;;
  emit (EvCredit uid pts) ;;;
  ret true.

(** [get_active_api_config], lines 317-320. *)
Definition get_active_api_config : M (option ApiConfig) :=
  d <- get_db ;;
  ret (find cfg_is_active (api_configs d)).

End UserService.

(** ** [GenerationService] *)

Notation "x <~ r ;; k" := (res_bind r (fun x => k))
  (at level 90, r at level 80, right associativity) : m_scope.

(** The two defaults [__init__] reads from the process environment. *)
Record Service : Type := mkService {
  default_api_base_url : string;
  default_api_key : string
}.

(** What [_call_ai_api] returns: the dict with [success] true and the keys
    [image_url], [base64_image], [raw_response], or the dict with [success]
    false and the key [error]. *)
Inductive ImageResult : Type :=
| ImgSuccess (url b64 raw_response : json)
| ImgFailure (error : string).

Definition set_id (g : Generation) (i : Z) : Generation :=
  {| gen_id := Some i; gen_user_id := gen_user_id g; prompt := prompt g;
     optimized_prompt := optimized_prompt g; model := model g;
     image_url := image_url g; base64_image := base64_image g;
     points_used := points_used g; status := status g;
     error_message := error_message g; api_response := api_response g;
     completed_at := completed_at g |}.

(** Lines 129-133. *)
Definition set_completed (g : Generation) (url b64 : json) (resp : string) (now : Z)
  : Generation :=
  {| gen_id := gen_id g; gen_user_id := gen_user_id g; prompt := prompt g;
     optimized_prompt := optimized_prompt g; model := model g;
     image_url := url; base64_image := b64;
     points_used := points_used g; status := completed;
     error_message := error_message g; api_response := Some resp;
     completed_at := Some now |}.

(** Lines 135-136 and 139-140. *)
Definition set_failed (g : Generation) (msg : string) : Generation :=
  {| gen_id := gen_id g; gen_user_id := gen_user_id g; prompt := prompt g;
     optimized_prompt := optimized_prompt g; model := model g;
     image_url := image_url g; base64_image := base64_image g;
     points_used := points_used g; status := failed;
     error_message := Some msg; api_response := api_response g;
     completed_at := completed_at g |}.

(** [generation.points_used = p] *)
Definition set_points_used (g : Generation) (p : Z) : Generation :=
  {| gen_id := gen_id g; gen_user_id := gen_user_id g; prompt := prompt g;
     optimized_prompt := optimized_prompt g; model := model g;
     image_url := image_url g; base64_image := base64_image g;
     points_used := p; status := status g;
     error_message := error_message g; api_response := api_response g;
     completed_at := completed_at g |}.

(** Writing session objects to the [generations] table. *)
Definition flush (gens : list Generation) (tbl : gmap Z Generation) : gmap Z Generation :=
  foldl (fun t g => match gen_id g with Some i => <[i := g]> t | None => t end) tbl gens.

Fixpoint assign_ids (seq : Z) (gens : list Generation) : list Generation :=
  match gens with
  | [] => []
  | g :: rest => set_id g (seq + 1) :: assign_ids (seq + 1) rest
  end.

(** What the driver of the database binds to a text column: a string, a
    number, a truth value or [None], and neither a dict nor a list.
    (SQLite, the default database, does not check the length that
    [String(500)] declares.) *)
Definition storable (v : json) : bool :=
  match v with
  | JArr _ | JObj _ => false
  | _ => true
  end.

Definition writable (g : Generation) : bool :=
  storable (image_url g) && storable (base64_image g).

(** The flush of the pending changes of [gens]: it raises when a record
    holds a value that its column cannot take. *)
Definition flushable (w : World) (gens : list Generation) : M unit :=
  if forallb writable gens then ret tt else raise (commit_error w gens).

(** [db.commit()] with the pending changes of [gens]; a commit that
    raises has written nothing. *)
Definition commit (w : World) (gens : list Generation) : M unit :=
  (flushable w gens ;;;
   d <- get_db ;;
   put_db {| users := users d; api_configs := api_configs d;
             generations := flush gens (generations d);
             generation_seq := generation_seq d |})%M.

(** [db.add] of each new record, [db.commit()] and [db.refresh], lines
    111-118: the rows get their ids and are inserted.  (The new records
    hold no payload yet, so this commit writes them.) *)
Definition add_all (gens : list Generation) : M (list Generation) :=
  (d <- get_db ;;
   let gens' := assign_ids (generation_seq d) gens in
   put_db {| users := users d; api_configs := api_configs d;
             generations := flush gens' (generations d);
             generation_seq := generation_seq d + Z.of_nat (length gens) |} ;;;
   ret gens')%M.

Module GenerationService.
Open Scope m_scope.

Definition default_system_prompt : string :=
  "你是一个专业的AI绘画提示词优化专家。请将用户输入的中文描述优化并翻译成高质量的英文绘画提示词。要求：1.保持原意不变 2.增加艺术性描述 3.使用专业绘画术语 4.直接返回优化后的英文提示词，不要解释过程".

Definition text (o : option string) : string :=
  match o with Some s => s | None => "None" end.

(** Line 54: [result.get("choices", [{}])[0].get("message", {})
    .get("content", "").strip()]. *)
Definition optimized_text (result : json) : Res string :=
  choices <~ Py.get result "choices" (JArr [JObj []]) ;;
  first <~ Py.item0 choices ;;
  message <~ Py.get first "message" (JObj []) ;;
  content <~ Py.get message "content" (JStr "") ;;
  Py.strip content.

(** Lines 35-48: the chat-completion request. *)
Definition chat_request (prompt : string)
    (optimizer_model final_api_key final_api_base_url system_prompt : option string)
  : ChatRequest :=
  {| chat_url := text final_api_base_url +:+ "/v1/chat/completions";
     chat_api_key := text final_api_key;
     chat_model := optimizer_model;
     chat_system := text system_prompt;
     chat_user := prompt;
     chat_max_tokens := 500 |}.

(** [optimize_prompt], lines 20-62. *)
Definition optimize_prompt (w : World) (svc : Service) (prompt : string)
    (optimizer_model api_key api_base_url system_prompt : option string) : M string :=
  let final_api_key := Py.or_str api_key (Some (default_api_key svc)) in
  let final_api_base_url := Py.or_str api_base_url (Some (default_api_base_url svc)) in
  if negb (Py.truthy_str final_api_key) then ret prompt
  else
    let system_prompt :=
      if negb (Py.truthy_str system_prompt) then Some default_system_prompt
      else system_prompt in
    try_except
      (let rq := chat_request prompt optimizer_model final_api_key
                   final_api_base_url system_prompt in
       emit (EvOptimize rq) ;;;
       match optimizer_api w rq with
       | TransportError msg => raise (PyExc "httpx.HTTPError" msg)
       | Response code _ body =>
           if code =? 200 then
             result <- lift (response_json body) ;;
             optimized <- lift (optimized_text result) ;;
             ret (if negb (String.eqb optimized "") then optimized else prompt)
           else ret prompt
       end)
      (fun e => ret prompt).

(** [_extract_image_data], lines 265-281.  The result is [None] or a
    one-key dict. *)
Definition _extract_image_data (response : json) : Res (option (list (string * json))) :=
  data <~ Py.get response "data" (JArr []) ;;
  if negb (Py.truthy data) then Ok None
  else
    item <~ (match data with JArr _ => Py.item0 data | _ => Ok data end) ;;
    has_b64 <~ Py.contains "b64_json" item ;;
    if has_b64 then
      v <~ Py.item item "b64_json" ;; Ok (Some [("b64_json", v)])
    else
      has_url <~ Py.contains "url" item ;;
      if has_url then
        v <~ Py.item item "url" ;; Ok (Some [("url", v)])
      else
        has_image_url <~ Py.contains "image_url" item ;;
        if has_image_url then
          v <~ Py.item item "image_url" ;; Ok (Some [("url", v)])
        else Ok None.

(** [d.get(k)] on a dict given by its bindings. *)
Definition dict_get (d : list (string * json)) (k : string) : json :=
  match Py.assoc k d with Some v => v | None => JNull end.

(** Lines 247-252: the provider's error message when there is one. *)
Definition error_text (w : World) (text : string) (body : option json) : string :=
  match (error_json <~ response_json body ;;
         err <~ Py.get error_json "error" (JObj []) ;;
         Py.get err "message" (JStr text)) with
  | Ok v => py_str w v
  | Raise _ => text
  end.

(** Lines 183-227 of [_call_ai_api]: what is posted, to the edit
    endpoint when the request carries an image (which must decode) and
    to the generation endpoint otherwise. *)
Definition image_request (w : World) (request : GenerationRequest)
    (optimized_prompt : string) (model : string)
    (final_api_key final_api_base_url : string) : Res ImageRequest :=
  if Py.truthy_str (image_file request) then
    match b64decode w (text (image_file request)) with
    | Some image =>
        Ok {| img_url := final_api_base_url +:+ "/v1/images/edits";
              img_api_key := final_api_key;
              img_prompt := optimized_prompt;
              img_model := model;
              img_n := 1;
              img_size := size request;
              img_output_format := None;
              img_image := Some image |}
    | None => Raise (PyExc "binascii.Error" "Incorrect padding")
    end
  else
    Ok {| img_url := final_api_base_url +:+ "/v1/images/generations";
          img_api_key := final_api_key;
          img_prompt := optimized_prompt;
          img_model := model;
          img_n := 1;
          img_size := size request;
          img_output_format := Some (output_format request);
          img_image := None |}.

(** [_call_ai_api], lines 176-263; [i] is the position of the call in
    the batch. *)
Definition _call_ai_api (w : World) (i : nat) (request : GenerationRequest)
    (optimized_prompt : string) (model : string) (api_config : ApiConfig)
  : M ImageResult :=
  try_except
    (let final_api_key := api_key api_config in
     let final_api_base_url := api_base_url api_config in
     rq <- lift (image_request w request optimized_prompt model
                   final_api_key final_api_base_url) ;;
     emit (EvImage i rq) ;;;
     match image_api w i rq with
     | TransportError msg => raise (PyExc "httpx.HTTPError" msg)
     | Response code text body =>
         if code =? 200 then
           result <- lift (response_json body) ;;
           image_data <- lift (_extract_image_data result) ;;
           match image_data with
           | Some d => ret (ImgSuccess (dict_get d "url") (dict_get d "b64_json") result)
           | None => ret (ImgFailure "No image data in response")
           end
         else
           ret (ImgFailure ("API call failed: " +:+ pretty code +:+ " - "
                            +:+ error_text w text body))
     end)
    (fun e => ret (ImgFailure ("API call error: " +:+ exc_str e))).

(** The constructor call of lines 102-109. *)
Definition new_generation (uid : Z) (request : GenerationRequest)
    (optimized_prompt : string) (model : string) : Generation :=
  {| gen_id := None; gen_user_id := uid; prompt := req_prompt request;
     optimized_prompt :=
       if decide (optimized_prompt = req_prompt request) then None
       else Some optimized_prompt;
     model := model;
     image_url := JNull; base64_image := JNull;
     points_used := 1; status := processing;
     error_message := None; api_response := None; completed_at := None |}.

(** The body of the loop of lines 122-140 for the record at position
    [i]. *)
Definition loop_body (w : World) (request : GenerationRequest)
    (optimized_prompt : string) (api_config : ApiConfig)
    (i : nat) (generation : Generation) : M Generation :=
  try_except
    (image_result <- _call_ai_api w i request optimized_prompt (model generation)
                       api_config ;;
     match image_result with
     | ImgSuccess url b64 raw =>
         ret (set_completed generation url b64 (json_dumps w raw) (utcnow w i))
     | ImgFailure err => ret (set_failed generation err)
     end)
    (fun e => ret (set_failed generation (exc_str e))).

(** The loop of lines 122-140. *)
Fixpoint models_loop (w : World) (request : GenerationRequest)
    (optimized_prompt : string) (api_config : ApiConfig)
    (i : nat) (gens : list Generation) : M (list Generation) :=
  match gens with
  | [] => ret []
  | generation :: rest =>
      generation' <- loop_body w request optimized_prompt api_config i generation ;;
      rest' <- models_loop w request optimized_prompt api_config (S i) rest ;;
      ret (generation' :: rest')
  end.

Definition is_completed (g : Generation) : bool := bool_decide (status g = completed).

(** [points_to_deduct], lines 146-148. *)
Definition points_to_deduct (request : GenerationRequest) : Z :=
  if enable_optimization request then 1 + 1 else 1.

(** The loop of lines 154-158. *)
Definition charge_all (amount : Z) (gens : list Generation) : list Generation :=
  map (fun g => if is_completed g then set_points_used g amount
                else set_points_used g 0) gens.

(** The loop of lines 161-162. *)
Definition charge_none (gens : list Generation) : list Generation :=
  map (fun g => set_points_used g 0) gens.

(** The loop of lines 168-171. *)
Definition fail_all (e : Exc) (gens : list Generation) : list Generation :=
  map (fun g => set_points_used (set_failed g (exc_str e)) 0) gens.

(** Settlement, lines 142-164.  The commit inside [deduct_points] (line
    207) also flushes the pending changes of the records, and raises when
    they cannot be written; nothing reads the table before the commit of
    line 164 writes the records with their charges, so the table is
    written there. *)
Definition settle (w : World) (uid : Z) (request : GenerationRequest)
    (gens : list Generation) : M (list Generation) :=
  let successful_generations := length (filter (fun g => status g = completed) gens) in
  gens' <- (if (0 <? successful_generations)%nat then
              UserService.deduct_points_with (flushable w gens) uid
                (points_to_deduct request) ;;;
              ret (charge_all (points_to_deduct request) gens)
            else
              ret (charge_none gens)) ;;
  commit w gens' ;;;
  ret gens'.

(** The handler of lines 166-172.  Its commit is not guarded: when it
    raises, [generate_image] raises.  It raises when the records still
    hold a value that cannot be written; this covers the commit that
    follows a failed commit (the session then refuses every commit until
    a rollback, which the code does not issue), as the records hold the
    same image fields in both. *)
Definition fail_batch (w : World) (e : Exc) (gens : list Generation)
  : M (list Generation) :=
  let gens' := fail_all e gens in
  commit w gens' ;;;
  ret gens'.

(** Lines 81-96 of [generate_image]: the optimizer settings of the
    request override those of the configuration, and the optimizer runs
    when the switch is on and both are set. *)
Definition resolve_prompt (w : World) (svc : Service) (request : GenerationRequest)
    (api_config : ApiConfig) : M string :=
  let final_optimizer_model :=
    Py.or_str (req_optimizer_model request) (cfg_optimizer_model api_config) in
  let final_system_prompt :=
    Py.or_str (req_system_prompt request) (cfg_system_prompt api_config) in
  if enable_optimization request && Py.truthy_str final_optimizer_model
     && Py.truthy_str final_system_prompt
  then optimize_prompt w svc (req_prompt request) final_optimizer_model
         (Some (api_key api_config)) (Some (api_base_url api_config))
         final_system_prompt
  else ret (req_prompt request).

(** [generate_image], lines 64-174.  The loop of lines 122-140 catches
    every exception of its body (line 138), so the [try] of line 120 is
    only left through the settlement (see [models_loop_run]); the
    handler is attached there, where the records as the loop left them
    are in scope, as they are in the source through the shared
    objects. *)
Definition generate_image (w : World) (svc : Service) (uid : Z)
    (request : GenerationRequest) : M (list Generation) :=
  user <- UserService.get_user_by_id uid ;;
  if points user <? 1 then raise (HTTPException 400 "积分不足")
  else
    active <- UserService.get_active_api_config ;;
    match active with
    | None => raise (HTTPException 500 "系统API配置未设置，请联系管理员")
    | Some api_config =>
        optimized_prompt <- resolve_prompt w svc request api_config ;;
        generations <- add_all (map (new_generation uid request optimized_prompt)
                                    (models request)) ;;
        mark generations ;;;
        generations <- models_loop w request optimized_prompt api_config 0 generations ;;
        mark generations ;;;
        generations <- try_except (settle w uid request generations)
                                  (fun e => fail_batch w e generations) ;;
        mark generations ;;;
        ret generations
    end.

End GenerationService.

(** ** Sequences of ledger operations *)

Inductive LedgerOp : Type :=
| Debit (amount : Z)
| Credit (amount : Z).

Definition ledger_op (uid : Z) (op : LedgerOp) : M bool :=
  match op with
  | Debit amount => UserService.deduct_points uid amount
  | Credit amount => UserService.add_points uid amount
  end.

(** The balance of an account in a session. *)
Definition balance (uid : Z) (st : St) : option Z :=
  points <$> users (db st) !! uid.

(** The session after each operation of a sequence; an operation that
    raises leaves the session to the next one as it is then. *)
Fixpoint ledger_trace (uid : Z) (ops : list LedgerOp) (st : St) : list St :=
  match ops with
  | [] => []
  | op :: rest =>
      let st' := snd (ledger_op uid op st) in
      st' :: ledger_trace uid rest st'
  end.

Definition credit_nonneg (op : LedgerOp) : Prop :=
  match op with
  | Debit _ => True
  | Credit amount => 0 <= amount
  end.

Definition nonneg_balance (uid : Z) (st : St) : Prop :=
  exists b, balance uid st = Some b /\ 0 <= b.

(** ** Vocabulary of the properties *)

Import GenerationService.

(** A session with more events. *)
Definition add_events (st : St) (evs : list Event) : St :=
  {| db := db st; events := events st ++ evs; snapshots := snapshots st |}.

(** The ledger debits and the image calls among the events of a run. *)
Definition debits (evs : list Event) : list (Z * Z) :=
  omap (fun e => match e with EvDebit uid amount => Some (uid, amount) | _ => None end) evs.

Definition image_calls (evs : list Event) : list ImageRequest :=
  omap (fun e => match e with EvImage _ rq => Some rq | _ => None end) evs.

(** The events of one call of [_call_ai_api] and of the whole loop. *)
Definition image_events (w : World) (i : nat) (request : GenerationRequest)
    (optimized_prompt model : string) (api_config : ApiConfig) : list Event :=
  match image_request w request optimized_prompt model
          (api_key api_config) (api_base_url api_config) with
  | Ok rq => [EvImage i rq]
  | Raise _ => []
  end.

Fixpoint loop_events (w : World) (request : GenerationRequest) (optimized_prompt : string)
    (api_config : ApiConfig) (i : nat) (gens : list Generation) : list Event :=
  match gens with
  | [] => []
  | g :: rest =>
      image_events w i request optimized_prompt (model g) api_config
      ++ loop_events w request optimized_prompt api_config (S i) rest
  end.

(** The image of an edit request decodes (a generation request has none). *)
Definition image_ready (w : World) (request : GenerationRequest) : Prop :=
  Py.truthy_str (image_file request) = true ->
  is_Some (b64decode w (text (image_file request))).

(** A string or [None]: what the provider is meant to return as the
    [url] or the [b64_json] of an image. *)
Definition is_text (v : json) : Prop :=
  match v with
  | JStr _ | JNull => True
  | _ => False
  end.

(** Every image payload the provider returns with a 200 response (the
    field that [_extract_image_data] selects) is text. *)
Definition text_payloads (w : World) : Prop :=
  forall i rq t response field,
    image_api w i rq = Response 200 t (Some response) ->
    _extract_image_data response = Ok (Some field) ->
    Forall (fun kv => is_text kv.2) field.

(** What one iteration of the loop does to its record. *)
Inductive record_step (g : Generation) : Generation -> Prop :=
| step_completed url b64 resp now : record_step g (set_completed g url b64 resp now)
| step_failed msg : record_step g (set_failed g msg).

(** The records of a batch as lines 100-118 leave them. *)
Definition created_records (d : DB) (uid : Z) (request : GenerationRequest)
    (optimized_prompt : string) : list Generation :=
  assign_ids (generation_seq d)
    (map (new_generation uid request optimized_prompt) (models request)).

Definition insufficient : Exc := HTTPException 400 "Insufficient points".

(** The three ways lines 142-172 end, from the records [called] the loop
    left: what is returned, the [users] table and the ledger events. *)
Inductive Settled (uid : Z) (request : GenerationRequest) (user : User)
    (us : gmap Z User) (called : list Generation)
  : list Generation -> gmap Z User -> list Event -> Prop :=
| settled_none :
    Forall (fun g => status g <> completed) called ->
    Settled uid request user us called (charge_none called) us []
| settled_charged :
    Exists (fun g => status g = completed) called ->
    points_to_deduct request <= points user ->
    Settled uid request user us called
      (charge_all (points_to_deduct request) called)
      (<[uid := set_points user (points user - points_to_deduct request)]> us)
      [EvDebit uid (points_to_deduct request)]
| settled_refused :
    Exists (fun g => status g = completed) called ->
    points user < points_to_deduct request ->
    Settled uid request user us called (fail_all insufficient called) us [].

(** A step that touches neither the accounts nor the observations. *)
Definition same_ledger (st st' : St) : Prop :=
  users (db st') = users (db st) /\ api_configs (db st') = api_configs (db st)
  /\ events st' = events st /\ snapshots st' = snapshots st.



(** A value of a record field is set. *)
Definition populated (v : json) : Prop := v <> JNull.

(** The order in which [_extract_image_data] looks at the fields of the
    first item of the response: [b64_json], then [url], then [image_url];
    the first field that is present is the one returned. *)
Definition first_image_field (fields : list (string * json))
  : option (list (string * json)) :=
  match Py.assoc "b64_json" fields with
  | Some v => Some [("b64_json", v)]
  | None =>
      match Py.assoc "url" fields with
      | Some v => Some [("url", v)]
      | None =>
          match Py.assoc "image_url" fields with
          | Some v => Some [("url", v)]
          | None => None
          end
      end
  end.

(** [fields] is the dict that lines 267-271 select: the first element of
    the list under [data], or the dict under [data] itself. *)
Definition payload_item (response : json) (fields : list (string * json)) : Prop :=
  exists top, response = JObj top
    /\ ((exists others, Py.assoc "data" top = Some (JArr (JObj fields :: others)))
        \/ (Py.assoc "data" top = Some (JObj fields) /\ fields <> [])).

(** Exactly one of [image_url] and [base64_image] is set. *)
Definition exactly_one_populated (g : Generation) : Prop :=
  (populated (image_url g) /\ base64_image g = JNull)
  \/ (image_url g = JNull /\ populated (base64_image g)).

(** ** Sample data

    A database with one account (id 7) and one active configuration, a
    provider that serves model [m1] and refuses every other model, and an
    optimizer that answers with a rewritten prompt. *)

Definition image_body (item : list (string * json)) : option json :=
  Some (JObj [("data", JArr [JObj item])]).

Definition chat_body (content : json) : option json :=
  Some (JObj [("choices", JArr [JObj [("message", JObj [("content", content)])]])]).

Definition sample_world (opt : HttpOutcome) (item : list (string * json)) : World :=
  {| optimizer_api := fun _ => opt;
     image_api := fun _ rq =>
       if String.eqb (img_model rq) "m1" then Response 200 "" (image_body item)
       else Response 500 "overloaded" None;
     utcnow := fun i => 1000 + Z.of_nat i;
     b64decode := fun s => Some s;
     json_dumps := fun _ => "{}";
     py_repr := fun _ => "?";
     commit_error := fun _ => PyExc "sqlalchemy.exc.StatementError" "flush" |}.

Definition sample_optimizer : HttpOutcome :=
  Response 200 "" (chat_body (JStr " a cat, oil on canvas ")).

Definition sample_item : list (string * json) := [("url", JStr "https://img/1.png")].

(** An item as a provider writes it that serializes both fields and leaves
    the unused one null. *)
Definition null_item : list (string * json) :=
  [("b64_json", JNull); ("url", JStr "https://img/1.png")].

Definition sample_config : ApiConfig :=
  {| config_key := "default"; api_key := "sk-1"; api_base_url := "https://api";
     cfg_optimizer_model := Some "gpt-4o-mini"; cfg_system_prompt := Some "rewrite";
     cfg_is_active := true |}.

Definition sample_db (p : Z) : DB :=
  {| users := {[ 7 := mkUser 7 "bob" true false p ]};
     api_configs := [sample_config];
     generations := ∅;
     generation_seq := 0 |}.

Definition sample_db_unconfigured (p : Z) : DB :=
  {| users := {[ 7 := mkUser 7 "bob" true false p ]};
     api_configs := [];
     generations := ∅;
     generation_seq := 0 |}.

Definition sample_request (optimize : bool) (ms : list string) : GenerationRequest :=
  {| req_prompt := "cat"; enable_optimization := optimize; models := ms;
     size := "1024x1024"; output_format := "png"; image_file := None;
     req_optimizer_model := None; req_system_prompt := None |}.



Definition sample_service : Service :=
  {| default_api_base_url := "https://api.openai.com"; default_api_key := "" |}.

Definition sample_image_request (m : string) : ImageRequest :=
  {| img_url := "https://api/v1/images/generations"; img_api_key := "sk-1";
     img_prompt := "cat"; img_model := m; img_n := 1; img_size := "1024x1024";
     img_output_format := Some "png"; img_image := None |}.

(** A run on the sample data: balance [p], models [ms]. *)
Definition sample_run (optimize : bool) (ms : list string) (p : Z)
  : Res (list Generation) * St :=
  generate_image (sample_world sample_optimizer sample_item) sample_service 7
    (sample_request optimize ms) (session (sample_db p)).

(** The records a run returned. *)
Definition returned (run : Res (list Generation) * St) : list Generation :=
  match fst run with
  | Ok gens => gens
  | Raise _ => []
  end.

(** ** Vocabulary of the further properties *)

(** The session after a sequence of ledger operations on one account. *)
Definition ledger_final (uid : Z) (ops : list LedgerOp) (st : St) : St :=
  foldl (fun s op => snd (ledger_op uid op s)) st ops.

(** What a ledger event adds to the balance of [uid]. *)
Definition ledger_delta (uid : Z) (e : Event) : Z :=
  match e with
  | EvCredit u amount => if decide (u = uid) then amount else 0
  | EvDebit u amount => if decide (u = uid) then - amount else 0
  | _ => 0
  end.

Definition net_change (uid : Z) (evs : list Event) : Z :=
  foldr (fun e acc => ledger_delta uid e + acc) 0 evs.

(** The fields of a record that no step after its creation changes. *)
Definition same_identity (g g' : Generation) : Prop :=
  gen_id g' = gen_id g /\ gen_user_id g' = gen_user_id g /\ prompt g' = prompt g
  /\ model g' = model g /\ optimized_prompt g' = optimized_prompt g.

(** The i-th image call of a batch is answered 200 with a body from which
    [_extract_image_data] takes a field. *)
Definition provider_succeeds (w : World) (i : nat) (request : GenerationRequest)
    (optimized_prompt model : string) (api_config : ApiConfig) : Prop :=
  exists rq t response dct,
    image_request w request optimized_prompt model
      (api_key api_config) (api_base_url api_config) = Ok rq
    /\ image_api w i rq = Response 200 t (Some response)
    /\ _extract_image_data response = Ok (Some dct).

(** Every row of the [generations] table has an id the sequence has
    handed out. *)
Definition table_wf (d : DB) : Prop :=
  forall k, is_Some (generations d !! k) -> k <= generation_seq d.

(** The sequence stands at the largest id of the table, at 0 for the
    empty table: the next id is then the same whether the database
    counts on from the last id it handed out or from the largest id in
    the table. *)
Definition seq_is_top (d : DB) : Prop :=
  table_wf d
  /\ (is_Some (generations d !! generation_seq d)
      \/ (generations d = ∅ /\ generation_seq d = 0)).

(** The session in which the loop of lines 122-140 starts. *)
Definition loop_start (d : DB) (uid : Z) (request : GenerationRequest)
    (op : string) (oevs : list Event) : St :=
  {| db := {| users := users d; api_configs := api_configs d;
              generations := flush (created_records d uid request op) (generations d);
              generation_seq := generation_seq d + Z.of_nat (length (models request)) |};
     events := oevs;
     snapshots := [created_records d uid request op] |}.

Definition is_image_event (e : Event) : Prop :=
  match e with EvImage _ _ => True | _ => False end.

(** What lines 142-172 do to one record: a new [points_used], or the
    failure of the whole batch. *)
Inductive settle_step (g : Generation) : Generation -> Prop :=
| settle_keeps p : settle_step g (set_points_used g p)
| settle_fails msg : settle_step g (set_points_used (set_failed g msg) 0).

(** The positions of the image calls among the events of a run. *)
Definition image_indices (evs : list Event) : list nat :=
  omap (fun e => match e with EvImage i _ => Some i | _ => None end) evs.

(** The optimizer calls among the events of a run. *)
Definition optimizer_calls (evs : list Event) : list ChatRequest :=
  omap (fun e => match e with EvOptimize rq => Some rq | _ => None end) evs.

(** No optimizer model or no system prompt is set in the request or in the
    configuration, or no API key is set in the configuration or in the
    environment. *)
Definition optimizer_unavailable (svc : Service) (request : GenerationRequest)
    (cfg : ApiConfig) : Prop :=
  Py.truthy_str (Py.or_str (req_optimizer_model request) (cfg_optimizer_model cfg)) = false
  \/ Py.truthy_str (Py.or_str (req_system_prompt request) (cfg_system_prompt cfg)) = false
  \/ (api_key cfg = "" /\ default_api_key svc = "").

(** The API key and the base URL [optimize_prompt] uses: those of the
    configuration, and those of the environment where the configuration
    has an empty one. *)
Definition effective_key (svc : Service) (cfg : ApiConfig) : string :=
  if String.eqb (api_key cfg) "" then default_api_key svc else api_key cfg.

Definition effective_base_url (svc : Service) (cfg : ApiConfig) : string :=
  if String.eqb (api_base_url cfg) "" then default_api_base_url svc else api_base_url cfg.

(** The request [generate_image] sends to the optimizer. *)
Definition optimizer_request (svc : Service) (request : GenerationRequest)
    (cfg : ApiConfig) : ChatRequest :=
  {| chat_url := effective_base_url svc cfg +:+ "/v1/chat/completions";
     chat_api_key := effective_key svc cfg;
     chat_model := Py.or_str (req_optimizer_model request) (cfg_optimizer_model cfg);
     chat_system := text (Py.or_str (req_system_prompt request) (cfg_system_prompt cfg));
     chat_user := req_prompt request;
     chat_max_tokens := 500 |}.

(** Bytes that do not begin with a white space character, read in the
    direction of [tok2] and [tok3]. *)
Definition starts_clean (tok2 : ascii -> ascii -> bool)
    (tok3 : ascii -> ascii -> ascii -> bool) (l : list ascii) : Prop :=
  match l with
  | [] => True
  | a :: rest =>
      Py.is_space a = false
      /\ match rest with
         | [] => True
         | b :: rest2 =>
             tok2 a b = false
             /\ match rest2 with
                | [] => True
                | c :: _ => tok3 a b c = false
                end
         end
  end.

(** ** History and deletion ([generation_service.py], lines 283-339) *)

(** The row under id [kv.1] belongs to [uid]. *)
Definition owned_by (uid : Z) (kv : Z * Generation) : Prop := gen_user_id kv.2 = uid.

Global Instance owned_by_dec uid kv : Decision (owned_by uid kv).
Proof. unfold owned_by. apply _. Defined.

(** The filter of [delete_generations]: the id is listed and the row
    belongs to [uid]. *)
Definition listed (uid : Z) (generation_ids : list Z) (kv : Z * Generation) : Prop :=
  kv.1 ∈ generation_ids /\ gen_user_id kv.2 = uid.

Global Instance listed_dec uid ids kv : Decision (listed uid ids kv).
Proof. unfold listed. apply _. Defined.

(** The rows of [uid], in no particular order. *)
Definition user_rows (uid : Z) (d : DB) : list Generation :=
  (map_to_list (filter (owned_by uid) (generations d))).*2.

(** The dict [get_generation_history] returns. *)
Record History : Type := mkHistory {
  history_generations : list Generation;
  total_count : nat
}.

(** [get_generation_history], lines 283-302.  [newest_first] is the
    [ORDER BY created_at DESC] of the database ([created_at] is a column
    that [Generation] does not carry); [skip] and [limit] are natural
    numbers, as the router admits them ([ge=0], [ge=1]). *)
Definition get_generation_history (newest_first : list Generation -> list Generation)
    (d : DB) (uid : Z) (skip limit : nat) : History :=
  {| history_generations := take limit (drop skip (newest_first (user_rows uid d)));
     total_count := length (user_rows uid d) |}.

(** [delete_generations], lines 304-322: the rows whose id is listed and
    that belong to the caller are deleted; the result tells whether a row
    was deleted.  (The handler of line 320 is for errors of the database,
    which this session does not have.) *)
Definition delete_generations (uid : Z) (generation_ids : list Z) : M bool :=
  (d <- get_db ;;
   let deleted_count := base.size (filter (listed uid generation_ids) (generations d)) in
   put_db {| users := users d; api_configs := api_configs d;
             generations := filter (fun kv => ~ listed uid generation_ids kv) (generations d);
             generation_seq := generation_seq d |} ;;;
   ret (0 <? deleted_count)%nat)%M.

(** [clear_user_generations], lines 324-339. *)
Definition clear_user_generations (uid : Z) : M bool :=
  (d <- get_db ;;
   let deleted_count := base.size (filter (owned_by uid) (generations d)) in
   put_db {| users := users d; api_configs := api_configs d;
             generations := filter (fun kv => ~ owned_by uid kv) (generations d);
             generation_seq := generation_seq d |} ;;;
   ret (0 <? deleted_count)%nat)%M.

(** ** Redemption codes ([user_service.py], lines 120-189) *)

(** Rows of [redemption_codes], [redemptions] and [invite_codes]
    ([created_at] and [redeemed_at] are not represented). *)
Record RedemptionCode : Type := mkRedemptionCode {
  rc_id : Z;
  rc_code : string;
  rc_points : Z;
  rc_is_used : bool;
  rc_created_by : Z;
  rc_used_by : option Z;
  rc_used_at : option Z;
  rc_expires_at : option Z
}.

Record Redemption : Type := mkRedemption {
  rd_user_id : Z;
  rd_code_id : Z;
  rd_points_redeemed : Z
}.

Record InviteCode : Type := mkInviteCode {
  ic_id : Z;
  ic_code : string;
  ic_is_used : bool;
  ic_used_by : option Z;
  ic_created_by : Z;
  ic_used_at : option Z;
  ic_expires_at : option Z
}.

(** The session with the three further tables, each in the order of its
    ids, and the last id the [users] table handed out. *)
Record Shop : Type := mkShop {
  shop_st : St;
  redemption_codes : list RedemptionCode;
  redemptions : list Redemption;
  invite_codes : list InviteCode;
  user_seq : Z
}.

Definition SM (A : Type) : Type := Shop -> Res A * Shop.

Definition sret {A} (a : A) : SM A := fun s => (Ok a, s).

Definition sraise {A} (e : Exc) : SM A := fun s => (Raise e, s).

Definition sbind {A B} (m : SM A) (k : A -> SM B) : SM B :=
  fun s =>
    match m s with
    | (Ok a, s') => k a s'
    | (Raise e, s') => (Raise e, s')
    end.

Declare Scope shop_scope.
Delimit Scope shop_scope with S.
Notation "x <- m ;; k" := (sbind m (fun x => k))
  (at level 90, m at level 80, right associativity) : shop_scope.
Notation "m ;;; k" := (sbind m (fun _ => k))
  (at level 90, right associativity) : shop_scope.

Definition sget : SM Shop := fun s => (Ok s, s).

Definition sput (s : Shop) : SM unit := fun _ => (Ok tt, s).

(** A computation of the session, run in the shop. *)
Definition lift_st {A} (m : M A) : SM A :=
  fun s =>
    let '(r, st') := m (shop_st s) in
    (r, {| shop_st := st'; redemption_codes := redemption_codes s;
           redemptions := redemptions s; invite_codes := invite_codes s;
           user_seq := user_seq s |}).

(** [x.expires_at and x.expires_at < datetime.utcnow()] *)
Definition expired (expires_at : option Z) (now : Z) : bool :=
  match expires_at with
  | Some e => e <? now
  | None => false
  end.

(** The row a query returned is the row an assignment changes: the first
    row that satisfies the filter. *)
Fixpoint update_first {A} (p : A -> bool) (f : A -> A) (l : list A) : list A :=
  match l with
  | [] => []
  | x :: rest => if p x then f x :: rest else x :: update_first p f rest
  end.

Definition has_code (code : string) (rc : RedemptionCode) : bool :=
  String.eqb (rc_code rc) code.

(** Lines 163-165. *)
Definition redeemed_by (uid : Z) (now : Z) (rc : RedemptionCode) : RedemptionCode :=
  {| rc_id := rc_id rc; rc_code := rc_code rc; rc_points := rc_points rc;
     rc_is_used := true; rc_created_by := rc_created_by rc;
     rc_used_by := Some uid; rc_used_at := Some now;
     rc_expires_at := rc_expires_at rc |}.

Record RedeemCodeResponse : Type := mkRedeemCodeResponse {
  success : bool;
  message : string;
  points_added : Z;
  total_points : Z
}.

(** [redeem_code], lines 142-189.  [utcnow 0] is the clock at line 155 and
    [utcnow 1] the clock at line 165.  (The handler of line 187 is for
    errors of the database, which this session does not have.) *)
Definition redeem_code (utcnow : nat -> Z) (code : string) (uid : Z)
  : SM RedeemCodeResponse :=
  (s <- sget ;;
   match find (has_code code) (redemption_codes s) with
   | None => sraise (HTTPException 404 "Invalid redemption code")
   | Some redemption_code =>
       if rc_is_used redemption_code
       then sraise (HTTPException 400 "Code has already been used")
       else if expired (rc_expires_at redemption_code) (utcnow 0%nat)
       then sraise (HTTPException 400 "Code has expired")
       else
         user <- lift_st (UserService.get_user_by_id uid) ;;
         sput {| shop_st := shop_st s;
                 redemption_codes :=
                   update_first (has_code code) (redeemed_by uid (utcnow 1%nat))
                     (redemption_codes s);
                 redemptions :=
                   redemptions s
                   ++ [{| rd_user_id := uid; rd_code_id := rc_id redemption_code;
                          rd_points_redeemed := rc_points redemption_code |}];
                 invite_codes := invite_codes s;
                 user_seq := user_seq s |} ;;;
         lift_st (UserService.store_points uid user
                    (points user + rc_points redemption_code)) ;;;
         sret {| success := true; message := "Code redeemed successfully";
                 points_added := rc_points redemption_code;
                 total_points := points user + rc_points redemption_code |}
   end)%S.

(** The loop of lines 124-127 and 222-225: candidates are drawn until one
    is not in the table.  [rand i] is the i-th candidate that
    [random.choices] produces; the loop is cut after [fuel] draws. *)
Fixpoint fresh_code (taken : string -> bool) (rand : nat -> string) (fuel i : nat)
  : option string :=
  match fuel with
  | O => None
  | S fuel' => if taken (rand i) then fresh_code taken rand fuel' (S i) else Some (rand i)
  end.

Definition code_taken (s : Shop) (code : string) : bool :=
  existsb (has_code code) (redemption_codes s).

(** The row of lines 130-135.  A new row gets the next id of a table from
    which nothing is ever deleted. *)
Definition new_redemption_code (s : Shop) (code : string) (pts created_by : Z)
    (expires_at : option Z) : RedemptionCode :=
  {| rc_id := Z.of_nat (length (redemption_codes s)) + 1;
     rc_code := code; rc_points := pts; rc_is_used := false;
     rc_created_by := created_by; rc_used_by := None;
     rc_used_at := None; rc_expires_at := expires_at |}.

(** [generate_redemption_code], lines 120-140; [None] when the loop has
    not ended after [fuel] draws. *)
Definition generate_redemption_code (rand : nat -> string) (fuel : nat)
    (pts : Z) (created_by : Z) (expires_at : option Z) (s : Shop)
  : option (Res string * Shop) :=
  match fresh_code (code_taken s) rand fuel 0 with
  | None => None
  | Some code =>
      Some (Ok code,
            {| shop_st := shop_st s;
               redemption_codes :=
                 redemption_codes s
                 ++ [new_redemption_code s code pts created_by expires_at];
               redemptions := redemptions s;
               invite_codes := invite_codes s;
               user_seq := user_seq s |})
  end.

(** The balance of an account in a shop. *)
Definition shop_balance (uid : Z) (s : Shop) : option Z := balance uid (shop_st s).

(** ** Registration and invite codes ([user_service.py], lines 14-68 and 218-262) *)

(** [UserCreate] of [schemas.py].  The password reaches only the hash that
    is stored with the row, which is not represented. *)
Record UserCreate : Type := mkUserCreate {
  uc_username : string;
  uc_password : string;
  uc_invite_code : option string
}.

(** [db.query(User).filter(User.username == name).first()] is a row. *)
Definition username_taken (d : DB) (name : string) : bool :=
  existsb (fun u => String.eqb (username u) name) (map snd (map_to_list (users d))).

(** The filter of lines 24-27 and 250-253: the code, not yet used. *)
Definition open_invite (code : string) (ic : InviteCode) : bool :=
  String.eqb (ic_code ic) code && negb (ic_is_used ic).

(** Lines 52-54 and 62: after the second commit [used_by] is the id of the
    new row. *)
Definition invited (uid : Z) (now : Z) (ic : InviteCode) : InviteCode :=
  {| ic_id := ic_id ic; ic_code := ic_code ic; ic_is_used := true;
     ic_used_by := Some uid; ic_created_by := ic_created_by ic;
     ic_used_at := Some now; ic_expires_at := ic_expires_at ic |}.

(** The row of lines 43-47 with the defaults of its columns. *)
Definition new_user (uid : Z) (name : string) : User :=
  {| user_id := uid; username := name; is_active := true; is_admin := false;
     points := 0 |}.

(** Lines 22-39: the invite code the registration will consume, if one
    was given. *)
Definition check_invite (utcnow : nat -> Z) (user_data : UserCreate) (s : Shop)
  : Res (option InviteCode) :=
  if Py.truthy_str (uc_invite_code user_data)
  then
    match find (open_invite (default "" (uc_invite_code user_data))) (invite_codes s) with
    | None => Raise (HTTPException 400 "邀请码无效或已被使用")
    | Some invite_code_obj =>
        if expired (ic_expires_at invite_code_obj) (utcnow 0%nat)
        then Raise (HTTPException 400 "邀请码已过期")
        else Ok (Some invite_code_obj)
    end
  else
    if (0 <? base.size (users (db (shop_st s))))%nat
    then Raise (HTTPException 400 "需要有效的邀请码才能注册")
    else Ok None.

(** [create_user], lines 14-68.  [utcnow 0] is the clock at line 33 and
    [utcnow 1] the clock at line 54.  The new row gets the next id of a
    table from which nothing is ever deleted.  (The handler of line 66 is
    for a violated constraint; the only constraint on the row is the
    uniqueness that line 18 has checked.) *)
Definition create_user (utcnow : nat -> Z) (user_data : UserCreate) : SM User :=
  (s <- sget ;;
   if username_taken (db (shop_st s)) (uc_username user_data)
   then sraise (HTTPException 400 "用户名已存在")
   else
     match check_invite utcnow user_data s with
     | Raise e => sraise e
     | Ok invite_code_obj =>
         let uid := user_seq s + 1 in
         let db_user := new_user uid (uc_username user_data) in
         sput {| shop_st :=
                   {| db := {| users := <[uid := db_user]> (users (db (shop_st s)));
                               api_configs := api_configs (db (shop_st s));
                               generations := generations (db (shop_st s));
                               generation_seq := generation_seq (db (shop_st s)) |};
                      events := events (shop_st s);
                      snapshots := snapshots (shop_st s) |};
                 redemption_codes := redemption_codes s;
                 redemptions := redemptions s;
                 invite_codes :=
                   match invite_code_obj with
                   | Some ic =>
                       update_first (open_invite (ic_code ic))
                         (invited uid (utcnow 1%nat)) (invite_codes s)
                   | None => invite_codes s
                   end;
                 user_seq := uid |} ;;;
         sret db_user
     end)%S.

(** [validate_invite_code], lines 247-262. *)
Definition validate_invite_code (utcnow : nat -> Z) (code : string) (s : Shop) : bool :=
  match find (open_invite code) (invite_codes s) with
  | None => false
  | Some invite_code =>
      if expired (ic_expires_at invite_code) (utcnow 0%nat) then false else true
  end.

Definition invite_taken (s : Shop) (code : string) : bool :=
  existsb (fun ic => String.eqb (ic_code ic) code) (invite_codes s).

(** The row of lines 228-232. *)
Definition new_invite_code (s : Shop) (code : string) (created_by : Z)
    (expires_at : option Z) : InviteCode :=
  {| ic_id := Z.of_nat (length (invite_codes s)) + 1;
     ic_code := code; ic_is_used := false; ic_used_by := None;
     ic_created_by := created_by; ic_used_at := None;
     ic_expires_at := expires_at |}.

(** [generate_invite_code], lines 218-237; [None] when the loop has not
    ended after [fuel] draws. *)
Definition generate_invite_code (rand : nat -> string) (fuel : nat)
    (created_by : Z) (expires_at : option Z) (s : Shop)
  : option (Res string * Shop) :=
  match fresh_code (invite_taken s) rand fuel 0 with
  | None => None
  | Some code =>
      Some (Ok code,
            {| shop_st := shop_st s;
               redemption_codes := redemption_codes s;
               redemptions := redemptions s;
               invite_codes :=
                 invite_codes s ++ [new_invite_code s code created_by expires_at];
               user_seq := user_seq s |})
  end.

(** The ids of the [users] table are those handed out so far. *)
Definition users_wf (s : Shop) : Prop :=
  forall k, is_Some (users (db (shop_st s)) !! k) -> k <= user_seq s.

(** The shop after a registration that consumed the invite code
    [invite_code_obj]. *)
Definition registered (utcnow : nat -> Z) (user_data : UserCreate)
    (invite_code_obj : option InviteCode) (s : Shop) : Shop :=
  {| shop_st :=
       {| db := {| users := <[user_seq s + 1 :=
                               new_user (user_seq s + 1) (uc_username user_data)]>
                              (users (db (shop_st s)));
                   api_configs := api_configs (db (shop_st s));
                   generations := generations (db (shop_st s));
                   generation_seq := generation_seq (db (shop_st s)) |};
          events := events (shop_st s);
          snapshots := snapshots (shop_st s) |};
     redemption_codes := redemption_codes s;
     redemptions := redemptions s;
     invite_codes :=
       match invite_code_obj with
       | Some ic =>
           update_first (open_invite (ic_code ic))
             (invited (user_seq s + 1) (utcnow 1%nat)) (invite_codes s)
       | None => invite_codes s
       end;
     user_seq := user_seq s + 1 |}.

(** ** API configurations ([user_service.py], lines 291-347) *)

(** [ApiConfigCreate] of [schemas.py]. *)
Record ApiConfigCreate : Type := mkApiConfigCreate {
  acc_config_key : string;
  acc_api_key : string;
  acc_api_base_url : string;
  acc_optimizer_model : option string;
  acc_system_prompt : option string
}.

Definition has_key (key : string) (c : ApiConfig) : bool :=
  String.eqb (config_key c) key.

(** [db.delete(row)] for the row a query returned: the first row that
    satisfies the filter. *)
Fixpoint delete_first {A} (p : A -> bool) (l : list A) : list A :=
  match l with
  | [] => []
  | x :: rest => if p x then rest else x :: delete_first p rest
  end.

(** The row of lines 298-305. *)
Definition new_api_config (config_data : ApiConfigCreate) : ApiConfig :=
  {| config_key := acc_config_key config_data;
     api_key := acc_api_key config_data;
     api_base_url := acc_api_base_url config_data;
     cfg_optimizer_model := acc_optimizer_model config_data;
     cfg_system_prompt := acc_system_prompt config_data;
     cfg_is_active := true |}.

(** [create_api_config], lines 291-310.  The table is in the order of its
    ids, so a new row is the last one. *)
Definition create_api_config (config_data : ApiConfigCreate) : M ApiConfig :=
  (d <- get_db ;;
   match find (has_key (acc_config_key config_data)) (api_configs d) with
   | Some _ => raise (HTTPException 400 "配置键已存在")
   | None =>
       let config := new_api_config config_data in
       put_db {| users := users d;
                 api_configs := api_configs d ++ [config];
                 generations := generations d;
                 generation_seq := generation_seq d |} ;;;
       ret config
   end)%M.

(** [delete_api_config], lines 339-347. *)
Definition delete_api_config (key : string) : M unit :=
  (d <- get_db ;;
   match find (has_key key) (api_configs d) with
   | None => raise (HTTPException 404 "配置不存在")
   | Some _ =>
       put_db {| users := users d;
                 api_configs := delete_first (has_key key) (api_configs d);
                 generations := generations d;
                 generation_seq := generation_seq d |}
   end)%M.

(** ** Further sample data *)

(** The sample world and the sample account with a balance of [p]. *)
Definition sample_provider : World := sample_world sample_optimizer sample_item.

Definition bob (p : Z) : User := mkUser 7 "bob" true false p.

(** The body of the sample optimizer's answer. *)
Definition sample_chat : json :=
  JObj [("choices",
         JArr [JObj [("message", JObj [("content", JStr " a cat, oil on canvas ")])]])].

(** A configuration that names no optimizer model and no system prompt. *)
Definition plain_config : ApiConfig :=
  {| config_key := "plain"; api_key := "sk-1"; api_base_url := "https://api";
     cfg_optimizer_model := None; cfg_system_prompt := None;
     cfg_is_active := true |}.

Definition plain_db (p : Z) : DB :=
  {| users := {[ 7 := mkUser 7 "bob" true false p ]};
     api_configs := [plain_config];
     generations := ∅;
     generation_seq := 0 |}.

(** A world whose decoder rejects every string. *)
Definition strict_world : World :=
  {| optimizer_api := optimizer_api sample_provider;
     image_api := image_api sample_provider;
     utcnow := utcnow sample_provider;
     b64decode := fun _ => None;
     json_dumps := fun _ => "{}";
     py_repr := fun _ => "?";
     commit_error := commit_error sample_provider |}.

(** An edit request: two models and an image. *)
Definition edit_request : GenerationRequest :=
  {| req_prompt := "cat"; enable_optimization := false; models := ["m1"; "m2"];
     size := "1024x1024"; output_format := "png"; image_file := Some "not base64";
     req_optimizer_model := None; req_system_prompt := None |}.

(** The database after a batch of two models on the sample data. *)
Definition stored_db : DB := db (snd (sample_run false ["m1"; "m2"] 5)).

Definition sample_clock (i : nat) : Z := 1000 + Z.of_nat i.

Definition gift_code : RedemptionCode :=
  {| rc_id := 1; rc_code := "GIFT"; rc_points := 10; rc_is_used := false;
     rc_created_by := 7; rc_used_by := None; rc_used_at := None;
     rc_expires_at := Some 2000 |}.

Definition open_code : InviteCode :=
  {| ic_id := 1; ic_code := "INVITE01"; ic_is_used := false; ic_used_by := None;
     ic_created_by := 7; ic_used_at := None; ic_expires_at := None |}.

(** A shop with one user without points, one redemption code worth 10
    points and one invite code. *)
Definition sample_shop : Shop :=
  {| shop_st := session (sample_db 0);
     redemption_codes := [gift_code];
     redemptions := [];
     invite_codes := [open_code];
     user_seq := 7 |}.

(** A shop before the first registration. *)
Definition empty_shop : Shop :=
  {| shop_st := session {| users := ∅; api_configs := []; generations := ∅;
                           generation_seq := 0 |};
     redemption_codes := []; redemptions := []; invite_codes := [];
     user_seq := 0 |}.

(** Candidates of the generators: the first one is in the table. *)
Definition gift_rand (i : nat) : string :=
  match i with O => "GIFT" | _ => "FRESH1234567" end.

Definition invite_rand (i : nat) : string :=
  match i with O => "INVITE01" | _ => "WELCOME2" end.

Definition alice : UserCreate :=
  {| uc_username := "alice"; uc_password := "secret"; uc_invite_code := Some "INVITE01" |}.

Definition carol : UserCreate :=
  {| uc_username := "carol"; uc_password := "secret"; uc_invite_code := Some "WELCOME2" |}.

Definition founder : UserCreate :=
  {| uc_username := "root"; uc_password := "secret"; uc_invite_code := None |}.

Definition backup_config : ApiConfigCreate :=
  {| acc_config_key := "backup"; acc_api_key := "sk-2";
     acc_api_base_url := "https://api.openai.com";
     acc_optimizer_model := Some "gpt-4o-mini"; acc_system_prompt := None |}.

(** * Properties *)

(** ** The ledger *)

Section Ledger.
Import UserService.

Lemma deduct_points_insufficient uid amount st user :
  users (db st) !! uid = Some user ->
  points user < amount ->
  deduct_points uid amount st = (Raise (HTTPException 400 "Insufficient points"), st).
Proof.
  intros Hu Hlt. unfold deduct_points, deduct_points_with, get_user_by_id, bind, get_db. simpl.
  rewrite Hu. simpl.
  destruct (Z.ltb_spec (points user) amount); [reflexivity | lia].
Qed.

Lemma deduct_points_sufficient uid amount st user :
  users (db st) !! uid = Some user ->
  amount <= points user ->
  deduct_points uid amount st =
    (Ok true,
     {| db := {| users := <[uid := set_points user (points user - amount)]> (users (db st));
                 api_configs := api_configs (db st);
                 generations := generations (db st);
                 generation_seq := generation_seq (db st) |};
        events := events st ++ [EvDebit uid amount];
        snapshots := snapshots st |}).
Proof.
  intros Hu Hle. unfold deduct_points, deduct_points_with, get_user_by_id, bind, get_db. simpl.
  rewrite Hu. simpl.
  destruct (Z.ltb_spec (points user) amount); [lia | reflexivity].
Qed.

Lemma deduct_points_no_user uid amount st :
  users (db st) !! uid = None ->
  deduct_points uid amount st = (Raise (HTTPException 404 "User not found"), st).
Proof.
  intros Hu. unfold deduct_points, deduct_points_with, get_user_by_id, bind, get_db. simpl.
  rewrite Hu. reflexivity.
Qed.

Lemma add_points_run uid amount st user :
  users (db st) !! uid = Some user ->
  add_points uid amount st =
    (Ok true,
     {| db := {| users := <[uid := set_points user (points user + amount)]> (users (db st));
                 api_configs := api_configs (db st);
                 generations := generations (db st);
                 generation_seq := generation_seq (db st) |};
        events := events st ++ [EvCredit uid amount];
        snapshots := snapshots st |}).
Proof.
  intros Hu. unfold add_points, get_user_by_id, bind, get_db. simpl.
  rewrite Hu. reflexivity.
Qed.

Lemma balance_after_store uid user p d ev sn :
  balance uid {| db := {| users := <[uid := set_points user p]> (users d);
                          api_configs := api_configs d;
                          generations := generations d;
                          generation_seq := generation_seq d |};
                 events := ev; snapshots := sn |} = Some p.
Proof. unfold balance. simpl. rewrite lookup_insert_eq. reflexivity. Qed.

Lemma ledger_op_nonneg uid op st :
  credit_nonneg op ->
  nonneg_balance uid st ->
  nonneg_balance uid (snd (ledger_op uid op st)).
Proof.
  intros Hop (b & Hb & Hpos). unfold balance in Hb.
  destruct (users (db st) !! uid) as [user|] eqn:Hu; [|discriminate].
  simpl in Hb. injection Hb as Hb.
  destruct op as [amount|amount]; simpl in *.
  - destruct (Z.lt_ge_cases (points user) amount) as [Hlt|Hge].
    + rewrite (deduct_points_insufficient _ _ _ _ Hu Hlt). simpl.
      exists b. unfold balance. rewrite Hu. simpl. split; [congruence | lia].
    + rewrite (deduct_points_sufficient _ _ _ _ Hu Hge). simpl.
      exists (points user - amount). split; [apply balance_after_store | lia].
  - rewrite (add_points_run _ amount _ _ Hu). simpl.
    exists (points user + amount). split; [apply balance_after_store | lia].
Qed.

Lemma ledger_trace_nonneg uid ops : forall st,
  Forall credit_nonneg ops ->
  nonneg_balance uid st ->
  Forall (nonneg_balance uid) (ledger_trace uid ops st).
Proof.
  induction ops as [|op rest IH]; intros st Hops Hst; simpl.
  - constructor.
  - inversion Hops as [|? ? Hop Hrest]; subst.
    pose proof (ledger_op_nonneg uid op st Hop Hst) as Hnext.
    constructor; [exact Hnext | apply IH; assumption].
Qed.

End Ledger.

(** ** Runs of [generate_image] *)

Lemma add_events_nil st : add_events st [] = st.
Proof. destruct st. unfold add_events. simpl. rewrite app_nil_r. reflexivity. Qed.

Lemma add_events_app st a b : add_events (add_events st a) b = add_events st (a ++ b).
Proof. unfold add_events. simpl. rewrite <- app_assoc. reflexivity. Qed.

Lemma call_ai_api_run w i request p m cfg st :
  exists r, _call_ai_api w i request p m cfg st
            = (Ok r, add_events st (image_events w i request p m cfg)).
Proof.
  unfold _call_ai_api, image_events, try_except, bind, lift, emit, ret, raise.
  destruct (image_request w request p m (api_key cfg) (api_base_url cfg)) as [rq|e].
  - fold (add_events st [EvImage i rq]).
    destruct (image_api w i rq) as [msg|code t body]; [eauto|].
    destruct (code =? 200); [|eauto].
    destruct (response_json body) as [result|e]; [|eauto].
    destruct (_extract_image_data result) as [[d|]|e]; eauto.
  - rewrite add_events_nil. eauto.
Qed.

Lemma loop_body_run w request p cfg i g st :
  exists g', loop_body w request p cfg i g st
             = (Ok g', add_events st (image_events w i request p (model g) cfg))
             /\ record_step g g'.
Proof.
  unfold loop_body, try_except, bind.
  destruct (call_ai_api_run w i request p (model g) cfg st) as [r ->].
  destruct r as [url b64 raw|err]; unfold ret; eexists; (split; [reflexivity|]); constructor.
Qed.

Lemma models_loop_run w request p cfg gens : forall i st,
  exists gens', models_loop w request p cfg i gens st
                = (Ok gens', add_events st (loop_events w request p cfg i gens))
                /\ Forall2 record_step gens gens'.
Proof.
  induction gens as [|g rest IH]; intros i st; simpl.
  - exists []. rewrite add_events_nil. split; [reflexivity | constructor].
  - unfold bind at 1.
    destruct (loop_body_run w request p cfg i g st) as (g' & -> & Hg).
    unfold bind at 1.
    destruct (IH (S i) (add_events st (image_events w i request p (model g) cfg)))
      as (rest' & -> & Hrest).
    exists (g' :: rest'). rewrite add_events_app. split; [reflexivity|].
    constructor; assumption.
Qed.

Lemma bind_ok {A B} (m : M A) (k : A -> M B) st a st' :
  m st = (Ok a, st') -> bind m k st = k a st'.
Proof. intros H. unfold bind. rewrite H. reflexivity. Qed.

Lemma bind_raise {A B} (m : M A) (k : A -> M B) st e st' :
  m st = (Raise e, st') -> bind m k st = (Raise e, st').
Proof. intros H. unfold bind. rewrite H. reflexivity. Qed.

Lemma get_user_by_id_found uid st user :
  users (db st) !! uid = Some user ->
  UserService.get_user_by_id uid st = (Ok user, st).
Proof.
  intros Hu. unfold UserService.get_user_by_id, bind, get_db. simpl. rewrite Hu.
  reflexivity.
Qed.

Lemma get_user_by_id_missing uid st :
  users (db st) !! uid = None ->
  UserService.get_user_by_id uid st = (Raise (HTTPException 404 "User not found"), st).
Proof.
  intros Hu. unfold UserService.get_user_by_id, bind, get_db. simpl. rewrite Hu.
  reflexivity.
Qed.

Lemma no_success_filter (gens : list Generation) :
  (0 <? length (filter (fun g => status g = completed) gens))%nat = false
  <-> Forall (fun g => status g <> completed) gens.
Proof.
  induction gens as [|g rest IH]; simpl.
  - split; [constructor | reflexivity].
  - rewrite filter_cons. destruct (decide (status g = completed)) as [Hc|Hc]; simpl.
    + split; [discriminate|]. intros HF. inversion HF; subst. contradiction.
    + rewrite IH. split; [intros; constructor; assumption|].
      intros HF. inversion HF; assumption.
Qed.

Lemma some_success_filter (gens : list Generation) :
  (0 <? length (filter (fun g => status g = completed) gens))%nat = true
  <-> Exists (fun g => status g = completed) gens.
Proof.
  induction gens as [|g rest IH]; simpl.
  - split; [discriminate|]. intros HE. inversion HE.
  - rewrite filter_cons. destruct (decide (status g = completed)) as [Hc|Hc]; simpl.
    + split; [intros; left; assumption | reflexivity].
    + rewrite IH. split; [intros; right; assumption|].
      intros HE. inversion HE; [contradiction | assumption].
Qed.

Lemma flushable_ok w gens st :
  forallb writable gens = true -> flushable w gens st = (Ok tt, st).
Proof. intros H. unfold flushable. rewrite H. reflexivity. Qed.

Lemma flushable_raise w gens st :
  forallb writable gens = false ->
  flushable w gens st = (Raise (commit_error w gens), st).
Proof. intros H. unfold flushable. rewrite H. reflexivity. Qed.

Lemma commit_ok w gens st :
  forallb writable gens = true ->
  commit w gens st
  = (Ok tt,
     {| db := {| users := users (db st); api_configs := api_configs (db st);
                 generations := flush gens (generations (db st));
                 generation_seq := generation_seq (db st) |};
        events := events st; snapshots := snapshots st |}).
Proof.
  intros H. unfold commit. rewrite (bind_ok _ _ _ _ _ (flushable_ok w gens st H)).
  reflexivity.
Qed.

Lemma commit_raise w gens st :
  forallb writable gens = false ->
  commit w gens st = (Raise (commit_error w gens), st).
Proof.
  intros H. unfold commit. rewrite (bind_raise _ _ _ _ _ (flushable_raise w gens st H)).
  reflexivity.
Qed.

Lemma writable_charge_none gens :
  forallb writable (charge_none gens) = forallb writable gens.
Proof.
  unfold charge_none. induction gens as [|g rest IH]; simpl; [reflexivity|].
  rewrite IH. reflexivity.
Qed.

Lemma writable_charge_all p gens :
  forallb writable (charge_all p gens) = forallb writable gens.
Proof.
  unfold charge_all. induction gens as [|g rest IH]; simpl; [reflexivity|].
  rewrite IH. destruct (is_completed g); reflexivity.
Qed.

Lemma writable_fail_all e gens :
  forallb writable (fail_all e gens) = forallb writable gens.
Proof.
  unfold fail_all. induction gens as [|g rest IH]; simpl; [reflexivity|].
  rewrite IH. reflexivity.
Qed.

Lemma settle_no_success w uid request gens st :
  Forall (fun g => status g <> completed) gens ->
  forallb writable gens = true ->
  exists st', settle w uid request gens st = (Ok (charge_none gens), st')
              /\ same_ledger st st'
              /\ generations (db st') = flush (charge_none gens) (generations (db st))
              /\ generation_seq (db st') = generation_seq (db st).
Proof.
  intros HF Hw. apply no_success_filter in HF.
  unfold settle. rewrite HF. unfold bind at 1. unfold ret at 1.
  rewrite (bind_ok _ _ _ _ _ (commit_ok w _ st (eq_trans (writable_charge_none gens) Hw))).
  eexists. split; [reflexivity|]. repeat split.
Qed.

Lemma deduct_points_with_sufficient pending uid amount st user :
  users (db st) !! uid = Some user ->
  amount <= points user ->
  pending st = (Ok tt, st) ->
  UserService.deduct_points_with pending uid amount st = UserService.deduct_points uid amount st.
Proof.
  intros Hu Hle Hp. unfold UserService.deduct_points, UserService.deduct_points_with.
  rewrite !(bind_ok _ _ _ _ _ (get_user_by_id_found uid st user Hu)).
  destruct (Z.ltb_spec (points user) amount) as [Hlt|_]; [lia|].
  rewrite (bind_ok _ _ _ _ _ Hp). reflexivity.
Qed.

Lemma deduct_points_with_insufficient pending uid amount st user :
  users (db st) !! uid = Some user ->
  points user < amount ->
  UserService.deduct_points_with pending uid amount st
  = (Raise (HTTPException 400 "Insufficient points"), st).
Proof.
  intros Hu Hlt. unfold UserService.deduct_points_with.
  rewrite (bind_ok _ _ _ _ _ (get_user_by_id_found uid st user Hu)).
  destruct (Z.ltb_spec (points user) amount) as [_|Hge]; [reflexivity | lia].
Qed.

Lemma deduct_points_with_raise pending uid amount st user e :
  users (db st) !! uid = Some user ->
  amount <= points user ->
  pending st = (Raise e, st) ->
  UserService.deduct_points_with pending uid amount st = (Raise e, st).
Proof.
  intros Hu Hle Hp. unfold UserService.deduct_points_with.
  rewrite (bind_ok _ _ _ _ _ (get_user_by_id_found uid st user Hu)).
  destruct (Z.ltb_spec (points user) amount) as [Hlt|_]; [lia|].
  rewrite (bind_raise _ _ _ _ _ Hp). reflexivity.
Qed.

Lemma settle_charged w uid request gens st user :
  Exists (fun g => status g = completed) gens ->
  users (db st) !! uid = Some user ->
  points_to_deduct request <= points user ->
  forallb writable gens = true ->
  exists st', settle w uid request gens st
                = (Ok (charge_all (points_to_deduct request) gens), st')
              /\ users (db st')
                 = <[uid := set_points user (points user - points_to_deduct request)]>
                     (users (db st))
              /\ api_configs (db st') = api_configs (db st)
              /\ events st' = events st ++ [EvDebit uid (points_to_deduct request)]
              /\ snapshots st' = snapshots st
              /\ generations (db st')
                 = flush (charge_all (points_to_deduct request) gens) (generations (db st))
              /\ generation_seq (db st') = generation_seq (db st).
Proof.
  intros HE Hu Hle Hw. apply some_success_filter in HE.
  unfold settle. rewrite HE. unfold bind at 1. unfold bind at 1.
  rewrite (deduct_points_with_sufficient _ _ _ _ _ Hu Hle (flushable_ok w gens st Hw)).
  rewrite (deduct_points_sufficient _ _ _ _ Hu Hle). unfold ret at 1.
  rewrite (bind_ok _ _ _ _ _
             (commit_ok w _ _ (eq_trans (writable_charge_all _ gens) Hw))).
  eexists. split; [reflexivity|]. repeat split.
Qed.

Lemma settle_refused w uid request gens st user :
  Exists (fun g => status g = completed) gens ->
  users (db st) !! uid = Some user ->
  points user < points_to_deduct request ->
  settle w uid request gens st = (Raise (HTTPException 400 "Insufficient points"), st).
Proof.
  intros HE Hu Hlt. apply some_success_filter in HE.
  unfold settle. rewrite HE. unfold bind at 1. unfold bind at 1.
  rewrite (deduct_points_with_insufficient _ _ _ _ _ Hu Hlt). reflexivity.
Qed.

(** A batch that cannot be written leaves the settlement through an
    exception, whatever the balance, and the session as it was. *)
Lemma settle_unwritable w uid request gens st user :
  users (db st) !! uid = Some user ->
  forallb writable gens = false ->
  exists e, settle w uid request gens st = (Raise e, st).
Proof.
  intros Hu Hw. unfold settle.
  destruct (0 <? length (filter (fun g => status g = completed) gens))%nat.
  - unfold bind at 1. unfold bind at 1.
    destruct (Z.lt_ge_cases (points user) (points_to_deduct request)) as [Hlt|Hge].
    + rewrite (deduct_points_with_insufficient _ _ _ _ _ Hu Hlt). eauto.
    + rewrite (deduct_points_with_raise _ _ _ _ _ _ Hu Hge (flushable_raise w gens st Hw)).
      eauto.
  - unfold bind at 1. unfold ret at 1.
    rewrite (bind_raise _ _ _ _ _
               (commit_raise w _ st (eq_trans (writable_charge_none gens) Hw))).
    eauto.
Qed.

Lemma fail_batch_run w e gens st :
  forallb writable gens = true ->
  exists st', fail_batch w e gens st = (Ok (fail_all e gens), st')
    /\ same_ledger st st'
    /\ generations (db st') = flush (fail_all e gens) (generations (db st))
    /\ generation_seq (db st') = generation_seq (db st).
Proof.
  intros Hw. unfold fail_batch.
  rewrite (bind_ok _ _ _ _ _ (commit_ok w _ st (eq_trans (writable_fail_all e gens) Hw))).
  eexists. split; [reflexivity|]. repeat split.
Qed.

Lemma fail_batch_unwritable w e gens st :
  forallb writable gens = false ->
  fail_batch w e gens st = (Raise (commit_error w (fail_all e gens)), st).
Proof.
  intros Hw. unfold fail_batch.
  rewrite (bind_raise _ _ _ _ _
             (commit_raise w _ st (eq_trans (writable_fail_all e gens) Hw))).
  reflexivity.
Qed.

Lemma optimize_prompt_run w svc prompt om ak bu sp st :
  exists s oevs, optimize_prompt w svc prompt om ak bu sp st = (Ok s, add_events st oevs)
                 /\ (oevs = [] \/ exists rq, oevs = [EvOptimize rq]).
Proof.
  unfold optimize_prompt.
  destruct (negb (Py.truthy_str (Py.or_str ak (Some (default_api_key svc))))).
  - exists prompt, []. rewrite add_events_nil. split; [reflexivity | left; reflexivity].
  - unfold try_except, bind, emit, lift, ret, raise.
    match goal with |- context [optimizer_api w ?r] => set (rq := r) end.
    fold (add_events st [EvOptimize rq]).
    assert (Hev : [EvOptimize rq] = [] \/ exists r, [EvOptimize rq] = [EvOptimize r])
      by (right; eauto).
    destruct (optimizer_api w rq) as [msg|code t body]; [eauto|].
    destruct (code =? 200); [|eauto].
    destruct (response_json body) as [result|e]; [|eauto].
    destruct (optimized_text result) as [optimized|e]; eauto.
Qed.

Lemma resolve_prompt_run w svc request cfg st :
  exists s oevs, resolve_prompt w svc request cfg st = (Ok s, add_events st oevs)
                 /\ (oevs = [] \/ exists rq, oevs = [EvOptimize rq]).
Proof.
  unfold resolve_prompt.
  match goal with |- context [if ?c then _ else _] => destruct c end.
  - apply optimize_prompt_run.
  - exists (req_prompt request), []. rewrite add_events_nil.
    split; [reflexivity | left; reflexivity].
Qed.

Lemma success_or_not (gens : list Generation) :
  Forall (fun g => status g <> completed) gens
  \/ Exists (fun g => status g = completed) gens.
Proof.
  destruct (0 <? length (filter (fun g => status g = completed) gens))%nat eqn:E.
  - right. apply some_success_filter. exact E.
  - left. apply no_success_filter. exact E.
Qed.

Lemma get_active_api_config_run st :
  UserService.get_active_api_config st
  = (Ok (find cfg_is_active (api_configs (db st))), st).
Proof. reflexivity. Qed.

Lemma add_all_run gens st :
  add_all gens st
  = (Ok (assign_ids (generation_seq (db st)) gens),
     {| db := {| users := users (db st); api_configs := api_configs (db st);
                 generations := flush (assign_ids (generation_seq (db st)) gens)
                                  (generations (db st));
                 generation_seq := generation_seq (db st) + Z.of_nat (length gens) |};
        events := events st; snapshots := snapshots st |}).
Proof. reflexivity. Qed.

Lemma mark_run gens st :
  mark gens st
  = (Ok tt, {| db := db st; events := events st; snapshots := snapshots st ++ [gens] |}).
Proof. reflexivity. Qed.

(** The part of [generate_image] after the loop, from the session the loop
    left, when the records can be written. *)
Lemma settlement_run w uid request user called st2 :
  users (db st2) !! uid = Some user ->
  forallb writable called = true ->
  exists final st3 devs,
    bind (try_except (settle w uid request called) (fun e => fail_batch w e called))
         (fun generations => bind (mark generations) (fun _ => ret generations)) st2
    = (Ok final, st3)
    /\ Settled uid request user (users (db st2)) called final (users (db st3)) devs
    /\ events st3 = events st2 ++ devs
    /\ snapshots st3 = snapshots st2 ++ [final]
    /\ generations (db st3) = flush final (generations (db st2))
    /\ generation_seq (db st3) = generation_seq (db st2)
    /\ api_configs (db st3) = api_configs (db st2).
Proof.
  intros Hu Hw.
  destruct (success_or_not called) as [Hnone|Hsome].
  - destruct (settle_no_success w uid request called st2 Hnone Hw)
      as (st & Hs & (Hus & Hac & Hev & Hsn) & Ht & Hq).
    exists (charge_none called). eexists. exists [].
    split.
    { unfold bind at 1. unfold try_except. rewrite Hs. reflexivity. }
    simpl. rewrite Hus, Hev, Hsn, app_nil_r.
    repeat split; try assumption. constructor. exact Hnone.
  - destruct (Z.lt_ge_cases (points user) (points_to_deduct request)) as [Hlt|Hge].
    + pose proof (settle_refused w uid request called st2 user Hsome Hu Hlt) as Hs.
      destruct (fail_batch_run w insufficient called st2 Hw)
        as (st & Hf & (Hus & Hac & Hev & Hsn) & Ht & Hq).
      exists (fail_all insufficient called). eexists. exists [].
      split.
      { unfold bind at 1. unfold try_except. rewrite Hs. fold insufficient. rewrite Hf.
        reflexivity. }
      simpl. rewrite Hus, Hev, Hsn, app_nil_r.
      repeat split; try assumption. apply settled_refused; assumption.
    + destruct (settle_charged w uid request called st2 user Hsome Hu Hge Hw)
        as (st & Hs & Hus & Hac & Hev & Hsn & Ht & Hq).
      exists (charge_all (points_to_deduct request) called). eexists.
      exists [EvDebit uid (points_to_deduct request)].
      split.
      { unfold bind at 1. unfold try_except. rewrite Hs. reflexivity. }
      simpl. rewrite Hus, Hev, Hsn.
      repeat split; try assumption. apply settled_charged; assumption.
Qed.

(** When a record cannot be written, the settlement raises, the handler
    raises in its turn, and the session is left as the loop left it. *)
Lemma settlement_raises w uid request user called st2 :
  users (db st2) !! uid = Some user ->
  forallb writable called = false ->
  exists e,
    bind (try_except (settle w uid request called) (fun e => fail_batch w e called))
         (fun generations => bind (mark generations) (fun _ => ret generations)) st2
    = (Raise e, st2).
Proof.
  intros Hu Hw.
  destruct (settle_unwritable w uid request called st2 user Hu Hw) as [e Hs].
  exists (commit_error w (fail_all e called)).
  unfold bind at 1. unfold try_except. rewrite Hs.
  rewrite (fail_batch_unwritable w e called st2 Hw). reflexivity.
Qed.

(** Everything a run that passes the preconditions does: the optimizer,
    the creation of the records and the loop always run; the run returns
    when the records the loop left can be written, and raises
    otherwise. *)
Lemma generate_image_cases w svc uid request d user cfg :
  users d !! uid = Some user ->
  1 <= points user ->
  find cfg_is_active (api_configs d) = Some cfg ->
  exists op oevs called,
    (oevs = [] \/ exists rq, oevs = [EvOptimize rq])
    /\ resolve_prompt w svc request cfg (session d) = (Ok op, add_events (session d) oevs)
    /\ models_loop w request op cfg 0 (created_records d uid request op)
         (loop_start d uid request op oevs)
       = (Ok called,
          add_events (loop_start d uid request op oevs)
            (loop_events w request op cfg 0 (created_records d uid request op)))
    /\ Forall2 record_step (created_records d uid request op) called
    /\ (forallb writable called = true ->
          exists final st' devs,
            generate_image w svc uid request (session d) = (Ok final, st')
            /\ Settled uid request user (users d) called final (users (db st')) devs
            /\ events st' = oevs ++ loop_events w request op cfg 0
                                      (created_records d uid request op) ++ devs
            /\ snapshots st' = [created_records d uid request op; called; final]
            /\ generations (db st')
               = flush final (flush (created_records d uid request op) (generations d))
            /\ generation_seq (db st')
               = generation_seq d + Z.of_nat (length (models request))
            /\ api_configs (db st') = api_configs d)
    /\ (forallb writable called = false ->
          exists e,
            generate_image w svc uid request (session d)
            = (Raise e,
               {| db := db (loop_start d uid request op oevs);
                  events := oevs ++ loop_events w request op cfg 0
                                      (created_records d uid request op);
                  snapshots := [created_records d uid request op; called] |})).
Proof.
  intros Hu Hp Hcfg.
  destruct (resolve_prompt_run w svc request cfg (session d)) as (op & oevs & Hop & Hoevs).
  exists op, oevs.
  set (created := created_records d uid request op).
  set (st1 := loop_start d uid request op oevs).
  destruct (models_loop_run w request op cfg created 0 st1) as (called & Hloop & Hsteps).
  exists called.
  set (st2 := add_events st1 (loop_events w request op cfg 0 created)).
  assert (Hgi : generate_image w svc uid request (session d)
    = bind (try_except (settle w uid request called) (fun e => fail_batch w e called))
           (fun generations => bind (mark generations) (fun _ => ret generations))
           {| db := db st2; events := events st2; snapshots := snapshots st2 ++ [called] |}).
  { unfold generate_image.
    rewrite (bind_ok _ _ _ _ _ (get_user_by_id_found uid (session d) user Hu)).
    destruct (Z.ltb_spec (points user) 1) as [Hlt|_]; [lia|].
    rewrite (bind_ok _ _ _ _ _ (get_active_api_config_run (session d))).
    cbn [db session api_configs]. rewrite Hcfg.
    rewrite (bind_ok _ _ _ _ _ Hop).
    rewrite (bind_ok _ _ _ _ _ (add_all_run _ _)).
    rewrite (bind_ok _ _ _ _ _ (mark_run _ _)).
    cbn [db events snapshots add_events session generation_seq users api_configs
         generations app].
    rewrite List.length_map.
    fold (created_records d uid request op). fold created.
    change {| db := _; events := oevs; snapshots := [created] |} with st1.
    rewrite (bind_ok _ _ _ _ _ Hloop).
    rewrite (bind_ok _ _ _ _ _ (mark_run _ _)).
    reflexivity. }
  split; [exact Hoevs|]. split; [exact Hop|]. split; [exact Hloop|].
  split; [exact Hsteps|]. split.
  - intros Hw.
    destruct (settlement_run w uid request user called
                {| db := db st2; events := events st2;
                   snapshots := snapshots st2 ++ [called] |} Hu Hw)
      as (final & st3 & devs & Htail & Hset & Hev & Hsn & Ht & Hq & Hac).
    exists final, st3, devs.
    split; [rewrite Hgi; exact Htail|].
    split; [exact Hset|]. split; [rewrite Hev; simpl; rewrite app_assoc; reflexivity|].
    split; [rewrite Hsn; reflexivity|].
    split; [rewrite Ht; reflexivity|]. split; [rewrite Hq; reflexivity|]. exact Hac.
  - intros Hw.
    destruct (settlement_raises w uid request user called
                {| db := db st2; events := events st2;
                   snapshots := snapshots st2 ++ [called] |} Hu Hw) as [e Htail].
    exists e. rewrite Hgi. exact Htail.
Qed.

(** What the provider returns as an image is a string or null: what
    [text_payloads] asks of the world. *)
Lemma call_ai_api_text w i request p m cfg st url b64 raw st' :
  text_payloads w ->
  _call_ai_api w i request p m cfg st = (Ok (ImgSuccess url b64 raw), st') ->
  storable url = true /\ storable b64 = true.
Proof.
  intros Htext. unfold _call_ai_api, try_except, bind, lift, emit, ret, raise.
  destruct (image_request w request p m (api_key cfg) (api_base_url cfg)) as [rq|e];
    [|discriminate].
  destruct (image_api w i rq) as [msg|code t body] eqn:Hapi; [discriminate|].
  destruct (Z.eqb_spec code 200) as [->|_]; [|discriminate].
  destruct body as [result|]; simpl; [|discriminate].
  destruct (_extract_image_data result) as [[fields|]|e] eqn:Hex; try discriminate.
  intros [= <- <- _ _].
  pose proof (Htext i rq t result fields Hapi Hex) as Hf.
  assert (Hget : forall k, storable (dict_get fields k) = true).
  { intros k. unfold dict_get. clear -Hf.
    induction Hf as [|[k' v] rest Hv _ IH]; simpl; [reflexivity|].
    destruct (String.eqb k k'); [|exact IH].
    destruct v; simpl in Hv; try contradiction; reflexivity. }
  split; apply Hget.
Qed.

Lemma loop_body_writable w request p cfg i g st g' st' :
  text_payloads w ->
  writable g = true ->
  loop_body w request p cfg i g st = (Ok g', st') ->
  writable g' = true.
Proof.
  intros Htext Hg. unfold loop_body, try_except, bind.
  destruct (_call_ai_api w i request p (model g) cfg st) as [[r|e] st1] eqn:Hcall.
  - destruct r as [url b64 raw|err]; unfold ret; intros [= <- _].
    + destruct (call_ai_api_text _ _ _ _ _ _ _ _ _ _ _ Htext Hcall) as [H1 H2].
      unfold writable. simpl. rewrite H1, H2. reflexivity.
    + exact Hg.
  - unfold ret. intros [= <- _]. exact Hg.
Qed.

Lemma models_loop_writable w request p cfg gens : forall i st called st',
  text_payloads w ->
  forallb writable gens = true ->
  models_loop w request p cfg i gens st = (Ok called, st') ->
  forallb writable called = true.
Proof.
  induction gens as [|g rest IH]; intros i st called st' Htext Hw; simpl.
  - intros [= <- _]. reflexivity.
  - simpl in Hw. apply andb_true_iff in Hw as [Hg Hrest].
    unfold bind at 1.
    destruct (loop_body w request p cfg i g st) as [[g'|e] st1] eqn:Hb; [|discriminate].
    unfold bind at 1.
    destruct (models_loop w request p cfg (S i) rest st1) as [[rest'|e] st2] eqn:Hl;
      [|discriminate].
    unfold ret. intros [= <- _]. simpl.
    rewrite (loop_body_writable _ _ _ _ _ _ _ _ _ Htext Hg Hb).
    exact (IH _ _ _ _ Htext Hrest Hl).
Qed.

Lemma assign_ids_writable gens : forall seq,
  forallb writable (assign_ids seq gens) = forallb writable gens.
Proof.
  induction gens as [|g rest IH]; intros seq; simpl; [reflexivity|].
  rewrite IH. reflexivity.
Qed.

Lemma created_records_writable d uid request op :
  forallb writable (created_records d uid request op) = true.
Proof.
  unfold created_records. rewrite assign_ids_writable.
  induction (models request) as [|m rest IH]; simpl; [reflexivity | exact IH].
Qed.

(** A record the loop left [failed] holds no payload. *)
Lemma failed_step_writable g g' :
  record_step g g' -> status g' <> completed -> writable g = true -> writable g' = true.
Proof. intros [url b64 resp now|msg] Hs Hg; [contradiction Hs; reflexivity | exact Hg]. Qed.

Lemma failed_batch_writable created called :
  Forall2 record_step created called ->
  Forall (fun g => status g <> completed) called ->
  forallb writable created = true ->
  forallb writable called = true.
Proof.
  induction 1 as [|g g' l l' Hstep _ IH]; intros Hf Hw; [reflexivity|].
  inversion Hf; subst. simpl in Hw |- *. apply andb_true_iff in Hw as [Hg Hl].
  rewrite (failed_step_writable _ _ Hstep) by assumption. apply IH; assumption.
Qed.

(** Everything a run does in a world whose image payloads are text. *)
Lemma generate_image_full w svc uid request d user cfg :
  text_payloads w ->
  users d !! uid = Some user ->
  1 <= points user ->
  find cfg_is_active (api_configs d) = Some cfg ->
  exists op oevs called final st' devs,
    (oevs = [] \/ exists rq, oevs = [EvOptimize rq])
    /\ resolve_prompt w svc request cfg (session d) = (Ok op, add_events (session d) oevs)
    /\ models_loop w request op cfg 0 (created_records d uid request op)
         (loop_start d uid request op oevs)
       = (Ok called,
          add_events (loop_start d uid request op oevs)
            (loop_events w request op cfg 0 (created_records d uid request op)))
    /\ Forall2 record_step (created_records d uid request op) called
    /\ generate_image w svc uid request (session d) = (Ok final, st')
    /\ Settled uid request user (users d) called final (users (db st')) devs
    /\ events st' = oevs ++ loop_events w request op cfg 0
                              (created_records d uid request op) ++ devs
    /\ snapshots st' = [created_records d uid request op; called; final]
    /\ generations (db st')
       = flush final (flush (created_records d uid request op) (generations d))
    /\ generation_seq (db st') = generation_seq d + Z.of_nat (length (models request))
    /\ api_configs (db st') = api_configs d.
Proof.
  intros Htext Hu Hp Hcfg.
  destruct (generate_image_cases w svc uid request d user cfg Hu Hp Hcfg)
    as (op & oevs & called & Hoevs & Hop & Hloop & Hsteps & Hdone & _).
  destruct (Hdone (models_loop_writable _ _ _ _ _ _ _ _ _ Htext
                     (created_records_writable d uid request op) Hloop))
    as (final & st' & devs & Hrun & Hrest).
  exists op, oevs, called, final, st', devs.
  split; [exact Hoevs|]. split; [exact Hop|]. split; [exact Hloop|].
  split; [exact Hsteps|]. split; [exact Hrun | exact Hrest].
Qed.

(** The sample provider returns a URL. *)
Lemma sample_world_text opt : text_payloads (sample_world opt sample_item).
Proof.
  intros i rq t response field Hapi Hex. unfold sample_world in Hapi. simpl in Hapi.
  destruct (String.eqb (img_model rq) "m1"); [|discriminate Hapi].
  injection Hapi as _ <-. vm_compute in Hex. injection Hex as <-.
  repeat constructor.
Qed.

Lemma generate_image_insufficient w svc uid request st user :
  users (db st) !! uid = Some user ->
  points user < 1 ->
  generate_image w svc uid request st = (Raise (HTTPException 400 "积分不足"), st).
Proof.
  intros Hu Hlt. unfold generate_image.
  rewrite (bind_ok _ _ _ _ _ (get_user_by_id_found uid st user Hu)).
  destruct (Z.ltb_spec (points user) 1) as [_|Hge]; [reflexivity | lia].
Qed.

Lemma generate_image_no_config w svc uid request st user :
  users (db st) !! uid = Some user ->
  1 <= points user ->
  find cfg_is_active (api_configs (db st)) = None ->
  generate_image w svc uid request st
  = (Raise (HTTPException 500 "系统API配置未设置，请联系管理员"), st).
Proof.
  intros Hu Hge Hcfg. unfold generate_image.
  rewrite (bind_ok _ _ _ _ _ (get_user_by_id_found uid st user Hu)).
  destruct (Z.ltb_spec (points user) 1) as [Hlt|_]; [lia|].
  rewrite (bind_ok _ _ _ _ _ (get_active_api_config_run st)).
  rewrite Hcfg. reflexivity.
Qed.

Lemma generate_image_no_user w svc uid request st :
  users (db st) !! uid = None ->
  generate_image w svc uid request st = (Raise (HTTPException 404 "User not found"), st).
Proof.
  intros Hu. unfold generate_image.
  rewrite (bind_raise _ _ _ _ _ (get_user_by_id_missing uid st Hu)). reflexivity.
Qed.

(** A run that returns has passed both preconditions. *)
Lemma generate_image_returns w svc uid request d user final st' :
  users d !! uid = Some user ->
  generate_image w svc uid request (session d) = (Ok final, st') ->
  1 <= points user /\ exists cfg, find cfg_is_active (api_configs d) = Some cfg.
Proof.
  intros Hu Hrun.
  destruct (Z.lt_ge_cases (points user) 1) as [Hlt|Hge].
  - rewrite (generate_image_insufficient w svc uid request (session d) user Hu Hlt) in Hrun.
    discriminate.
  - split; [exact Hge|].
    destruct (find cfg_is_active (api_configs d)) as [cfg|] eqn:Hcfg; [eauto|].
    rewrite (generate_image_no_config w svc uid request (session d) user Hu Hge Hcfg)
      in Hrun.
    discriminate.
Qed.

Lemma Forall_Exists_absurd {A} (P : A -> Prop) (l : list A) :
  Forall (fun x => ~ P x) l -> Exists P l -> False.
Proof.
  intros HF HE. induction HE as [x l Hx|x l _ IH]; inversion HF; subst; auto.
Qed.

Lemma record_step_status g g' :
  record_step g g' -> status g' = completed \/ status g' = failed.
Proof. intros []; [left | right]; reflexivity. Qed.

Lemma record_step_points_used g g' : record_step g g' -> points_used g' = points_used g.
Proof. intros []; reflexivity. Qed.


Lemma record_step_model g g' : record_step g g' -> model g' = model g.
Proof. intros []; reflexivity. Qed.

Lemma debits_app a b : debits (a ++ b) = debits a ++ debits b.
Proof. unfold debits. apply omap_app. Qed.

Lemma image_calls_app a b : image_calls (a ++ b) = image_calls a ++ image_calls b.
Proof. unfold image_calls. apply omap_app. Qed.

Lemma debits_image_events w i request p m cfg :
  debits (image_events w i request p m cfg) = [].
Proof. unfold image_events. destruct (image_request _ _ _ _ _ _); reflexivity. Qed.

Lemma debits_loop_events w request p cfg gens : forall i,
  debits (loop_events w request p cfg i gens) = [].
Proof.
  induction gens as [|g rest IH]; intros i; simpl; [reflexivity|].
  rewrite debits_app, debits_image_events, IH. reflexivity.
Qed.

Lemma debits_optimizer_events oevs :
  oevs = [] \/ (exists rq, oevs = [EvOptimize rq]) -> debits oevs = [].
Proof. intros [->|[rq ->]]; reflexivity. Qed.

(** ** Claims on the ledger *)

(** C4 (as the code has it).  [deduct_points] raises the 400 error
    "Insufficient points" and leaves the session as it was when the balance
    is below the amount, and otherwise takes exactly the amount off the
    balance.  Starting from a balance that is not negative, no sequence of
    [deduct_points] calls (with any amounts) and of [add_points] calls with
    amounts that are not negative makes the balance negative. *)
Theorem deduct_points_guard_and_nonneg_ledger
    (uid amount : Z) (st : St) (user : User) (ops : list LedgerOp) :
  users (db st) !! uid = Some user ->
  (points user < amount ->
     UserService.deduct_points uid amount st
       = (Raise (HTTPException 400 "Insufficient points"), st))
  /\ (amount <= points user ->
        exists st', UserService.deduct_points uid amount st = (Ok true, st')
                    /\ balance uid st' = Some (points user - amount))
  /\ (0 <= points user -> Forall credit_nonneg ops ->
        Forall (nonneg_balance uid) (ledger_trace uid ops st)).
Proof.
  intros Hu. repeat split.
  - intros Hlt. apply deduct_points_insufficient with (user := user); assumption.
  - intros Hle. eexists. split.
    + apply deduct_points_sufficient; eassumption.
    + apply balance_after_store.
  - intros Hpos Hops. apply ledger_trace_nonneg; [assumption|].
    exists (points user). unfold balance. rewrite Hu. split; [reflexivity | assumption].
Qed.

Lemma deduct_points_guard_and_nonneg_ledger_witness :
  UserService.deduct_points 7 5 (session (sample_db 3))
    = (Raise (HTTPException 400 "Insufficient points"), session (sample_db 3))
  /\ (exists st', UserService.deduct_points 7 2 (session (sample_db 3)) = (Ok true, st')
                  /\ balance 7 st' = Some 1)
  /\ Forall (nonneg_balance 7)
        (ledger_trace 7 [Debit 2; Credit 4; Debit 9; Debit (-1)] (session (sample_db 3))).
Proof.
  destruct (deduct_points_guard_and_nonneg_ledger 7 5 (session (sample_db 3))
              (mkUser 7 "bob" true false 3) [] eq_refl) as (H1 & _ & _).
  destruct (deduct_points_guard_and_nonneg_ledger 7 2 (session (sample_db 3))
              (mkUser 7 "bob" true false 3)
              [Debit 2; Credit 4; Debit 9; Debit (-1)] eq_refl) as (_ & H2 & H3).
  split; [apply H1; simpl; lia|].
  split; [apply H2; simpl; lia|].
  apply H3; [simpl; lia|].
  repeat constructor; simpl; lia.
Defined.

(** C4, the counterexample: a credit of -1 on a balance of 0 leaves the
    balance at -1. *)
Lemma ledger_negative_credit_counterexample :
  balance 7 (session (sample_db 0)) = Some 0
  /\ ledger_trace 7 [Credit (-1)] (session (sample_db 0))
       = [snd (UserService.add_points 7 (-1) (session (sample_db 0)))]
  /\ balance 7 (snd (UserService.add_points 7 (-1) (session (sample_db 0)))) = Some (-1)
  /\ ~ Forall (nonneg_balance 7) (ledger_trace 7 [Credit (-1)] (session (sample_db 0))).
Proof.
  assert (Hb : balance 7 (snd (UserService.add_points 7 (-1) (session (sample_db 0))))
               = Some (-1)) by (vm_compute; reflexivity).
  split; [vm_compute; reflexivity|].
  split; [reflexivity|].
  split; [exact Hb|].
  intros HF. simpl in HF. inversion HF as [|? ? (b & Hb' & Hpos) _]; subst.
  rewrite Hb in Hb'. injection Hb' as <-. lia.
Qed.

(** C7 (as the code has it).  [add_points] checks nothing: for every
    amount, a negative one too, it returns [True] and adds exactly the
    amount to the balance. *)
Theorem add_points_adds_any_amount (uid amount : Z) (st : St) (user : User) :
  users (db st) !! uid = Some user ->
  exists st', UserService.add_points uid amount st = (Ok true, st')
              /\ balance uid st' = Some (points user + amount)
              /\ events st' = events st ++ [EvCredit uid amount].
Proof.
  intros Hu. eexists. split; [apply add_points_run; eassumption|].
  split; [apply balance_after_store | reflexivity].
Qed.

Lemma add_points_adds_any_amount_witness :
  exists st', UserService.add_points 7 4 (session (sample_db 3)) = (Ok true, st')
              /\ balance 7 st' = Some (3 + 4)
              /\ events st' = [] ++ [EvCredit 7 4].
Proof.
  exact (add_points_adds_any_amount 7 4 (session (sample_db 3))
           (mkUser 7 "bob" true false 3) eq_refl).
Defined.

(** C7, the counterexample: the amount -5 is not rejected; the call
    returns [True] and the balance goes from 3 to -2. *)
Lemma add_points_negative_counterexample :
  balance 7 (session (sample_db 3)) = Some 3
  /\ fst (UserService.add_points 7 (-5) (session (sample_db 3))) = Ok true
  /\ balance 7 (snd (UserService.add_points 7 (-5) (session (sample_db 3)))) = Some (-2).
Proof. vm_compute. repeat split; reflexivity. Qed.

(** ** Claims on [generate_image] *)

(** C5.  When the balance of the account is below 1, [generate_image]
    raises the 400 error of line 74; when the balance is at least 1 and no
    configuration is active, it raises the 500 error of line 79.  In both
    cases the session is left exactly as it was: no record is created, the
    balance is unchanged and no external call has been made. *)
Theorem preconditions_fail_without_effects
    (w : World) (svc : Service) (uid : Z) (request : GenerationRequest)
    (st : St) (user : User) :
  users (db st) !! uid = Some user ->
  (points user < 1 ->
     generate_image w svc uid request st = (Raise (HTTPException 400 "积分不足"), st))
  /\ (1 <= points user -> find cfg_is_active (api_configs (db st)) = None ->
        generate_image w svc uid request st
        = (Raise (HTTPException 500 "系统API配置未设置，请联系管理员"), st))
  /\ (points user < 1 \/ find cfg_is_active (api_configs (db st)) = None ->
        exists e, generate_image w svc uid request st = (Raise e, st)
                  /\ generations (db (snd (generate_image w svc uid request st)))
                     = generations (db st)
                  /\ balance uid (snd (generate_image w svc uid request st))
                     = balance uid st
                  /\ events (snd (generate_image w svc uid request st)) = events st).
Proof.
  intros Hu.
  split; [intros Hlt; apply generate_image_insufficient with (user := user); assumption|].
  split; [intros Hge Hcfg; apply generate_image_no_config with (user := user); assumption|].
  intros Hpre.
  destruct (Z.lt_ge_cases (points user) 1) as [Hlt|Hge].
  - rewrite (generate_image_insufficient w svc uid request st user Hu Hlt).
    eexists. repeat split.
  - destruct Hpre as [Hlt|Hcfg]; [lia|].
    rewrite (generate_image_no_config w svc uid request st user Hu Hge Hcfg).
    eexists. repeat split.
Qed.

Lemma preconditions_fail_without_effects_witness :
  generate_image (sample_world sample_optimizer sample_item) sample_service 7
    (sample_request true ["m1"]) (session (sample_db 0))
  = (Raise (HTTPException 400 "积分不足"), session (sample_db 0))
  /\ generate_image (sample_world sample_optimizer sample_item) sample_service 7
       (sample_request true ["m1"]) (session (sample_db_unconfigured 5))
     = (Raise (HTTPException 500 "系统API配置未设置，请联系管理员"),
        session (sample_db_unconfigured 5)).
Proof.
  split.
  - destruct (preconditions_fail_without_effects
                (sample_world sample_optimizer sample_item) sample_service 7
                (sample_request true ["m1"]) (session (sample_db 0))
                (mkUser 7 "bob" true false 0) eq_refl) as (H & _ & _).
    apply H. simpl. lia.
  - destruct (preconditions_fail_without_effects
                (sample_world sample_optimizer sample_item) sample_service 7
                (sample_request true ["m1"]) (session (sample_db_unconfigured 5))
                (mkUser 7 "bob" true false 5) eq_refl) as (_ & H & _).
    apply H; [simpl; lia | reflexivity].
Defined.

Lemma charge_all_spec amount gens :
  Forall2 (fun g g' => status g' = status g
                       /\ image_url g' = image_url g
                       /\ base64_image g' = base64_image g
                       /\ optimized_prompt g' = optimized_prompt g
                       /\ points_used g' = (if is_completed g then amount else 0))
          gens (charge_all amount gens).
Proof.
  induction gens as [|g rest IH]; simpl; constructor; [|exact IH].
  destruct (is_completed g); repeat split.
Qed.

Lemma charge_none_spec gens :
  Forall2 (fun g g' => status g' = status g
                       /\ image_url g' = image_url g
                       /\ base64_image g' = base64_image g
                       /\ optimized_prompt g' = optimized_prompt g
                       /\ points_used g' = 0)
          gens (charge_none gens).
Proof. induction gens as [|g rest IH]; simpl; constructor; [repeat split | exact IH]. Qed.

Lemma fail_all_spec e gens :
  Forall2 (fun g g' => status g' = failed
                       /\ image_url g' = image_url g
                       /\ base64_image g' = base64_image g
                       /\ optimized_prompt g' = optimized_prompt g
                       /\ points_used g' = 0)
          gens (fail_all e gens).
Proof. induction gens as [|g rest IH]; simpl; constructor; [repeat split | exact IH]. Qed.

Lemma Forall2_Forall_r {A B} (R : A -> B -> Prop) (Q : B -> Prop) l l' :
  Forall2 R l l' -> (forall x y, R x y -> Q y) -> Forall Q l'.
Proof. intros H HQ. induction H; constructor; eauto. Qed.

Lemma Forall2_Exists_l {A B} (R : A -> B -> Prop) (P : A -> Prop) (Q : B -> Prop) l l' :
  Forall2 R l l' -> (forall x y, R x y -> Q y -> P x) -> Exists Q l' -> Exists P l.
Proof.
  intros H HQ HE. induction H as [|x y l l' Hxy _ IH]; inversion HE; subst.
  - left. eauto.
  - right. auto.
Qed.

Lemma Forall2_Exists_r {A B} (R : A -> B -> Prop) (P : A -> Prop) (Q : B -> Prop) l l' :
  Forall2 R l l' -> (forall x y, R x y -> P x -> Q y) -> Exists P l -> Exists Q l'.
Proof.
  intros H HQ HE. induction H as [|x y l l' Hxy _ IH]; inversion HE; subst.
  - left. eauto.
  - right. auto.
Qed.

Lemma Forall2_Forall_l {A B} (R : A -> B -> Prop) (P : A -> Prop) (Q : B -> Prop) l l' :
  Forall2 R l l' -> Forall P l -> (forall x y, R x y -> P x -> Q y) -> Forall Q l'.
Proof.
  intros H HP HQ. induction H; inversion HP; subst; constructor; eauto.
Qed.

Lemma is_completed_true g : is_completed g = true <-> status g = completed.
Proof. unfold is_completed. apply bool_decide_eq_true. Qed.

Lemma points_to_deduct_flat request :
  points_to_deduct request = if enable_optimization request then 2 else 1.
Proof. unfold points_to_deduct. destruct (enable_optimization request); reflexivity. Qed.

(** What a run that returns has done, whatever the preconditions were. *)
Lemma generate_image_settled w svc uid request d user final st' :
  users d !! uid = Some user ->
  generate_image w svc uid request (session d) = (Ok final, st') ->
  exists cfg op oevs called devs,
    (oevs = [] \/ exists rq, oevs = [EvOptimize rq])
    /\ resolve_prompt w svc request cfg (session d) = (Ok op, add_events (session d) oevs)
    /\ Forall2 record_step (created_records d uid request op) called
    /\ events st' = oevs ++ loop_events w request op cfg 0
                              (created_records d uid request op) ++ devs
    /\ snapshots st' = [created_records d uid request op; called; final]
    /\ Settled uid request user (users d) called final (users (db st')) devs.
Proof.
  intros Hu Hrun.
  destruct (generate_image_returns w svc uid request d user final st' Hu Hrun)
    as (Hge & cfg & Hcfg).
  destruct (generate_image_cases w svc uid request d user cfg Hu Hge Hcfg)
    as (op & oevs & called & Hoevs & Hop & _ & Hsteps & Hdone & Hraise).
  exists cfg, op, oevs, called.
  destruct (forallb writable called) eqn:Hw.
  - destruct (Hdone eq_refl) as (final' & st'' & devs & Hgi & Hset & Hev & Hsn & _).
    rewrite Hgi in Hrun. injection Hrun as <- <-.
    exists devs. repeat split; assumption.
  - destruct (Hraise eq_refl) as [e Hgi]. rewrite Hgi in Hrun. discriminate.
Qed.

(** C1.  In every batch that [generate_image] returns with at least one
    record [completed], the account is debited once, by 1 when
    [enable_optimization] is false and by 2 when it is true, whatever the
    number of models and of successes; every [completed] record has that
    charge as [points_used] and every [failed] record has 0. *)
Theorem flat_batch_charge
    (w : World) (svc : Service) (uid : Z) (request : GenerationRequest)
    (d : DB) (user : User) (final : list Generation) (st' : St) :
  users d !! uid = Some user ->
  generate_image w svc uid request (session d) = (Ok final, st') ->
  Exists (fun g => status g = completed) final ->
  let charge := if enable_optimization request then 2 else 1 in
  debits (events st') = [(uid, charge)]
  /\ balance uid st' = Some (points user - charge)
  /\ Forall (fun g => (status g = completed -> points_used g = charge)
                      /\ (status g = failed -> points_used g = 0)
                      /\ (status g = completed \/ status g = failed)) final.
Proof.
  intros Hu Hrun Hex charge.
  destruct (generate_image_settled w svc uid request d user final st' Hu Hrun)
    as (cfg & op & oevs & called & devs & Hoevs & _ & Hsteps & Hev & _ & Hset).
  assert (Hcalled : Forall (fun g => status g = completed \/ status g = failed) called).
  { eapply Forall2_Forall_r; [exact Hsteps|]. intros x y. apply record_step_status. }
  unfold charge. rewrite <- points_to_deduct_flat.
  inversion Hset as [Hnone Hf Hus Hd | Hsome Hle Hf Hus Hd | Hsome Hlt Hf Hus Hd]; subst.
  - exfalso. apply (Forall_Exists_absurd _ _ Hnone).
    eapply Forall2_Exists_l; [apply charge_none_spec | | exact Hex].
    simpl. intros x y (Hs & _) Hy. congruence.
  - split.
    { rewrite Hev, !debits_app, debits_loop_events, (debits_optimizer_events _ Hoevs).
      reflexivity. }
    split.
    { unfold balance. rewrite <- Hus, lookup_insert_eq. reflexivity. }
    eapply Forall2_Forall_l; [apply charge_all_spec | exact Hcalled |].
    simpl. intros x y (Hs & _ & _ & _ & Hp) Hx. rewrite Hs, Hp.
    destruct (is_completed x) eqn:Hc.
    + apply is_completed_true in Hc.
      split; [reflexivity|]. split; [congruence | exact Hx].
    + assert (status x <> completed) by (rewrite <- is_completed_true; congruence).
      split; [contradiction|]. split; [reflexivity | exact Hx].
  - exfalso.
    assert (HF : Forall (fun g => ~ status g = completed) (fail_all insufficient called)).
    { eapply Forall2_Forall_r; [apply fail_all_spec|].
      simpl. intros x y (Hs & _). congruence. }
    exact (Forall_Exists_absurd _ _ HF Hex).
Qed.

Lemma flat_batch_charge_witness :
  debits (events (snd (sample_run true ["m1"; "m2"] 5))) = [(7, 2)]
  /\ balance 7 (snd (sample_run true ["m1"; "m2"] 5)) = Some (5 - 2)
  /\ Forall (fun g => (status g = completed -> points_used g = 2)
                      /\ (status g = failed -> points_used g = 0)
                      /\ (status g = completed \/ status g = failed))
        (returned (sample_run true ["m1"; "m2"] 5)).
Proof.
  apply (flat_batch_charge (sample_world sample_optimizer sample_item) sample_service 7
           (sample_request true ["m1"; "m2"]) (sample_db 5) (mkUser 7 "bob" true false 5)
           (returned (sample_run true ["m1"; "m2"] 5))
           (snd (sample_run true ["m1"; "m2"] 5))).
  - reflexivity.
  - vm_compute. reflexivity.
  - vm_compute. left. reflexivity.
Defined.

(** C2.  A batch debits the account at most once: exactly once when a
    returned record is [completed], and not at all otherwise.  The one
    debit takes the price of the batch from the balance of the caller and
    changes no other row of [users]; without a debit the [users] table
    is as it was before the call.  When every returned record is
    [failed], the balance is unchanged and every returned record has
    [points_used] 0. *)
Theorem single_settlement
    (w : World) (svc : Service) (uid : Z) (request : GenerationRequest)
    (d : DB) (user : User) (final : list Generation) (st' : St) :
  users d !! uid = Some user ->
  generate_image w svc uid request (session d) = (Ok final, st') ->
  (length (debits (events st')) <= 1)%nat
  /\ (Exists (fun g => status g = completed) final ->
        debits (events st') = [(uid, points_to_deduct request)]
        /\ balance uid st' = Some (points user - points_to_deduct request)
        /\ users (db st')
           = <[uid := set_points user (points user - points_to_deduct request)]> (users d))
  /\ (~ Exists (fun g => status g = completed) final ->
        debits (events st') = [] /\ users (db st') = users d
        /\ balance uid st' = Some (points user))
  /\ (Forall (fun g => status g = failed) final ->
        debits (events st') = [] /\ users (db st') = users d
        /\ balance uid st' = Some (points user)
        /\ Forall (fun g => points_used g = 0) final).
Proof.
  intros Hu Hrun.
  destruct (generate_image_settled w svc uid request d user final st' Hu Hrun)
    as (cfg & op & oevs & called & devs & Hoevs & _ & Hsteps & Hev & _ & Hset).
  assert (Hdeb : debits (events st') = debits devs).
  { rewrite Hev, !debits_app, debits_loop_events, (debits_optimizer_events _ Hoevs).
    reflexivity. }
  rewrite Hdeb.
  assert (Hbal : users (db st') = users d -> balance uid st' = Some (points user)).
  { intros E. unfold balance. rewrite E, Hu. reflexivity. }
  inversion Hset as [Hnone Hf Hus Hd | Hsome Hle Hf Hus Hd | Hsome Hlt Hf Hus Hd]; subst;
    simpl.
  - split; [lia|]. split.
    { intros Hex. exfalso. apply (Forall_Exists_absurd _ _ Hnone).
      eapply Forall2_Exists_l; [apply charge_none_spec | | exact Hex].
      simpl. intros x y (Hs & _) Hy. congruence. }
    split; [intros _; split; [reflexivity|]; split; [congruence | apply Hbal; congruence]|].
    intros _. split; [reflexivity|]. split; [congruence|]. split; [apply Hbal; congruence|].
    eapply Forall2_Forall_r; [apply charge_none_spec|]. simpl. intros x y H. apply H.
  - assert (Hex : Exists (fun g => status g = completed)
                    (charge_all (points_to_deduct request) called)).
    { eapply Forall2_Exists_r; [apply charge_all_spec | | exact Hsome].
      simpl. intros x y (Hs & _) Hx. congruence. }
    split; [lia|]. split.
    { intros _. split; [reflexivity|]. split; [|congruence].
      unfold balance.
      replace (users (db st'))
        with (<[uid := set_points user (points user - points_to_deduct request)]> (users d))
        by congruence.
      rewrite lookup_insert_eq. reflexivity. }
    split; [intros Hno; contradiction|].
    intros Hfail. exfalso.
    apply (Forall_Exists_absurd (fun g => status g = completed) _) with (2 := Hex).
    eapply Forall_impl; [exact Hfail|]. simpl. intros g Hg. congruence.
  - split; [lia|]. split.
    { intros Hex. exfalso.
      assert (HF : Forall (fun g => ~ status g = completed) (fail_all insufficient called)).
      { eapply Forall2_Forall_r; [apply fail_all_spec|].
        simpl. intros x y (Hs & _). congruence. }
      exact (Forall_Exists_absurd _ _ HF Hex). }
    split; [intros _; split; [reflexivity|]; split; [congruence | apply Hbal; congruence]|].
    intros _. split; [reflexivity|]. split; [congruence|]. split; [apply Hbal; congruence|].
    eapply Forall2_Forall_r; [apply fail_all_spec|]. simpl. intros x y H. apply H.
Qed.

Lemma single_settlement_witness :
  (debits (events (snd (sample_run true ["m1"; "m2"] 5))) = [(7, 2)]
   /\ balance 7 (snd (sample_run true ["m1"; "m2"] 5)) = Some 3
   /\ users (db (snd (sample_run true ["m1"; "m2"] 5)))
      = <[7 := mkUser 7 "bob" true false 3]> (users (sample_db 5)))
  /\ (length (debits (events (snd (sample_run true ["m2"; "m3"] 5)))) <= 1)%nat
  /\ debits (events (snd (sample_run true ["m2"; "m3"] 5))) = []
  /\ users (db (snd (sample_run true ["m2"; "m3"] 5))) = users (sample_db 5)
  /\ balance 7 (snd (sample_run true ["m2"; "m3"] 5)) = Some 5
  /\ Forall (fun g => points_used g = 0) (returned (sample_run true ["m2"; "m3"] 5)).
Proof.
  split.
  - destruct (single_settlement (sample_world sample_optimizer sample_item) sample_service 7
                (sample_request true ["m1"; "m2"]) (sample_db 5) (mkUser 7 "bob" true false 5)
                (returned (sample_run true ["m1"; "m2"] 5))
                (snd (sample_run true ["m1"; "m2"] 5)) eq_refl)
      as (_ & H2 & _).
    + vm_compute. reflexivity.
    + apply H2. vm_compute. left. reflexivity.
  - destruct (single_settlement (sample_world sample_optimizer sample_item) sample_service 7
                (sample_request true ["m2"; "m3"]) (sample_db 5) (mkUser 7 "bob" true false 5)
                (returned (sample_run true ["m2"; "m3"] 5))
                (snd (sample_run true ["m2"; "m3"] 5)) eq_refl)
      as (H1 & _ & _ & H4).
    + vm_compute. reflexivity.
    + split; [exact H1|]. apply H4. vm_compute. repeat constructor.
Defined.

Lemma assign_ids_spec (P : Generation -> Prop) gens : forall seq,
  (forall g i, P g -> P (set_id g i)) ->
  Forall P gens -> Forall P (assign_ids seq gens).
Proof.
  induction gens as [|g rest IH]; intros seq Hset HF; simpl; [constructor|].
  inversion HF; subst. constructor; [apply Hset; assumption | apply IH; assumption].
Qed.

Lemma assign_ids_model gens : forall seq, map model (assign_ids seq gens) = map model gens.
Proof.
  induction gens as [|g rest IH]; intros seq; simpl; [reflexivity|]. rewrite IH. reflexivity.
Qed.

Lemma created_records_fresh d uid request op :
  Forall (fun g => status g = processing /\ points_used g = 1
                   /\ image_url g = JNull /\ base64_image g = JNull
                   /\ optimized_prompt g
                      = (if decide (op = req_prompt request) then None else Some op))
         (created_records d uid request op).
Proof.
  unfold created_records. apply assign_ids_spec.
  - intros g i H. exact H.
  - apply List.Forall_map. apply List.Forall_forall. intros m _. simpl. repeat split.
Qed.

Lemma created_records_models d uid request op :
  map model (created_records d uid request op) = models request.
Proof.
  unfold created_records. rewrite assign_ids_model, List.map_map. simpl.
  apply List.map_id.
Qed.

(** C3 (as the code has it).  A record is created with [points_used] 1
    (line 107) and keeps that value through the provider calls, until
    lines 150-172 run; in what [generate_image] returns, every [failed]
    record has [points_used] 0. *)
Theorem points_used_until_settlement
    (w : World) (svc : Service) (uid : Z) (request : GenerationRequest)
    (d : DB) (user : User) (final : list Generation) (st' : St) :
  users d !! uid = Some user ->
  generate_image w svc uid request (session d) = (Ok final, st') ->
  exists created called,
    snapshots st' = [created; called; final]
    /\ Forall (fun g => status g = processing /\ points_used g = 1) created
    /\ Forall (fun g => points_used g = 1) called
    /\ Forall (fun g => status g = failed -> points_used g = 0) final.
Proof.
  intros Hu Hrun.
  destruct (generate_image_settled w svc uid request d user final st' Hu Hrun)
    as (cfg & op & oevs & called & devs & _ & _ & Hsteps & _ & Hsn & Hset).
  exists (created_records d uid request op), called.
  pose proof (created_records_fresh d uid request op) as Hfresh.
  split; [exact Hsn|]. split.
  { eapply Forall_impl; [exact Hfresh|]. simpl. intros g H. split; apply H. }
  split.
  { eapply Forall2_Forall_l; [exact Hsteps | exact Hfresh |].
    simpl. intros x y Hxy (_ & Hp & _). rewrite (record_step_points_used _ _ Hxy). exact Hp. }
  inversion Hset as [Hnone Hf Hus Hd | Hsome Hle Hf Hus Hd | Hsome Hlt Hf Hus Hd]; subst.
  - eapply Forall2_Forall_r; [apply charge_none_spec|].
    simpl. intros x y (_ & _ & _ & _ & Hp) _. exact Hp.
  - eapply Forall2_Forall_r; [apply charge_all_spec|].
    simpl. intros x y (Hs & _ & _ & _ & Hp) Hy. rewrite Hp.
    destruct (is_completed x) eqn:Hc; [|reflexivity].
    apply is_completed_true in Hc. congruence.
  - eapply Forall2_Forall_r; [apply fail_all_spec|].
    simpl. intros x y (_ & _ & _ & _ & Hp) _. exact Hp.
Qed.

Lemma points_used_until_settlement_witness :
  exists created called,
    snapshots (snd (sample_run true ["m1"; "m2"] 5))
    = [created; called; returned (sample_run true ["m1"; "m2"] 5)]
    /\ Forall (fun g => status g = processing /\ points_used g = 1) created
    /\ Forall (fun g => points_used g = 1) called
    /\ Forall (fun g => status g = failed -> points_used g = 0)
          (returned (sample_run true ["m1"; "m2"] 5)).
Proof.
  apply (points_used_until_settlement (sample_world sample_optimizer sample_item)
           sample_service 7 (sample_request true ["m1"; "m2"]) (sample_db 5)
           (mkUser 7 "bob" true false 5)).
  - reflexivity.
  - vm_compute. reflexivity.
Defined.

(** C3, the counterexample: with a balance of 5, optimization on and the
    models m1 (served) and m2 (refused), both records have [points_used] 1,
    not 0, when they are created and after the provider calls. *)
Lemma points_used_at_creation_counterexample :
  map (map (fun g => (status g, points_used g)))
      (snapshots (snd (sample_run true ["m1"; "m2"] 5)))
  = [ [(processing, 1); (processing, 1)];
      [(completed, 1); (failed, 1)];
      [(completed, 2); (failed, 0)] ].
Proof. vm_compute. reflexivity. Qed.

(** C6 (as the code has it).  Every record is created [processing]; its
    own iteration of the loop sets it to [completed] or to [failed]; the
    settlement leaves every status as it is; the handler of lines 166-172,
    which runs when the debit is refused, sets every record of the batch to
    [failed], the [completed] ones too.  A [failed] record is never changed
    to another status. *)
Theorem status_transitions
    (w : World) (svc : Service) (uid : Z) (request : GenerationRequest)
    (d : DB) (user : User) (final : list Generation) (st' : St) :
  users d !! uid = Some user ->
  generate_image w svc uid request (session d) = (Ok final, st') ->
  exists created called,
    snapshots st' = [created; called; final]
    /\ Forall (fun g => status g = processing) created
    /\ Forall2 (fun g g' => status g' = completed \/ status g' = failed) created called
    /\ Forall2 (fun g g' => status g = failed -> status g' = failed) called final
    /\ (Forall2 (fun g g' => status g' = status g) called final
        \/ (Exists (fun g => status g = completed) called
            /\ points user < points_to_deduct request
            /\ debits (events st') = []
            /\ Forall (fun g => status g = failed) final)).
Proof.
  intros Hu Hrun.
  destruct (generate_image_settled w svc uid request d user final st' Hu Hrun)
    as (cfg & op & oevs & called & devs & Hoevs & _ & Hsteps & Hev & Hsn & Hset).
  exists (created_records d uid request op), called.
  split; [exact Hsn|]. split.
  { eapply Forall_impl; [apply created_records_fresh|]. simpl. intros g H. apply H. }
  split.
  { eapply Forall2_impl; [exact Hsteps|]. simpl. intros x y. apply record_step_status. }
  inversion Hset as [Hnone Hf Hus Hd | Hsome Hle Hf Hus Hd | Hsome Hlt Hf Hus Hd]; subst.
  - split; [|left]; (eapply Forall2_impl; [apply charge_none_spec|]);
      simpl; intros x y (Hs & _); congruence.
  - split; [|left]; (eapply Forall2_impl; [apply charge_all_spec|]);
      simpl; intros x y (Hs & _); congruence.
  - split.
    + eapply Forall2_impl; [apply fail_all_spec|]. simpl. intros x y (Hs & _) _. exact Hs.
    + right. split; [exact Hsome|]. split; [exact Hlt|]. split.
      * rewrite Hev, !debits_app, debits_loop_events, (debits_optimizer_events _ Hoevs).
        reflexivity.
      * eapply Forall2_Forall_r; [apply fail_all_spec|]. simpl. intros x y (Hs & _). exact Hs.
Qed.

Lemma status_transitions_witness :
  exists created called,
    snapshots (snd (sample_run true ["m1"; "m2"] 5))
    = [created; called; returned (sample_run true ["m1"; "m2"] 5)]
    /\ Forall (fun g => status g = processing) created
    /\ Forall2 (fun g g' => status g' = completed \/ status g' = failed) created called
    /\ Forall2 (fun g g' => status g = failed -> status g' = failed) called
         (returned (sample_run true ["m1"; "m2"] 5))
    /\ (Forall2 (fun g g' => status g' = status g) called
          (returned (sample_run true ["m1"; "m2"] 5))
        \/ (Exists (fun g => status g = completed) called
            /\ 5 < points_to_deduct (sample_request true ["m1"; "m2"])
            /\ debits (events (snd (sample_run true ["m1"; "m2"] 5))) = []
            /\ Forall (fun g => status g = failed)
                  (returned (sample_run true ["m1"; "m2"] 5)))).
Proof.
  apply (status_transitions (sample_world sample_optimizer sample_item)
           sample_service 7 (sample_request true ["m1"; "m2"]) (sample_db 5)
           (mkUser 7 "bob" true false 5)).
  - reflexivity.
  - vm_compute. reflexivity.
Defined.

(** C6, the counterexample: with a balance of 1 and optimization on, the
    record of m1 is [completed] after the provider calls and [failed] in
    what is returned. *)
Lemma completed_becomes_failed_counterexample :
  map (map status) (snapshots (snd (sample_run true ["m1"; "m2"] 1)))
  = [ [processing; processing]; [completed; failed]; [failed; failed] ]
  /\ map status (returned (sample_run true ["m1"; "m2"] 1)) = [failed; failed].
Proof. vm_compute. split; reflexivity. Qed.




(** ** Claims on the provider response *)

Lemma extract_item (fields : list (string * json)) :
  (has_b64 <~ Py.contains "b64_json" (JObj fields) ;;
   if has_b64 then
     v <~ Py.item (JObj fields) "b64_json" ;; Ok (Some [("b64_json", v)])
   else
     has_url <~ Py.contains "url" (JObj fields) ;;
     if has_url then
       v <~ Py.item (JObj fields) "url" ;; Ok (Some [("url", v)])
     else
       has_image_url <~ Py.contains "image_url" (JObj fields) ;;
       if has_image_url then
         v <~ Py.item (JObj fields) "image_url" ;; Ok (Some [("url", v)])
       else Ok None)%M
  = Ok (first_image_field fields).
Proof.
  unfold first_image_field. simpl.
  destruct (Py.assoc "b64_json" fields); simpl; [reflexivity|].
  destruct (Py.assoc "url" fields); simpl; [reflexivity|].
  destruct (Py.assoc "image_url" fields); reflexivity.
Qed.

Lemma extract_priority response fields :
  payload_item response fields ->
  _extract_image_data response = Ok (first_image_field fields).
Proof.
  intros (top & -> & [[others Hd] | [Hd Hne]]); unfold _extract_image_data; simpl;
    rewrite Hd; simpl.
  - apply extract_item.
  - destruct fields as [|f rest]; [contradiction|]. simpl negb. cbv iota.
    apply extract_item.
Qed.

Lemma first_image_field_single fields dct :
  first_image_field fields = Some dct ->
  exists v, dct = [("b64_json", v)] \/ dct = [("url", v)].
Proof.
  unfold first_image_field.
  destruct (Py.assoc "b64_json" fields); [intros [= <-]; eauto|].
  destruct (Py.assoc "url" fields); [intros [= <-]; eauto|].
  destruct (Py.assoc "image_url" fields); [intros [= <-]; eauto | discriminate].
Qed.

Lemma extract_single response dct :
  _extract_image_data response = Ok (Some dct) ->
  exists v, dct = [("b64_json", v)] \/ dct = [("url", v)].
Proof.
  unfold _extract_image_data.
  destruct response as [| | | |?|top]; simpl; try discriminate.
  destruct (negb (Py.truthy _)) eqn:Ht; [discriminate|].
  set (data := match Py.assoc "data" top with Some v => v | None => JArr [] end) in *.
  destruct data as [| | |s|[|it ?]|fields]; simpl in *; try discriminate.
  - destruct (String.index 0 "b64_json" s); simpl; [discriminate|].
    destruct (String.index 0 "url" s); simpl; [discriminate|].
    destruct (String.index 0 "image_url" s); simpl; discriminate.
  - destruct it as [| | |s|elems|fields]; simpl; try discriminate.
    + destruct (String.index 0 "b64_json" s); simpl; [discriminate|].
      destruct (String.index 0 "url" s); simpl; [discriminate|].
      destruct (String.index 0 "image_url" s); simpl; discriminate.
    + destruct (existsb _ elems); simpl; [discriminate|].
      destruct (existsb _ elems); simpl; [discriminate|].
      destruct (existsb _ elems); simpl; discriminate.
    + pose proof (extract_item fields) as E. simpl in E. rewrite E.
      intros [= H]. eapply first_image_field_single, H.
  - pose proof (extract_item fields) as E. simpl in E. rewrite E.
    intros [= H]. eapply first_image_field_single, H.
Qed.

Lemma loop_body_success w request op cfg i g st rq t response dct :
  image_request w request op (model g) (api_key cfg) (api_base_url cfg) = Ok rq ->
  image_api w i rq = Response 200 t (Some response) ->
  _extract_image_data response = Ok (Some dct) ->
  loop_body w request op cfg i g st
  = (Ok (set_completed g (dict_get dct "url") (dict_get dct "b64_json")
           (json_dumps w response) (utcnow w i)),
     add_events st [EvImage i rq]).
Proof.
  intros Hrq Hapi Hex.
  unfold loop_body, _call_ai_api, try_except, bind, lift, emit, ret.
  rewrite Hrq, Hapi. simpl. rewrite Hex. reflexivity.
Qed.

(** The order of the fields, and what the loop stores.
    [_extract_image_data] looks for [b64_json], then [url], then
    [image_url] in the first item of the response and returns the first
    field that is present.  After a 200 response from which a field was
    extracted the record is [completed] with [completed_at] set, the
    extracted value is in [base64_image] (for [b64_json]) or in
    [image_url] (for the URL fields) and the other field is null; exactly
    one of the two is set precisely when the extracted value is not
    null. *)
Lemma image_payload_extraction
    (w : World) (request : GenerationRequest) (op : string) (cfg : ApiConfig)
    (i : nat) (g : Generation) (st : St) (rq : ImageRequest) (t : string)
    (response : json) :
  image_request w request op (model g) (api_key cfg) (api_base_url cfg) = Ok rq ->
  image_api w i rq = Response 200 t (Some response) ->
  (forall fields, payload_item response fields ->
     _extract_image_data response = Ok (first_image_field fields))
  /\ (forall dct, _extract_image_data response = Ok (Some dct) ->
        exists k v g',
          dct = [(k, v)]
          /\ loop_body w request op cfg i g st = (Ok g', add_events st [EvImage i rq])
          /\ status g' = completed
          /\ completed_at g' = Some (utcnow w i)
          /\ ((k = "b64_json" /\ base64_image g' = v /\ image_url g' = JNull)
              \/ (k = "url" /\ image_url g' = v /\ base64_image g' = JNull))
          /\ (v <> JNull <-> exactly_one_populated g')).
Proof.
  intros Hrq Hapi. split; [intros fields; apply extract_priority|].
  intros dct Hex.
  pose proof (loop_body_success w request op cfg i g st rq t response dct Hrq Hapi Hex)
    as Hbody.
  destruct (extract_single response dct Hex) as (v & [-> | ->]).
  - exists "b64_json", v. eexists. split; [reflexivity|]. split; [exact Hbody|].
    simpl. repeat split.
    + left. repeat split.
    + intros Hv. right. split; [reflexivity | exact Hv].
    + intros [[Hu _] | [_ Hb]]; [exfalso; apply Hu; reflexivity | exact Hb].
  - exists "url", v. eexists. split; [reflexivity|]. split; [exact Hbody|].
    simpl. repeat split.
    + right. repeat split.
    + intros Hv. left. split; [exact Hv | reflexivity].
    + intros [[Hu _] | [_ Hb]]; [exact Hu | exfalso; apply Hb; reflexivity].
Qed.

Lemma image_payload_extraction_sample :
  _extract_image_data (JObj [("data", JArr [JObj sample_item])])
  = Ok (first_image_field sample_item)
  /\ exists g',
       fst (loop_body (sample_world sample_optimizer sample_item)
              (sample_request false ["m1"]) "cat" sample_config 0
              (new_generation 7 (sample_request false ["m1"]) "cat" "m1")
              (session (sample_db 5))) = Ok g'
       /\ status g' = completed
       /\ completed_at g' = Some 1000
       /\ exactly_one_populated g'.
Proof.
  destruct (image_payload_extraction (sample_world sample_optimizer sample_item)
              (sample_request false ["m1"]) "cat" sample_config 0
              (new_generation 7 (sample_request false ["m1"]) "cat" "m1")
              (session (sample_db 5)) (sample_image_request "m1") ""
              (JObj [("data", JArr [JObj sample_item])]) eq_refl eq_refl) as [HA HB].
  split.
  - apply HA. exists [("data", JArr [JObj sample_item])]. split; [reflexivity|].
    left. exists []. reflexivity.
  - destruct (HB [("url", JStr "https://img/1.png")] eq_refl)
      as (k & v & g' & Hd & Hbody & Hs & Hc & _ & Hiff).
    exists g'. rewrite Hbody. split; [reflexivity|]. split; [exact Hs|].
    split; [exact Hc|]. apply Hiff. injection Hd as _ <-. discriminate.
Defined.

(** C9, at the failing input.  The provider answers 200 with an item whose
    [b64_json] is null and whose [url] is set.  The fields are tried in the
    order of the claim and the first one present wins, but it wins with its
    null value: the record is [completed] with a completion time and with
    neither [image_url] nor [base64_image] set, where the claim has exactly
    one of them set. *)
Theorem null_field_completed_without_image :
  _extract_image_data (JObj [("data", JArr [JObj null_item])])
  = Ok (Some [("b64_json", JNull)])
  /\ map (fun g => (status g, image_url g, base64_image g, completed_at g))
         (returned (generate_image (sample_world sample_optimizer null_item)
                      sample_service 7 (sample_request false ["m1"])
                      (session (sample_db 5))))
     = [(completed, JNull, JNull, Some 1000)]
  /\ Forall (fun g => status g = completed /\ ~ exactly_one_populated g)
        (returned (generate_image (sample_world sample_optimizer null_item)
                     sample_service 7 (sample_request false ["m1"])
                     (session (sample_db 5)))).
Proof.
  split; [reflexivity|]. split; [vm_compute; reflexivity|].
  vm_compute. constructor; [|constructor].
  split; [reflexivity|].
  intros [[Hu _] | [_ Hb]]; [apply Hu | apply Hb]; reflexivity.
Qed.

(** ** Claims on the optimizer *)



Lemma image_request_fields w request op m k u rq :
  image_request w request op m k u = Ok rq -> img_prompt rq = op /\ img_model rq = m.
Proof.
  unfold image_request. destruct (Py.truthy_str (image_file request)).
  - destruct (b64decode w _); [|discriminate]. intros [= <-]. split; reflexivity.
  - intros [= <-]. split; reflexivity.
Qed.

Lemma image_request_ready w request op m k u :
  image_ready w request -> exists rq, image_request w request op m k u = Ok rq.
Proof.
  unfold image_ready, image_request. intros H.
  destruct (Py.truthy_str (image_file request)); [|eauto].
  destruct (H eq_refl) as [image ->]. eauto.
Qed.

Lemma image_calls_loop_prompt w request op cfg gens : forall i,
  Forall (fun rq => img_prompt rq = op) (image_calls (loop_events w request op cfg i gens)).
Proof.
  induction gens as [|g rest IH]; intros i; simpl; [constructor|].
  rewrite image_calls_app. apply Forall_app. split; [|apply IH].
  unfold image_events.
  destruct (image_request w request op (model g) (api_key cfg) (api_base_url cfg))
    as [rq|e] eqn:E; simpl; constructor; [|constructor].
  apply (image_request_fields _ _ _ _ _ _ _ E).
Qed.


Lemma image_calls_no_image oevs :
  oevs = [] \/ (exists rq, oevs = [EvOptimize rq]) -> image_calls oevs = [].
Proof. intros [->|[rq ->]]; reflexivity. Qed.





(** * Further properties *)

(** ** The ledger *)

Lemma net_change_app uid a b : net_change uid (a ++ b) = net_change uid a + net_change uid b.
Proof. induction a as [|e a IH]; simpl; [reflexivity|]. rewrite IH. lia. Qed.

(** One ledger operation: the event it leaves accounts for the change. *)
Lemma ledger_op_accounts uid op st user :
  users (db st) !! uid = Some user ->
  exists evs,
    events (snd (ledger_op uid op st)) = events st ++ evs
    /\ (length evs <= 1)%nat
    /\ balance uid (snd (ledger_op uid op st)) = Some (points user + net_change uid evs).
Proof.
  intros Hu. destruct op as [amount|amount]; simpl.
  - destruct (Z.lt_ge_cases (points user) amount) as [Hlt|Hge].
    + rewrite (deduct_points_insufficient _ _ _ _ Hu Hlt). simpl.
      exists []. rewrite app_nil_r. split; [reflexivity|]. split; [simpl; lia|].
      unfold balance. rewrite Hu. simpl. f_equal. lia.
    + rewrite (deduct_points_sufficient _ _ _ _ Hu Hge). simpl.
      exists [EvDebit uid amount]. split; [reflexivity|]. split; [simpl; lia|].
      rewrite balance_after_store. simpl. destruct (decide (uid = uid)); [|contradiction].
      f_equal. lia.
  - rewrite (add_points_run _ amount _ _ Hu). simpl.
    exists [EvCredit uid amount]. split; [reflexivity|]. split; [simpl; lia|].
    rewrite balance_after_store. simpl. destruct (decide (uid = uid)); [|contradiction].
    f_equal. lia.
Qed.

(** X1.  The event log accounts for the balance: after any sequence of
    [deduct_points] and [add_points] calls on an account, the balance is
    the initial balance plus the credits and minus the debits the calls
    have logged; a refused debit logs nothing, so there are at most as
    many new events as calls. *)
Theorem ledger_events_account_for_balance (uid : Z) (ops : list LedgerOp) (st : St) (b : Z) :
  balance uid st = Some b ->
  exists evs,
    events (ledger_final uid ops st) = events st ++ evs
    /\ (length evs <= length ops)%nat
    /\ balance uid (ledger_final uid ops st) = Some (b + net_change uid evs).
Proof.
  revert st b. induction ops as [|op ops IH]; intros st b Hb.
  - exists []. simpl. rewrite app_nil_r. split; [reflexivity|]. split; [lia|].
    rewrite Hb. f_equal. lia.
  - unfold balance in Hb.
    destruct (users (db st) !! uid) as [user|] eqn:Hu; [|discriminate].
    simpl in Hb. injection Hb as <-.
    destruct (ledger_op_accounts uid op st user Hu) as (e1 & He1 & Hl1 & Hb1).
    destruct (IH _ _ Hb1) as (e2 & He2 & Hl2 & Hb2).
    exists (e1 ++ e2). change (ledger_final uid (op :: ops) st)
      with (ledger_final uid ops (snd (ledger_op uid op st))).
    rewrite He2, He1, <- app_assoc. split; [reflexivity|].
    split; [rewrite length_app; simpl; lia|].
    rewrite Hb2, net_change_app. f_equal. lia.
Qed.

(** A balance of 3 under a debit of 2, a credit of 4 and a refused debit
    of 9. *)
Lemma ledger_events_account_for_balance_witness :
  exists evs,
    events (ledger_final 7 [Debit 2; Credit 4; Debit 9] (session (sample_db 3)))
        = events (session (sample_db 3)) ++ evs
    /\ (length evs <= length [Debit 2; Credit 4; Debit 9])%nat
    /\ balance 7 (ledger_final 7 [Debit 2; Credit 4; Debit 9] (session (sample_db 3)))
        = Some (3 + net_change 7 evs).
Proof.
  refine (ledger_events_account_for_balance 7 [Debit 2; Credit 4; Debit 9]
            (session (sample_db 3)) 3 _);
    [reflexivity].
Defined.

Lemma ledger_op_frame uid op st :
  (forall other, other <> uid ->
     users (db (snd (ledger_op uid op st))) !! other = users (db st) !! other)
  /\ api_configs (db (snd (ledger_op uid op st))) = api_configs (db st)
  /\ generations (db (snd (ledger_op uid op st))) = generations (db st)
  /\ generation_seq (db (snd (ledger_op uid op st))) = generation_seq (db st)
  /\ (users (db st) !! uid = None -> snd (ledger_op uid op st) = st
      /\ fst (ledger_op uid op st) = Raise (HTTPException 404 "User not found")).
Proof.
  destruct (users (db st) !! uid) as [user|] eqn:Hu.
  - assert (Hins : forall p other, other <> uid ->
              <[uid := set_points user p]> (users (db st)) !! other
              = users (db st) !! other).
    { intros p other Hne. apply lookup_insert_ne. congruence. }
    destruct op as [amount|amount]; simpl.
    + destruct (Z.lt_ge_cases (points user) amount) as [Hlt|Hge].
      * rewrite (deduct_points_insufficient _ _ _ _ Hu Hlt). simpl.
        split; [reflexivity|]. repeat (split; [reflexivity|]); first [intros H0; discriminate H0 | congruence].
      * rewrite (deduct_points_sufficient _ _ _ _ Hu Hge). simpl.
        split; [apply Hins|]. repeat (split; [reflexivity|]); first [intros H0; discriminate H0 | congruence].
    + rewrite (add_points_run _ amount _ _ Hu). simpl.
      split; [apply Hins|]. repeat (split; [reflexivity|]); first [intros H0; discriminate H0 | congruence].
  - destruct op as [amount|amount]; simpl.
    + rewrite (deduct_points_no_user _ _ _ Hu). simpl.
      split; [reflexivity|]. repeat split.
    + unfold UserService.add_points.
      rewrite (bind_raise _ _ _ _ _ (get_user_by_id_missing uid st Hu)). simpl.
      split; [reflexivity|]. repeat split.
Qed.

(** X2.  Ledger operations on one account leave every other account, the
    configurations and the generation records as they were; on an account
    that does not exist every operation raises the 404 error and changes
    nothing. *)
Theorem ledger_touches_one_account (uid : Z) (ops : list LedgerOp) (st : St) :
  (forall other, other <> uid ->
     users (db (ledger_final uid ops st)) !! other = users (db st) !! other)
  /\ api_configs (db (ledger_final uid ops st)) = api_configs (db st)
  /\ generations (db (ledger_final uid ops st)) = generations (db st)
  /\ generation_seq (db (ledger_final uid ops st)) = generation_seq (db st)
  /\ (users (db st) !! uid = None ->
        ledger_final uid ops st = st
        /\ Forall (fun op => fst (ledger_op uid op st)
                             = Raise (HTTPException 404 "User not found")) ops).
Proof.
  revert st. induction ops as [|op ops IH]; intros st.
  - simpl. repeat (split; [reflexivity|]). constructor.
  - change (ledger_final uid (op :: ops) st)
      with (ledger_final uid ops (snd (ledger_op uid op st))).
    destruct (ledger_op_frame uid op st) as (F1 & F2 & F3 & F4 & F5).
    destruct (IH (snd (ledger_op uid op st))) as (I1 & I2 & I3 & I4 & I5).
    split; [intros other Hne; rewrite I1, F1 by exact Hne; reflexivity|].
    split; [congruence|]. split; [congruence|]. split; [congruence|].
    intros Hu. destruct (F5 Hu) as [Hst Hres]. rewrite Hst in *.
    destruct (I5 Hu) as [Hfin Hall]. split; [exact Hfin|].
    constructor; assumption.
Qed.

(** An account that does not exist. *)
Lemma ledger_touches_one_account_witness :
  ledger_final 8 [Debit 1; Credit 2] (session (sample_db 3)) = session (sample_db 3)
  /\ Forall (fun op => fst (ledger_op 8 op (session (sample_db 3)))
                       = Raise (HTTPException 404 "User not found"))
        [Debit 1; Credit 2].
Proof.
  refine (proj2 (proj2 (proj2 (proj2
            (ledger_touches_one_account 8 [Debit 1; Credit 2] (session (sample_db 3))))))
            _).
  reflexivity.
Defined.



(** X4.  [deduct_points] does not check the sign of the amount: on a
    balance that is not negative, an amount that is zero or negative is
    never refused, and a negative amount raises the balance. *)
Theorem deduct_points_accepts_negative (uid amount : Z) (st : St) (user : User) :
  users (db st) !! uid = Some user ->
  0 <= points user ->
  amount <= 0 ->
  fst (UserService.deduct_points uid amount st) = Ok true
  /\ balance uid (snd (UserService.deduct_points uid amount st))
     = Some (points user + - amount)
  /\ points user <= points user + - amount.
Proof.
  intros Hu Hp Ha.
  rewrite (deduct_points_sufficient _ _ _ _ Hu) by lia. simpl.
  split; [reflexivity|]. split; [|lia].
  rewrite balance_after_store. reflexivity.
Qed.

(** A debit of -4 on a balance of 3. *)
Lemma deduct_points_accepts_negative_witness :
  fst (UserService.deduct_points 7 (-4) (session (sample_db 3))) = Ok true
  /\ balance 7 (snd (UserService.deduct_points 7 (-4) (session (sample_db 3))))
     = Some (points (bob 3) + - (-4))
  /\ points (bob 3) <= points (bob 3) + - (-4).
Proof.
  refine (deduct_points_accepts_negative 7 (-4) (session (sample_db 3)) (bob 3) _ _ _);
    [reflexivity
    | simpl; lia
    | lia].
Defined.

(** ** More on [generate_image] *)

Lemma Forall2_compose {A B C} (R : A -> B -> Prop) (S : B -> C -> Prop)
    (T : A -> C -> Prop) l1 l2 l3 :
  (forall x y z, R x y -> S y z -> T x z) ->
  Forall2 R l1 l2 -> Forall2 S l2 l3 -> Forall2 T l1 l3.
Proof.
  intros H H12. revert l3. induction H12 as [|x y l1 l2 Hxy _ IH]; intros l3 H23;
    inversion H23; subst; constructor; eauto.
Qed.

Lemma Forall2_map_eq {A B} (f : A -> B) (l l' : list A) :
  Forall2 (fun x y => f y = f x) l l' -> map f l' = map f l.
Proof. induction 1 as [|x y l l' Hxy _ IH]; simpl; [reflexivity|]. rewrite Hxy, IH. reflexivity. Qed.

Lemma charge_none_steps l : Forall2 settle_step l (charge_none l).
Proof. induction l; simpl; constructor; [constructor | assumption]. Qed.

Lemma charge_all_steps p l : Forall2 settle_step l (charge_all p l).
Proof.
  induction l as [|g l IH]; simpl; constructor; [|exact IH].
  destruct (is_completed g); constructor.
Qed.

Lemma fail_all_steps e l : Forall2 settle_step l (fail_all e l).
Proof. induction l; simpl; constructor; [constructor | assumption]. Qed.

Lemma settled_steps uid request user us called final us' devs :
  Settled uid request user us called final us' devs -> Forall2 settle_step called final.
Proof.
  intros [Hnone | Hsome Hle | Hsome Hlt];
    [apply charge_none_steps | apply charge_all_steps | apply fail_all_steps].
Qed.

Lemma record_step_identity g g' : record_step g g' -> same_identity g g'.
Proof. intros []; repeat split. Qed.

Lemma settle_step_identity g g' : settle_step g g' -> same_identity g g'.
Proof. intros []; repeat split. Qed.

Lemma same_identity_trans g1 g2 g3 :
  same_identity g1 g2 -> same_identity g2 g3 -> same_identity g1 g3.
Proof.
  unfold same_identity. intros (a1 & a2 & a3 & a4 & a5) (b1 & b2 & b3 & b4 & b5).
  repeat split; congruence.
Qed.

Lemma batch_identity uid request user us created called final us' devs :
  Forall2 record_step created called ->
  Settled uid request user us called final us' devs ->
  Forall2 same_identity created final.
Proof.
  intros Hsteps Hset.
  eapply Forall2_compose; [| exact Hsteps | exact (settled_steps _ _ _ _ _ _ _ _ Hset)].
  intros x y z Hxy Hyz.
  exact (same_identity_trans _ _ _ (record_step_identity _ _ Hxy)
           (settle_step_identity _ _ Hyz)).
Qed.

Lemma created_records_blank d uid request op :
  Forall (fun g => gen_user_id g = uid /\ prompt g = req_prompt request
                   /\ error_message g = None /\ completed_at g = None)
         (created_records d uid request op).
Proof.
  unfold created_records. apply assign_ids_spec.
  - intros g i H. exact H.
  - apply List.Forall_map. apply List.Forall_forall. intros m _. simpl. repeat split.
Qed.

Lemma assign_ids_lookup gens : forall seq i g,
  assign_ids seq gens !! i = Some g -> gen_id g = Some (seq + 1 + Z.of_nat i).
Proof.
  induction gens as [|g0 rest IH]; intros seq i g; simpl; [discriminate|].
  destruct i as [|i]; simpl.
  - intros [= <-]. simpl. f_equal. lia.
  - intros H. rewrite (IH _ _ _ H). f_equal. lia.
Qed.

Lemma assign_ids_length gens : forall seq, length (assign_ids seq gens) = length gens.
Proof. induction gens; intros seq; simpl; [reflexivity|]. rewrite IHgens. reflexivity. Qed.

Lemma created_records_length d uid request op :
  length (created_records d uid request op) = length (models request).
Proof. unfold created_records. rewrite assign_ids_length, List.length_map. reflexivity. Qed.

(** X5.  With a balance of at least 1, an active configuration and a
    provider whose payload values are strings or null,
    [generate_image] returns: one record per requested model, in the
    order of the request, each owned by the caller, carrying the
    original prompt, and [completed] or [failed] (never [processing]). *)
Theorem one_record_per_model
    (w : World) (svc : Service) (uid : Z) (request : GenerationRequest)
    (d : DB) (user : User) (cfg : ApiConfig) :
  text_payloads w ->
  users d !! uid = Some user ->
  1 <= points user ->
  find cfg_is_active (api_configs d) = Some cfg ->
  exists final st',
    generate_image w svc uid request (session d) = (Ok final, st')
    /\ map model final = models request
    /\ Forall (fun g => gen_user_id g = uid /\ prompt g = req_prompt request
                        /\ (status g = completed \/ status g = failed)) final.
Proof.
  intros Htext Hu Hp Hcfg.
  destruct (generate_image_full w svc uid request d user cfg Htext Hu Hp Hcfg)
    as (op & oevs & called & final & st' & devs & _ & _ & _ & Hsteps & Hgi & Hset & _).
  exists final, st'. split; [exact Hgi|].
  pose proof (batch_identity _ _ _ _ _ _ _ _ _ Hsteps Hset) as Hid.
  split.
  - rewrite <- (created_records_models d uid request op).
    apply Forall2_map_eq. eapply Forall2_impl; [exact Hid|].
    intros x y H. apply H.
  - assert (Hc : Forall (fun g => gen_user_id g = uid /\ prompt g = req_prompt request
                                  /\ (status g = completed \/ status g = failed)) called).
    { eapply Forall2_Forall_l; [exact Hsteps | apply created_records_blank |].
      simpl. intros x y Hxy (H1 & H2 & _).
      destruct (record_step_identity _ _ Hxy) as (_ & E1 & E2 & _).
      repeat split; [congruence | congruence | exact (record_step_status _ _ Hxy)]. }
    eapply Forall2_Forall_l; [exact (settled_steps _ _ _ _ _ _ _ _ Hset) | exact Hc |].
    simpl. intros x y Hxy (H1 & H2 & H3).
    destruct Hxy; simpl; repeat split; auto.
Qed.

(** Two models on a balance of 5. *)
Lemma one_record_per_model_witness :
  exists final st',
    generate_image sample_provider sample_service 7 (sample_request true ["m1"; "m2"])
        (session (sample_db 5)) = (Ok final, st')
    /\ map model final = models (sample_request true ["m1"; "m2"])
    /\ Forall
        (fun g => gen_user_id g = 7 /\ prompt g
        = req_prompt (sample_request true ["m1"; "m2"])
                        /\ (status g = completed \/ status g = failed)) final.
Proof.
  refine (one_record_per_model sample_provider sample_service 7
            (sample_request true ["m1"; "m2"]) (sample_db 5) (bob 5) sample_config _ _
            _ _);
    [exact (sample_world_text sample_optimizer)
    | reflexivity
    | simpl; lia
    | reflexivity].
Defined.

Lemma flush_lookup_other (l : list Generation) : forall (T : gmap Z Generation) k,
  Forall (fun g => gen_id g <> Some k) l -> flush l T !! k = T !! k.
Proof.
  unfold flush. induction l as [|g l IH]; intros T k HF; simpl; [reflexivity|].
  inversion HF as [|? ? Hg Hl]; subst. rewrite (IH _ _ Hl).
  destruct (gen_id g) as [i|]; [|reflexivity].
  apply lookup_insert_ne. congruence.
Qed.

Lemma flush_lookup_at (l : list Generation) : forall (T : gmap Z Generation) i g k,
  l !! i = Some g ->
  gen_id g = Some k ->
  (forall j g', j <> i -> l !! j = Some g' -> gen_id g' <> Some k) ->
  flush l T !! k = Some g.
Proof.
  induction l as [|g0 l IH]; intros T i g k Hi Hk Hothers; [discriminate|].
  destruct i as [|i]; simpl in Hi.
  - injection Hi as ->.
    change (flush (g :: l) T) with (flush l (match gen_id g with
                                            | Some i => <[i:=g]> T | None => T end)).
    rewrite Hk, flush_lookup_other.
    + apply lookup_insert_eq.
    + apply Forall_forall. intros g' Hin.
      apply list_elem_of_lookup in Hin as [j Hj].
      apply (Hothers (S j)); [discriminate | exact Hj].
  - change (flush (g0 :: l) T) with (flush l (match gen_id g0 with
                                             | Some i => <[i:=g0]> T | None => T end)).
    apply IH with (i := i); [exact Hi | exact Hk |].
    intros j g' Hne Hj. apply (Hothers (S j)); [congruence | exact Hj].
Qed.

Lemma flush_lookup_some (l : list Generation) : forall (T : gmap Z Generation) k,
  is_Some (flush l T !! k) ->
  Exists (fun g => gen_id g = Some k) l \/ is_Some (T !! k).
Proof.
  unfold flush. induction l as [|g l IH]; intros T k H; simpl in *; [right; exact H|].
  destruct (IH _ _ H) as [Hex | HT]; [left; right; exact Hex|].
  destruct (gen_id g) as [i|] eqn:Hg; [|right; exact HT].
  destruct (decide (i = k)) as [->|Hne].
  - left. left. exact Hg.
  - right. rewrite lookup_insert_ne in HT by exact Hne. exact HT.
Qed.

Lemma batch_ids d uid request op (l : list Generation) :
  Forall2 same_identity (created_records d uid request op) l ->
  forall i g, l !! i = Some g -> gen_id g = Some (generation_seq d + 1 + Z.of_nat i).
Proof.
  intros Hid i g Hi.
  destruct (Forall2_lookup_r _ _ _ _ _ Hid Hi) as (g0 & H0 & (E & _)).
  rewrite E. unfold created_records in H0. exact (assign_ids_lookup _ _ _ _ H0).
Qed.

Lemma same_identity_refl g : same_identity g g.
Proof. repeat split. Qed.

Lemma flush_batch d uid request op (l : list Generation) (T : gmap Z Generation) :
  Forall2 same_identity (created_records d uid request op) l ->
  (forall i g, l !! i = Some g ->
     flush l T !! (generation_seq d + 1 + Z.of_nat i) = Some g)
  /\ (forall k, k <= generation_seq d -> flush l T !! k = T !! k)
  /\ (forall k, is_Some (flush l T !! k) ->
        is_Some (T !! k)
        \/ (generation_seq d < k <= generation_seq d + Z.of_nat (length (models request)))).
Proof.
  intros Hid. pose proof (batch_ids d uid request op l Hid) as Hids.
  assert (Hlen : length l = length (models request)).
  { rewrite <- (Forall2_length _ _ _ Hid). apply created_records_length. }
  split; [|split].
  - intros i g Hi. apply flush_lookup_at with (i := i); [exact Hi | exact (Hids _ _ Hi)|].
    intros j g' Hne Hj. rewrite (Hids _ _ Hj). intros [= E]. lia.
  - intros k Hk. apply flush_lookup_other. apply Forall_forall. intros g Hin.
    apply list_elem_of_lookup in Hin as [j Hj]. rewrite (Hids _ _ Hj). intros [= E]. lia.
  - intros k Hk. destruct (flush_lookup_some _ _ _ Hk) as [Hex | HT]; [right | left; exact HT].
    apply Exists_exists in Hex as (g & Hin & Hg).
    apply list_elem_of_lookup in Hin as [j Hj].
    rewrite (Hids _ _ Hj) in Hg. injection Hg as <-.
    apply lookup_lt_Some in Hj. lia.
Qed.

(** X6.  On a table whose largest id is the last one handed out (or
    which is empty and has handed out none), and with a provider whose
    payload values are strings or null, the records [generate_image]
    returns get the next ids in order, are stored in the [generations]
    table exactly as returned and leave every earlier row untouched;
    afterwards the largest id of the table is again the last one handed
    out. *)
Theorem batch_is_persisted
    (w : World) (svc : Service) (uid : Z) (request : GenerationRequest)
    (d : DB) (user : User) (cfg : ApiConfig) :
  text_payloads w ->
  users d !! uid = Some user ->
  1 <= points user ->
  find cfg_is_active (api_configs d) = Some cfg ->
  seq_is_top d ->
  exists final st',
    generate_image w svc uid request (session d) = (Ok final, st')
    /\ (forall i g, final !! i = Some g ->
          gen_id g = Some (generation_seq d + 1 + Z.of_nat i)
          /\ generations (db st') !! (generation_seq d + 1 + Z.of_nat i) = Some g)
    /\ (forall k g, generations d !! k = Some g -> generations (db st') !! k = Some g)
    /\ generation_seq (db st') = generation_seq d + Z.of_nat (length (models request))
    /\ seq_is_top (db st').
Proof.
  intros Htext Hu Hp Hcfg [Hwf Htop].
  destruct (generate_image_full w svc uid request d user cfg Htext Hu Hp Hcfg)
    as (op & oevs & called & final & st' & devs & _ & _ & _ & Hsteps & Hgi & Hset & _ & _
        & Htab & Hseq & _).
  exists final, st'. split; [exact Hgi|].
  pose proof (batch_identity _ _ _ _ _ _ _ _ _ Hsteps Hset) as Hid.
  assert (Hid0 : Forall2 same_identity (created_records d uid request op)
                   (created_records d uid request op)).
  { apply Forall_Forall2_diag. apply Forall_forall. intros g _. apply same_identity_refl. }
  destruct (flush_batch d uid request op final
              (flush (created_records d uid request op) (generations d)) Hid)
    as (Hnew & Hold & Hdom).
  destruct (flush_batch d uid request op (created_records d uid request op)
              (generations d) Hid0) as (_ & Hold0 & Hdom0).
  assert (Hlen : length final = length (models request)).
  { rewrite <- (Forall2_length _ _ _ Hid). apply created_records_length. }
  unfold seq_is_top. rewrite Htab, Hseq.
  split; [|split; [|split; [reflexivity|split]]].
  - intros i g Hi. split; [exact (batch_ids _ _ _ _ _ Hid _ _ Hi) | exact (Hnew _ _ Hi)].
  - intros k g Hk. assert (k <= generation_seq d) by (apply Hwf; eauto).
    rewrite Hold, Hold0 by assumption. exact Hk.
  - intros k Hk. unfold table_wf in Hwf. rewrite Htab in Hk. simpl.
    destruct (Hdom _ Hk) as [H1 | H1]; [|lia].
    destruct (Hdom0 _ H1) as [H2 | H2]; [|lia].
    specialize (Hwf _ H2). lia.
  - destruct (length (models request)) as [|n] eqn:Hn.
    + pose proof (created_records_length d uid request op) as Hc. rewrite Hn in Hc.
      rewrite (nil_length_inv _ Hlen), (nil_length_inv _ Hc). simpl.
      rewrite Z.add_0_r. exact Htop.
    + left. destruct (lookup_lt_is_Some_2 final n) as [g Hg]; [lia|].
      replace (generation_seq d + Z.of_nat (S n)) with (generation_seq d + 1 + Z.of_nat n)
        by lia.
      rewrite (Hnew _ _ Hg). eexists. reflexivity.
Qed.

(** Two models on an empty table. *)
Lemma batch_is_persisted_witness :
  exists final st',
    generate_image sample_provider sample_service 7 (sample_request true ["m1"; "m2"])
        (session (sample_db 5)) = (Ok final, st')
    /\ (forall i g, final !! i = Some g ->
          gen_id g = Some (generation_seq (sample_db 5) + 1 + Z.of_nat i)
          /\ generations (db st') !! (generation_seq (sample_db 5) + 1 + Z.of_nat i)
              = Some g)
    /\ (forall k g, generations (sample_db 5) !! k = Some g
        -> generations (db st') !! k = Some g)
    /\ generation_seq (db st')
        = generation_seq (sample_db 5) + Z.of_nat
        (length (models (sample_request true ["m1"; "m2"])))
    /\ seq_is_top (db st').
Proof.
  refine (batch_is_persisted sample_provider sample_service 7
            (sample_request true ["m1"; "m2"]) (sample_db 5) (bob 5) sample_config _ _
            _ _ _);
    [exact (sample_world_text sample_optimizer)
    | reflexivity
    | simpl; lia
    | reflexivity
    | split;
      [intros k [g Hg]; simpl in Hg; rewrite lookup_empty in Hg; discriminate Hg
      | right; split; reflexivity]].
Defined.

Lemma models_loop_lookup w request op cfg gens : forall i st gens' st',
  models_loop w request op cfg i gens st = (Ok gens', st') ->
  forall k g', gens' !! k = Some g' ->
    exists g stk stk', gens !! k = Some g
      /\ loop_body w request op cfg (i + k) g stk = (Ok g', stk').
Proof.
  induction gens as [|g rest IH]; intros i st gens' st' Hrun k g' Hk; simpl in Hrun.
  - injection Hrun as <- _. discriminate.
  - destruct (loop_body_run w request op cfg i g st) as (g1 & Hbody & _).
    rewrite (bind_ok _ _ _ _ _ Hbody) in Hrun.
    destruct (models_loop_run w request op cfg rest (S i)
                (add_events st (image_events w i request op (model g) cfg)))
      as (rest' & Hrest & _).
    rewrite (bind_ok _ _ _ _ _ Hrest) in Hrun.
    injection Hrun as <- _.
    destruct k as [|k]; simpl in Hk.
    + injection Hk as <-. exists g, st. eexists. split; [reflexivity|].
      rewrite Nat.add_0_r. exact Hbody.
    + destruct (IH _ _ _ _ Hrest k g' Hk) as (g0 & stk & stk' & Hg0 & Hb).
      exists g0, stk, stk'. split; [exact Hg0|].
      replace (i + S k)%nat with (S i + k)%nat by lia. exact Hb.
Qed.

Lemma loop_body_outcome w request op cfg i g st g' st' :
  loop_body w request op cfg i g st = (Ok g', st') ->
  (status g' = completed <-> provider_succeeds w i request op (model g) cfg)
  /\ (status g' = completed \/ status g' = failed).
Proof.
  unfold provider_succeeds, loop_body, _call_ai_api, try_except, bind, lift, emit, ret, raise.
  destruct (image_request w request op (model g) (api_key cfg) (api_base_url cfg))
    as [rq|e] eqn:Hrq.
  - destruct (image_api w i rq) as [msg|code t body] eqn:Hapi.
    + intros [= <- _]. simpl. split; [|right; reflexivity].
      split; [discriminate|]. intros (rq' & t' & r & dct & [= <-] & H & _). congruence.
    + destruct (Z.eqb_spec code 200) as [->|Hne].
      * destruct body as [response|]; simpl.
        -- destruct (_extract_image_data response) as [[dct|]|e] eqn:Hex;
             intros [= <- _]; simpl.
           ++ split; [|left; reflexivity]. split; [|reflexivity].
              intros _. exists rq, t, response, dct. repeat split; assumption.
           ++ split; [|right; reflexivity]. split; [discriminate|].
              intros (rq' & t' & r & dct & [= <-] & H & Hex').
              rewrite Hapi in H. injection H as _ <-. congruence.
           ++ split; [|right; reflexivity]. split; [discriminate|].
              intros (rq' & t' & r & dct & [= <-] & H & Hex').
              rewrite Hapi in H. injection H as _ <-. congruence.
        -- intros [= <- _]. simpl. split; [|right; reflexivity]. split; [discriminate|].
           intros (rq' & t' & r & dct & [= <-] & H & _). rewrite Hapi in H. discriminate.
      * intros [= <- _]. simpl. split; [|right; reflexivity]. split; [discriminate|].
        intros (rq' & t' & r & dct & [= <-] & H & _). rewrite Hapi in H.
        injection H as E. contradiction.
  - intros [= <- _]. simpl. split; [|right; reflexivity]. split; [discriminate|].
    intros (rq' & t' & r & dct & H & _). discriminate.
Qed.

(** X7.  After the provider loop the record at position k is [completed]
    exactly when the k-th image call was answered 200 with an extractable
    body, and [failed] otherwise, whatever the other calls did; when the
    balance covers the charge the same holds for the returned records.
    (The payload values of the provider are strings or null, so that
    the batch can be committed.) *)
Theorem record_outcome_is_its_own_call
    (w : World) (svc : Service) (uid : Z) (request : GenerationRequest)
    (d : DB) (user : User) (cfg : ApiConfig) :
  text_payloads w ->
  users d !! uid = Some user ->
  1 <= points user ->
  find cfg_is_active (api_configs d) = Some cfg ->
  exists op final st' created called,
    fst (resolve_prompt w svc request cfg (session d)) = Ok op
    /\ generate_image w svc uid request (session d) = (Ok final, st')
    /\ snapshots st' = [created; called; final]
    /\ (forall k g m, called !! k = Some g -> models request !! k = Some m ->
          (status g = completed <-> provider_succeeds w k request op m cfg)
          /\ (status g = failed <-> ~ provider_succeeds w k request op m cfg))
    /\ (points_to_deduct request <= points user ->
          forall k g m, final !! k = Some g -> models request !! k = Some m ->
            (status g = completed <-> provider_succeeds w k request op m cfg)
            /\ (status g = failed <-> ~ provider_succeeds w k request op m cfg)).
Proof.
  intros Htext Hu Hp Hcfg.
  destruct (generate_image_full w svc uid request d user cfg Htext Hu Hp Hcfg)
    as (op & oevs & called & final & st' & devs & _ & Hop & Hloop & Hsteps & Hgi & Hset
        & _ & Hsn & _).
  exists op, final, st', (created_records d uid request op), called.
  split; [rewrite Hop; reflexivity|]. split; [exact Hgi|]. split; [exact Hsn|].
  assert (Hcalled : forall k g m, called !! k = Some g -> models request !! k = Some m ->
            (status g = completed <-> provider_succeeds w k request op m cfg)
            /\ (status g = failed <-> ~ provider_succeeds w k request op m cfg)).
  { intros k g m Hk Hm.
    destruct (models_loop_lookup _ _ _ _ _ _ _ _ _ Hloop k g Hk)
      as (g0 & stk & stk' & Hg0 & Hbody).
    assert (Hmodel : model g0 = m).
    { pose proof (created_records_models d uid request op) as Hmods.
      assert (Hm' : map model (created_records d uid request op) !! k = Some (model g0)).
      { change (map model (created_records d uid request op))
          with (model <$> created_records d uid request op).
        rewrite list_lookup_fmap, Hg0. reflexivity. }
      rewrite Hmods, Hm in Hm'. congruence. }
    simpl in Hbody. destruct (loop_body_outcome _ _ _ _ _ _ _ _ _ Hbody) as (Hiff & Hor).
    rewrite Hmodel in Hiff. split; [exact Hiff|].
    split.
    - intros Hf Hs. apply Hiff in Hs. congruence.
    - intros Hn. destruct Hor as [Hc|Hf]; [|exact Hf]. apply Hiff in Hc. contradiction. }
  split; [exact Hcalled|].
  intros Hle k g m Hk Hm.
  assert (Hsame : Forall2 (fun x y => status y = status x) called final).
  { inversion Hset as [Hnone Hf Hus Hd | Hsome Hle' Hf Hus Hd | Hsome Hlt Hf Hus Hd]; subst.
    - eapply Forall2_impl; [apply charge_none_spec|]. intros x y H. apply H.
    - eapply Forall2_impl; [apply charge_all_spec|]. intros x y H. apply H.
    - lia. }
  destruct (Forall2_lookup_r _ _ _ _ _ Hsame Hk) as (g0 & Hg0 & Hst).
  rewrite Hst. exact (Hcalled k g0 m Hg0 Hm).
Qed.

(** Two models, of which the provider serves the first. *)
Lemma record_outcome_is_its_own_call_witness :
  exists op final st' created called,
    fst (resolve_prompt sample_provider sample_service
        (sample_request false ["m1"; "m2"]) sample_config (session (sample_db 5)))
        = Ok op
    /\ generate_image sample_provider sample_service 7
        (sample_request false ["m1"; "m2"]) (session (sample_db 5)) = (Ok final, st')
    /\ snapshots st' = [created; called; final]
    /\ (forall k g m, called !! k = Some g
        -> models (sample_request false ["m1"; "m2"]) !! k = Some m ->
          (status g = completed
              <-> provider_succeeds sample_provider k
              (sample_request false ["m1"; "m2"]) op m sample_config)
          /\ (status g = failed
              <-> ~ provider_succeeds sample_provider k
              (sample_request false ["m1"; "m2"]) op m sample_config))
    /\ (points_to_deduct (sample_request false ["m1"; "m2"]) <= points (bob 5) ->
          forall k g m, final !! k = Some g
              -> models (sample_request false ["m1"; "m2"]) !! k = Some m ->
            (status g = completed
                <-> provider_succeeds sample_provider k
                (sample_request false ["m1"; "m2"]) op m sample_config)
            /\ (status g = failed
                <-> ~ provider_succeeds sample_provider k
                (sample_request false ["m1"; "m2"]) op m sample_config)).
Proof.
  refine (record_outcome_is_its_own_call sample_provider sample_service 7
            (sample_request false ["m1"; "m2"]) (sample_db 5) (bob 5) sample_config _ _
            _ _);
    [exact (sample_world_text sample_optimizer)
    | reflexivity
    | simpl; lia
    | reflexivity].
Defined.

Lemma record_step_fields g g' :
  record_step g g' ->
  error_message g = None ->
  (status g' = completed -> is_Some (completed_at g') /\ error_message g' = None)
  /\ (status g' = failed -> is_Some (error_message g')).
Proof.
  intros [] Hnone; simpl; split; try discriminate; intros _; eauto.
Qed.

(** X8.  With a provider whose payload values are strings or null,
    [generate_image] returns, and in what it returns a [completed]
    record has a completion time, no error message and the batch charge
    as [points_used]; a [failed] record has an error message and
    [points_used] 0. *)
Theorem returned_records_are_labelled
    (w : World) (svc : Service) (uid : Z) (request : GenerationRequest)
    (d : DB) (user : User) (cfg : ApiConfig) :
  text_payloads w ->
  users d !! uid = Some user ->
  1 <= points user ->
  find cfg_is_active (api_configs d) = Some cfg ->
  exists final st',
    generate_image w svc uid request (session d) = (Ok final, st')
    /\ Forall (fun g =>
                 (status g = completed ->
                    is_Some (completed_at g) /\ error_message g = None
                    /\ points_used g = points_to_deduct request)
                 /\ (status g = failed ->
                       is_Some (error_message g) /\ points_used g = 0)) final.
Proof.
  intros Htext Hu Hp Hcfg.
  destruct (generate_image_full w svc uid request d user cfg Htext Hu Hp Hcfg)
    as (op & oevs & called & final & st' & devs & _ & _ & _ & Hsteps & Hgi & Hset & _).
  exists final, st'. split; [exact Hgi|].
  assert (Hc : Forall (fun g =>
                 (status g = completed \/ status g = failed)
                 /\ (status g = completed -> is_Some (completed_at g) /\ error_message g = None)
                 /\ (status g = failed -> is_Some (error_message g))) called).
  { eapply Forall2_Forall_l; [exact Hsteps | apply created_records_blank |].
    simpl. intros x y Hxy (_ & _ & Hn & _).
    split; [exact (record_step_status _ _ Hxy) | exact (record_step_fields _ _ Hxy Hn)]. }
  inversion Hset as [Hnone Hf Hus Hd | Hsome Hle Hf Hus Hd | Hsome Hlt Hf Hus Hd]; subst.
  - unfold charge_none. apply List.Forall_map.
    eapply Forall_impl; [apply Forall_and; split; [exact Hnone | exact Hc]|].
    simpl. intros g (Hnc & _ & _ & Hfm).
    split; [contradiction|]. intros Hf. split; [auto | reflexivity].
  - unfold charge_all. apply List.Forall_map.
    eapply Forall_impl; [exact Hc|].
    simpl. intros g (_ & Hcm & Hfm).
    destruct (is_completed g) eqn:E; simpl.
    + apply is_completed_true in E. split; [|congruence].
      intros _. destruct (Hcm E). repeat split; assumption.
    + assert (status g <> completed) by (rewrite <- is_completed_true; congruence).
      split; [contradiction|]. intros Hf. split; [auto | reflexivity].
  - unfold fail_all. apply List.Forall_map. apply Forall_forall. intros g _. simpl.
    split; [discriminate|]. intros _. split; [eauto | reflexivity].
Qed.

(** Two models, of which the provider serves the first. *)
Lemma returned_records_are_labelled_witness :
  exists final st',
    generate_image sample_provider sample_service 7 (sample_request true ["m1"; "m2"])
        (session (sample_db 5)) = (Ok final, st')
    /\ Forall (fun g =>
                 (status g = completed ->
                    is_Some (completed_at g) /\ error_message g = None
                    /\ points_used g
                        = points_to_deduct (sample_request true ["m1"; "m2"]))
                 /\ (status g = failed ->
                       is_Some (error_message g) /\ points_used g = 0)) final.
Proof.
  refine (returned_records_are_labelled sample_provider sample_service 7
            (sample_request true ["m1"; "m2"]) (sample_db 5) (bob 5) sample_config _ _
            _ _);
    [exact (sample_world_text sample_optimizer)
    | reflexivity
    | simpl; lia
    | reflexivity].
Defined.

Lemma resolve_prompt_unavailable w svc request cfg st :
  optimizer_unavailable svc request cfg ->
  resolve_prompt w svc request cfg st = (Ok (req_prompt request), st).
Proof.
  unfold optimizer_unavailable, resolve_prompt.
  intros [Hm | [Hs | [Hk Hdk]]].
  - rewrite Hm, andb_false_r. reflexivity.
  - rewrite Hs, andb_false_r. reflexivity.
  - match goal with |- context [if ?c then _ else _] => destruct c end; [|reflexivity].
    unfold optimize_prompt. rewrite Hk, Hdk. reflexivity.
Qed.

Lemma optimizer_calls_app a b : optimizer_calls (a ++ b) = optimizer_calls a ++ optimizer_calls b.
Proof. apply omap_app. Qed.

Lemma optimizer_calls_image_events w i request p m cfg :
  optimizer_calls (image_events w i request p m cfg) = [].
Proof. unfold image_events. destruct (image_request _ _ _ _ _ _); reflexivity. Qed.

Lemma optimizer_calls_loop_events w request p cfg gens : forall i,
  optimizer_calls (loop_events w request p cfg i gens) = [].
Proof.
  induction gens as [|g rest IH]; intros i; simpl; [reflexivity|].
  rewrite optimizer_calls_app, optimizer_calls_image_events, IH. reflexivity.
Qed.

Lemma settled_events uid request user us called final us' devs :
  Settled uid request user us called final us' devs ->
  (devs = [] \/ devs = [EvDebit uid (points_to_deduct request)])
  /\ optimizer_calls devs = [] /\ image_calls devs = [].
Proof. intros []; repeat split; auto. Qed.

Lemma batch_optimized_prompt uid request user us d op called final us' devs :
  Forall2 record_step (created_records d uid request op) called ->
  Settled uid request user us called final us' devs ->
  Forall (fun g => optimized_prompt g
                   = (if decide (op = req_prompt request) then None else Some op)) final.
Proof.
  intros Hsteps Hset.
  eapply Forall2_Forall_l;
    [exact (batch_identity _ _ _ _ _ _ _ _ _ Hsteps Hset) | apply created_records_fresh |].
  simpl. intros x y (_ & _ & _ & _ & E) (_ & _ & _ & _ & H). congruence.
Qed.

(** X9.  The charge follows the switch, not the optimizer: when
    [enable_optimization] is true but no optimizer model, no system prompt
    or no API key is set, the optimizer is never called, the records carry
    no optimized prompt and the image calls the original prompt, and a
    batch with a [completed] record is still charged 2.  (The payload
    values of the provider are strings or null.) *)
Theorem optimization_charged_without_optimizer
    (w : World) (svc : Service) (uid : Z) (request : GenerationRequest)
    (d : DB) (user : User) (cfg : ApiConfig) :
  text_payloads w ->
  users d !! uid = Some user ->
  1 <= points user ->
  find cfg_is_active (api_configs d) = Some cfg ->
  enable_optimization request = true ->
  optimizer_unavailable svc request cfg ->
  exists final st',
    generate_image w svc uid request (session d) = (Ok final, st')
    /\ optimizer_calls (events st') = []
    /\ Forall (fun g => optimized_prompt g = None) final
    /\ Forall (fun rq => img_prompt rq = req_prompt request) (image_calls (events st'))
    /\ (Exists (fun g => status g = completed) final ->
          debits (events st') = [(uid, 2)]
          /\ balance uid st' = Some (points user - 2)
          /\ Forall (fun g => status g = completed -> points_used g = 2) final).
Proof.
  intros Htext Hu Hp Hcfg Hopt Hun.
  destruct (generate_image_full w svc uid request d user cfg Htext Hu Hp Hcfg)
    as (op & oevs & called & final & st' & devs & _ & Hop & _ & Hsteps & Hgi & Hset
        & Hev & _).
  rewrite (resolve_prompt_unavailable w svc request cfg (session d) Hun) in Hop.
  injection Hop as <- Hs. symmetry in Hs. subst oevs.
  destruct (settled_events _ _ _ _ _ _ _ _ Hset) as (_ & Hdo & Hdi).
  assert (Hcharge : points_to_deduct request = 2)
    by (unfold points_to_deduct; rewrite Hopt; reflexivity).
  exists final, st'. split; [exact Hgi|]. rewrite Hev. simpl.
  split; [rewrite optimizer_calls_app, optimizer_calls_loop_events, Hdo; reflexivity|].
  split.
  { eapply Forall_impl; [exact (batch_optimized_prompt _ _ _ _ _ _ _ _ _ _ Hsteps Hset)|].
    simpl. intros g ->. destruct (decide _); [reflexivity | contradiction]. }
  split.
  { rewrite image_calls_app, Hdi, app_nil_r. apply image_calls_loop_prompt. }
  intros Hex.
  inversion Hset as [Hnone Hf Hus Hd | Hsome Hle Hf Hus Hd | Hsome Hlt Hf Hus Hd]; subst.
  - exfalso. apply (Forall_Exists_absurd _ _ Hnone).
    eapply Forall2_Exists_l; [apply charge_none_spec | | exact Hex].
    simpl. intros x y (Hst & _) Hy. congruence.
  - rewrite Hcharge in *. split.
    { rewrite debits_app, debits_loop_events. reflexivity. }
    split.
    { unfold balance. rewrite <- Hus, lookup_insert_eq. reflexivity. }
    unfold charge_all. apply List.Forall_map. apply Forall_forall. intros g _.
    destruct (is_completed g) eqn:E; simpl; [reflexivity|].
    intros Hc. apply is_completed_true in Hc. congruence.
  - exfalso.
    assert (HF : Forall (fun g => ~ status g = completed) (fail_all insufficient called)).
    { eapply Forall2_Forall_r; [apply fail_all_spec|].
      simpl. intros x y (Hst & _). congruence. }
    exact (Forall_Exists_absurd _ _ HF Hex).
Qed.

(** Optimization switched on under a configuration that names no
    optimizer model. *)
Lemma optimization_charged_without_optimizer_witness :
  exists final st',
    generate_image sample_provider sample_service 7 (sample_request true ["m1"])
        (session (plain_db 5)) = (Ok final, st')
    /\ optimizer_calls (events st') = []
    /\ Forall (fun g => optimized_prompt g = None) final
    /\ Forall (fun rq => img_prompt rq = req_prompt (sample_request true ["m1"]))
        (image_calls (events st'))
    /\ (Exists (fun g => status g = completed) final ->
          debits (events st') = [(7, 2)]
          /\ balance 7 st' = Some (points (bob 5) - 2)
          /\ Forall (fun g => status g = completed -> points_used g = 2) final).
Proof.
  refine (optimization_charged_without_optimizer sample_provider sample_service 7
            (sample_request true ["m1"]) (plain_db 5) (bob 5) plain_config _ _ _ _ _ _);
    [exact (sample_world_text sample_optimizer)
    | reflexivity
    | simpl; lia
    | reflexivity
    | reflexivity
    | left; reflexivity].
Defined.

Lemma resolve_prompt_optimized w svc request cfg st t result txt :
  enable_optimization request = true ->
  Py.truthy_str (Py.or_str (req_optimizer_model request) (cfg_optimizer_model cfg)) = true ->
  Py.truthy_str (Py.or_str (req_system_prompt request) (cfg_system_prompt cfg)) = true ->
  effective_key svc cfg <> "" ->
  optimizer_api w (optimizer_request svc request cfg) = Response 200 t (Some result) ->
  optimized_text result = Ok txt ->
  txt <> "" ->
  resolve_prompt w svc request cfg st
  = (Ok txt, add_events st [EvOptimize (optimizer_request svc request cfg)]).
Proof.
  intros Hopt Hm Hs Hkey Hapi Htxt Hne.
  unfold resolve_prompt. rewrite Hopt, Hm, Hs. simpl.
  unfold optimize_prompt.
  assert (Hk : Py.or_str (Some (api_key cfg)) (Some (default_api_key svc))
               = Some (effective_key svc cfg)).
  { unfold Py.or_str, Py.truthy_str, effective_key.
    destruct (String.eqb (api_key cfg) ""); reflexivity. }
  assert (Hb : Py.or_str (Some (api_base_url cfg)) (Some (default_api_base_url svc))
               = Some (effective_base_url svc cfg)).
  { unfold Py.or_str, Py.truthy_str, effective_base_url.
    destruct (String.eqb (api_base_url cfg) ""); reflexivity. }
  rewrite Hk, Hb.
  assert (Hkt : Py.truthy_str (Some (effective_key svc cfg)) = true).
  { simpl. destruct (String.eqb_spec (effective_key svc cfg) ""); [contradiction | reflexivity]. }
  rewrite Hkt, Hs. unfold try_except, bind, emit, lift, ret.
  change (negb true) with false. cbv iota.
  assert (Hrq : chat_request (req_prompt request)
            (Py.or_str (req_optimizer_model request) (cfg_optimizer_model cfg))
            (Some (effective_key svc cfg)) (Some (effective_base_url svc cfg))
            (Py.or_str (req_system_prompt request) (cfg_system_prompt cfg))
          = optimizer_request svc request cfg) by reflexivity.
  rewrite Hrq, Hapi. simpl. rewrite Htxt.
  destruct (String.eqb_spec txt ""); [contradiction|]. reflexivity.
Qed.

(** X10.  When the optimizer answers 200 with a text that, once the
    white space around it is removed, is not empty and differs from the
    prompt, exactly one optimizer call is made, before anything else,
    with the model and system prompt of the request where it sets them
    and of the configuration otherwise; every record keeps the original
    prompt and stores the text as [optimized_prompt], and every image
    call carries the text.  (The payload values of the provider are
    strings or null.) *)
Theorem optimized_prompt_is_used
    (w : World) (svc : Service) (uid : Z) (request : GenerationRequest)
    (d : DB) (user : User) (cfg : ApiConfig) (t : string) (result : json) (txt : string) :
  text_payloads w ->
  users d !! uid = Some user ->
  1 <= points user ->
  find cfg_is_active (api_configs d) = Some cfg ->
  enable_optimization request = true ->
  Py.truthy_str (Py.or_str (req_optimizer_model request) (cfg_optimizer_model cfg)) = true ->
  Py.truthy_str (Py.or_str (req_system_prompt request) (cfg_system_prompt cfg)) = true ->
  effective_key svc cfg <> "" ->
  optimizer_api w (optimizer_request svc request cfg) = Response 200 t (Some result) ->
  optimized_text result = Ok txt ->
  txt <> "" ->
  txt <> req_prompt request ->
  exists final st',
    generate_image w svc uid request (session d) = (Ok final, st')
    /\ optimizer_calls (events st') = [optimizer_request svc request cfg]
    /\ head (events st') = Some (EvOptimize (optimizer_request svc request cfg))
    /\ Forall (fun g => prompt g = req_prompt request /\ optimized_prompt g = Some txt) final
    /\ Forall (fun rq => img_prompt rq = txt) (image_calls (events st')).
Proof.
  intros Htext Hu Hp Hcfg Hopt Hm Hs Hkey Hapi Htxt Hne Hdiff.
  destruct (generate_image_full w svc uid request d user cfg Htext Hu Hp Hcfg)
    as (op & oevs & called & final & st' & devs & _ & Hop & _ & Hsteps & Hgi & Hset
        & Hev & _).
  rewrite (resolve_prompt_optimized w svc request cfg (session d) t result txt
             Hopt Hm Hs Hkey Hapi Htxt Hne) in Hop.
  injection Hop as <- Ho. simpl in Ho. subst oevs.
  destruct (settled_events _ _ _ _ _ _ _ _ Hset) as (_ & Hdo & Hdi).
  exists final, st'. split; [exact Hgi|]. rewrite Hev.
  split.
  { rewrite !optimizer_calls_app, optimizer_calls_loop_events, Hdo. reflexivity. }
  split; [reflexivity|].
  split.
  { pose proof (batch_optimized_prompt _ _ _ _ _ _ _ _ _ _ Hsteps Hset) as Hop.
    pose proof (batch_identity _ _ _ _ _ _ _ _ _ Hsteps Hset) as Hid.
    assert (Hpr : Forall (fun g => prompt g = req_prompt request) final).
    { eapply Forall2_Forall_l; [exact Hid | apply created_records_blank |].
      simpl. intros x y (_ & _ & E & _) (_ & H & _). congruence. }
    eapply Forall_impl; [apply Forall_and; split; [exact Hpr | exact Hop]|].
    simpl. intros g (H1 & H2). split; [exact H1|]. rewrite H2.
    destruct (decide (txt = req_prompt request)); [contradiction | reflexivity]. }
  rewrite !image_calls_app, Hdi, app_nil_r. simpl. apply image_calls_loop_prompt.
Qed.

(** The sample optimizer rewrites the prompt. *)
Lemma optimized_prompt_is_used_witness :
  exists final st',
    generate_image sample_provider sample_service 7 (sample_request true ["m1"; "m2"])
        (session (sample_db 5)) = (Ok final, st')
    /\ optimizer_calls (events st')
        = [optimizer_request sample_service
        (sample_request true ["m1"; "m2"]) sample_config]
    /\ head (events st')
        = Some
        (EvOptimize
        (optimizer_request sample_service
        (sample_request true ["m1"; "m2"]) sample_config))
    /\ Forall
        (fun g => prompt g = req_prompt (sample_request true ["m1"; "m2"])
        /\ optimized_prompt g = Some "a cat, oil on canvas") final
    /\ Forall (fun rq => img_prompt rq = "a cat, oil on canvas")
        (image_calls (events st')).
Proof.
  refine (optimized_prompt_is_used sample_provider sample_service 7
            (sample_request true ["m1"; "m2"]) (sample_db 5) (bob 5) sample_config ""
            sample_chat "a cat, oil on canvas" _ _ _ _ _ _ _ _ _ _ _ _);
    [exact (sample_world_text sample_optimizer)
    | reflexivity
    | simpl; lia
    | reflexivity
    | reflexivity
    | reflexivity
    | reflexivity
    | vm_compute; discriminate
    | reflexivity
    | vm_compute; reflexivity
    | discriminate
    | vm_compute; discriminate].
Defined.

Lemma is_image_loop_events w request p cfg gens : forall i,
  Forall is_image_event (loop_events w request p cfg i gens).
Proof.
  induction gens as [|g rest IH]; intros i; simpl; [constructor|].
  apply Forall_app. split; [|apply IH].
  unfold image_events. destruct (image_request _ _ _ _ _ _); repeat constructor.
Qed.

Lemma image_indices_app a b : image_indices (a ++ b) = image_indices a ++ image_indices b.
Proof. apply omap_app. Qed.

Lemma image_indices_loop_events w request p cfg gens : forall i,
  image_indices (loop_events w request p cfg i gens) `sublist_of` seq i (length gens)
  /\ (image_ready w request ->
        image_indices (loop_events w request p cfg i gens) = seq i (length gens)).
Proof.
  induction gens as [|g rest IH]; intros i; simpl.
  - split; [constructor | reflexivity].
  - destruct (IH (S i)) as [Hsub Heq]. rewrite image_indices_app. unfold image_events.
    split.
    + destruct (image_request _ _ _ _ _ _); simpl.
      * apply sublist_skip. exact Hsub.
      * apply sublist_cons. exact Hsub.
    + intros Hready.
      destruct (image_request_ready w request p (model g) (api_key cfg) (api_base_url cfg)
                  Hready) as (rq & ->).
      simpl. rewrite (Heq Hready). reflexivity.
Qed.

(** X11.  The events of a run are: at most one optimizer call, then the
    image calls, then at most one debit.  An image call is made at most
    once per position of the model list, in increasing order, and exactly
    once per position unless the image of an edit request does not
    decode.  (The payload values of the provider are strings or null.) *)
Theorem calls_precede_settlement
    (w : World) (svc : Service) (uid : Z) (request : GenerationRequest)
    (d : DB) (user : User) (cfg : ApiConfig) :
  text_payloads w ->
  users d !! uid = Some user ->
  1 <= points user ->
  find cfg_is_active (api_configs d) = Some cfg ->
  exists final st' oevs ievs devs,
    generate_image w svc uid request (session d) = (Ok final, st')
    /\ events st' = oevs ++ ievs ++ devs
    /\ (oevs = [] \/ exists rq, oevs = [EvOptimize rq])
    /\ Forall is_image_event ievs
    /\ image_indices ievs `sublist_of` seq 0 (length (models request))
    /\ (image_ready w request -> image_indices ievs = seq 0 (length (models request)))
    /\ (devs = [] \/ devs = [EvDebit uid (points_to_deduct request)]).
Proof.
  intros Htext Hu Hp Hcfg.
  destruct (generate_image_full w svc uid request d user cfg Htext Hu Hp Hcfg)
    as (op & oevs & called & final & st' & devs & Hoevs & _ & _ & _ & Hgi & Hset & Hev & _).
  exists final, st', oevs,
    (loop_events w request op cfg 0 (created_records d uid request op)), devs.
  destruct (image_indices_loop_events w request op cfg (created_records d uid request op) 0)
    as [Hsub Heq].
  rewrite created_records_length in Hsub, Heq.
  destruct (settled_events _ _ _ _ _ _ _ _ Hset) as (Hd & _).
  repeat split; try assumption. apply is_image_loop_events.
Qed.

(** Two models with optimization. *)
Lemma calls_precede_settlement_witness :
  exists final st' oevs ievs devs,
    generate_image sample_provider sample_service 7 (sample_request true ["m1"; "m2"])
        (session (sample_db 5)) = (Ok final, st')
    /\ events st' = oevs ++ ievs ++ devs
    /\ (oevs = [] \/ exists rq, oevs = [EvOptimize rq])
    /\ Forall is_image_event ievs
    /\ image_indices ievs `sublist_of` seq 0
        (length (models (sample_request true ["m1"; "m2"])))
    /\ (image_ready sample_provider (sample_request true ["m1"; "m2"])
        -> image_indices ievs
        = seq 0 (length (models (sample_request true ["m1"; "m2"]))))
    /\ (devs = [] \/ devs
        = [EvDebit 7 (points_to_deduct (sample_request true ["m1"; "m2"]))]).
Proof.
  refine (calls_precede_settlement sample_provider sample_service 7
            (sample_request true ["m1"; "m2"]) (sample_db 5) (bob 5) sample_config _ _
            _ _);
    [exact (sample_world_text sample_optimizer)
    | reflexivity
    | simpl; lia
    | reflexivity].
Defined.

Lemma loop_events_undecodable w request p cfg gens : forall i,
  Py.truthy_str (image_file request) = true ->
  b64decode w (text (image_file request)) = None ->
  loop_events w request p cfg i gens = [].
Proof.
  induction gens as [|g rest IH]; intros i Ht Hd; simpl; [reflexivity|].
  rewrite (IH _ Ht Hd). unfold image_events, image_request. rewrite Ht, Hd. reflexivity.
Qed.

(** X12.  When the request carries an image that [b64decode] rejects, no
    image call is made at all; every record is returned [failed] with
    empty image fields and [points_used] 0, and nothing is debited. *)
Theorem undecodable_image_fails_batch
    (w : World) (svc : Service) (uid : Z) (request : GenerationRequest)
    (d : DB) (user : User) (cfg : ApiConfig) :
  users d !! uid = Some user ->
  1 <= points user ->
  find cfg_is_active (api_configs d) = Some cfg ->
  Py.truthy_str (image_file request) = true ->
  b64decode w (text (image_file request)) = None ->
  exists final st',
    generate_image w svc uid request (session d) = (Ok final, st')
    /\ image_calls (events st') = []
    /\ debits (events st') = []
    /\ users (db st') = users d
    /\ length final = length (models request)
    /\ Forall (fun g => status g = failed /\ points_used g = 0
                        /\ image_url g = JNull /\ base64_image g = JNull) final.
Proof.
  intros Hu Hp Hcfg Ht Hd.
  destruct (generate_image_cases w svc uid request d user cfg Hu Hp Hcfg)
    as (op & oevs & called & Hoevs & _ & Hloop & Hsteps & Hdone & _).
  assert (Hcalled : Forall (fun g => status g = failed
                                     /\ image_url g = JNull /\ base64_image g = JNull) called).
  { apply Forall_lookup. intros k g Hk.
    destruct (models_loop_lookup _ _ _ _ _ _ _ _ _ Hloop k g Hk)
      as (g0 & stk & stk' & Hg0 & Hbody).
    destruct (loop_body_outcome _ _ _ _ _ _ _ _ _ Hbody) as (Hiff & Hor).
    assert (Hno : status g <> completed).
    { intros Hc. apply Hiff in Hc as (rq & _ & _ & _ & Hrq & _).
      unfold image_request in Hrq. rewrite Ht, Hd in Hrq. discriminate. }
    destruct Hor as [Hc|Hf]; [contradiction|]. split; [exact Hf|].
    pose proof (created_records_fresh d uid request op) as Hfresh.
    rewrite Forall_lookup in Hfresh. destruct (Hfresh _ _ Hg0) as (_ & _ & Hu0 & Hb0 & _).
    pose proof (Forall2_lookup_lr _ _ _ _ _ _ Hsteps Hg0 Hk) as Hstep.
    destruct Hstep; simpl in *; [congruence | split; assumption]. }
  assert (Hnone : Forall (fun g => status g <> completed) called).
  { eapply Forall_impl; [exact Hcalled|]. simpl. intros g (H & _). congruence. }
  destruct (Hdone (failed_batch_writable _ _ Hsteps Hnone
                     (created_records_writable d uid request op)))
    as (final & st' & devs & Hgi & Hset & Hev & _).
  exists final, st'. split; [exact Hgi|].
  inversion Hset as [_ Hf Hus Hdv | Hsome Hle Hf Hus Hdv | Hsome Hlt Hf Hus Hdv]; subst;
    try (exfalso; exact (Forall_Exists_absurd _ _ Hnone Hsome)).
  rewrite Hev, (loop_events_undecodable _ _ _ _ _ _ Ht Hd), !app_nil_r.
  split; [apply image_calls_no_image; exact Hoevs|].
  split; [apply debits_optimizer_events; exact Hoevs|].
  split; [congruence|].
  split.
  { unfold charge_none. rewrite List.length_map, <- (Forall2_length _ _ _ Hsteps).
    apply created_records_length. }
  unfold charge_none. apply List.Forall_map.
  eapply Forall_impl; [exact Hcalled|]. simpl. intros g (H1 & H2 & H3). repeat split; assumption.
Qed.

(** An edit request whose image does not decode. *)
Lemma undecodable_image_fails_batch_witness :
  exists final st',
    generate_image strict_world sample_service 7 edit_request (session (sample_db 5))
        = (Ok final, st')
    /\ image_calls (events st') = []
    /\ debits (events st') = []
    /\ users (db st') = users (sample_db 5)
    /\ length final = length (models edit_request)
    /\ Forall (fun g => status g = failed /\ points_used g = 0
                        /\ image_url g = JNull /\ base64_image g = JNull) final.
Proof.
  refine (undecodable_image_fails_batch strict_world sample_service 7 edit_request
            (sample_db 5) (bob 5) sample_config _ _ _ _ _);
    [reflexivity
    | simpl; lia
    | reflexivity
    | reflexivity
    | reflexivity].
Defined.





(** ** More on the optimizer and on the extraction *)

Lemma skip_spaces_space tok2 tok3 a rest :
  Py.is_space a = true ->
  Py.skip_spaces tok2 tok3 (a :: rest) = Py.skip_spaces tok2 tok3 rest.
Proof. intros H. simpl. rewrite H. reflexivity. Qed.

Lemma skip_spaces_two tok2 tok3 a b rest :
  Py.is_space a = false -> tok2 a b = true ->
  Py.skip_spaces tok2 tok3 (a :: b :: rest) = Py.skip_spaces tok2 tok3 rest.
Proof. intros H1 H2. simpl. rewrite H1, H2. reflexivity. Qed.

Lemma skip_spaces_three tok2 tok3 a b c rest :
  Py.is_space a = false -> tok2 a b = false -> tok3 a b c = true ->
  Py.skip_spaces tok2 tok3 (a :: b :: c :: rest) = Py.skip_spaces tok2 tok3 rest.
Proof. intros H1 H2 H3. simpl. rewrite H1, H2, H3. reflexivity. Qed.

Lemma skip_spaces_clean tok2 tok3 : forall n l,
  (length l <= n)%nat -> starts_clean tok2 tok3 (Py.skip_spaces tok2 tok3 l).
Proof.
  induction n as [|n IH]; intros l Hl.
  - destruct l; [exact I | simpl in Hl; lia].
  - destruct l as [|a rest]; [exact I|].
    destruct (Py.is_space a) eqn:Ea.
    { rewrite skip_spaces_space by exact Ea. apply IH. simpl in Hl. lia. }
    destruct rest as [|b rest].
    { simpl. rewrite Ea. simpl. split; [exact Ea | exact I]. }
    destruct (tok2 a b) eqn:Eab.
    { rewrite skip_spaces_two by assumption. apply IH. simpl in Hl. lia. }
    destruct rest as [|c rest].
    { simpl. rewrite Ea, Eab. simpl. split; [exact Ea|]. split; [exact Eab | exact I]. }
    destruct (tok3 a b c) eqn:Eabc.
    { rewrite skip_spaces_three by assumption. apply IH. simpl in Hl. lia. }
    simpl. rewrite Ea, Eab, Eabc. simpl. repeat split; assumption.
Qed.

Lemma skip_spaces_id tok2 tok3 l :
  starts_clean tok2 tok3 l -> Py.skip_spaces tok2 tok3 l = l.
Proof.
  destruct l as [|a [|b [|c r]]]; simpl; [reflexivity | | |].
  - intros [-> _]. reflexivity.
  - intros (-> & -> & _). reflexivity.
  - intros (-> & -> & ->). reflexivity.
Qed.

Lemma starts_clean_prefix tok2 tok3 p q :
  starts_clean tok2 tok3 (p ++ q) -> starts_clean tok2 tok3 p.
Proof.
  destruct p as [|a [|b [|c r]]]; simpl; [intros _; exact I | | |].
  - intros [H _]. split; [exact H | exact I].
  - intros (H1 & H2 & _). split; [exact H1|]. split; [exact H2 | exact I].
  - intros H. exact H.
Qed.

Lemma skip_spaces_suffix tok2 tok3 : forall n l,
  (length l <= n)%nat -> exists p, l = p ++ Py.skip_spaces tok2 tok3 l.
Proof.
  induction n as [|n IH]; intros l Hl.
  - destruct l; [exists []; reflexivity | simpl in Hl; lia].
  - destruct l as [|a rest]; [exists []; reflexivity|].
    destruct (Py.is_space a) eqn:Ea.
    { rewrite skip_spaces_space by exact Ea.
      destruct (IH rest) as [p Hp]; [simpl in Hl; lia|].
      exists (a :: p). simpl. rewrite <- Hp. reflexivity. }
    destruct rest as [|b rest].
    { exists []. simpl. rewrite Ea. reflexivity. }
    destruct (tok2 a b) eqn:Eab.
    { rewrite skip_spaces_two by assumption.
      destruct (IH rest) as [p Hp]; [simpl in Hl; lia|].
      exists (a :: b :: p). simpl. rewrite <- Hp. reflexivity. }
    destruct rest as [|c rest].
    { exists []. simpl. rewrite Ea, Eab. reflexivity. }
    destruct (tok3 a b c) eqn:Eabc.
    { rewrite skip_spaces_three by assumption.
      destruct (IH rest) as [p Hp]; [simpl in Hl; lia|].
      exists (a :: b :: c :: p). simpl. rewrite <- Hp. reflexivity. }
    exists []. simpl. rewrite Ea, Eab, Eabc. reflexivity.
Qed.

Lemma rstrip_bytes_idem l : Py.rstrip_bytes (Py.rstrip_bytes l) = Py.rstrip_bytes l.
Proof.
  unfold Py.rstrip_bytes. rewrite rev_involutive.
  rewrite (skip_spaces_id _ _ _ (skip_spaces_clean _ _ _ _ (le_n _))). reflexivity.
Qed.

Lemma lstrip_rstrip_bytes l :
  starts_clean Py.space2 Py.space3 l ->
  Py.lstrip_bytes (Py.rstrip_bytes l) = Py.rstrip_bytes l.
Proof.
  intros Hl. unfold Py.lstrip_bytes. apply skip_spaces_id.
  unfold Py.rstrip_bytes.
  destruct (skip_spaces_suffix (fun b a => Py.space2 a b) (fun c b a => Py.space3 a b c)
              _ (rev l) (le_n _)) as [p Hp].
  apply (starts_clean_prefix _ _ _ (rev p)).
  rewrite <- rev_app_distr, <- Hp, rev_involutive. exact Hl.
Qed.

(** [strip] removes the white space that is not ASCII as well: an
    ideographic space (U+3000) in front, a no-break space (U+00A0) and
    an em space (U+2003) behind. *)
Lemma strip_wide_space : Py.strip (JStr "　 cat  ") = Ok "cat".
Proof. vm_compute. reflexivity. Qed.

(** A character whose encoding begins like that of a space is kept: the
    ellipsis (U+2026) and the micro sign (U+00B5) share their first
    bytes with U+2003 and U+00A0. *)
Lemma strip_keeps_letters : Py.strip (JStr "…catµ") = Ok "…catµ".
Proof. vm_compute. reflexivity. Qed.

(** What [strip] returns is left unchanged by [strip]. *)
Lemma strip_idem s : Py.strip (JStr (Py.rstrip (Py.lstrip s))) = Ok (Py.rstrip (Py.lstrip s)).
Proof.
  unfold Py.strip. f_equal. unfold Py.rstrip, Py.lstrip.
  rewrite !list_ascii_of_string_of_list_ascii.
  rewrite lstrip_rstrip_bytes
    by (unfold Py.lstrip_bytes; apply (skip_spaces_clean _ _ _ _ (le_n _))).
  rewrite rstrip_bytes_idem. reflexivity.
Qed.

Lemma optimized_text_stripped result txt :
  optimized_text result = Ok txt -> exists c, txt = Py.rstrip (Py.lstrip c).
Proof.
  unfold optimized_text.
  destruct (Py.get result "choices" (JArr [JObj []])) as [choices|]; simpl; [|discriminate].
  destruct (Py.item0 choices) as [first|]; simpl; [|discriminate].
  destruct (Py.get first "message" (JObj [])) as [message|]; simpl; [|discriminate].
  destruct (Py.get message "content" (JStr "")) as [content|]; simpl; [|discriminate].
  destruct content; simpl; try discriminate. intros [= <-]. eauto.
Qed.

(** X14.  [optimize_prompt] never raises and makes at most one call, for
    the given prompt and model with [max_tokens] 500.  It returns the
    prompt itself or a text that is not empty and has no surrounding
    white space left, ASCII or not ([strip] leaves it unchanged);
    without a call it returns the prompt. *)
Theorem optimize_prompt_never_raises
    (w : World) (svc : Service) (prompt : string)
    (om ak bu sp : option string) (st : St) :
  exists s oevs,
    optimize_prompt w svc prompt om ak bu sp st = (Ok s, add_events st oevs)
    /\ (oevs = []
        \/ exists rq, oevs = [EvOptimize rq] /\ chat_user rq = prompt
                      /\ chat_model rq = om /\ chat_max_tokens rq = 500)
    /\ (s = prompt \/ (s <> "" /\ Py.strip (JStr s) = Ok s))
    /\ (oevs = [] -> s = prompt).
Proof.
  unfold optimize_prompt.
  destruct (negb (Py.truthy_str (Py.or_str ak (Some (default_api_key svc))))).
  - exists prompt, []. rewrite add_events_nil. repeat split; auto.
  - unfold try_except, bind, emit, lift, ret, raise.
    match goal with |- context [optimizer_api w ?r] => set (rq := r) end.
    fold (add_events st [EvOptimize rq]).
    assert (Hev : [EvOptimize rq] = []
                  \/ exists r, [EvOptimize rq] = [EvOptimize r] /\ chat_user r = prompt
                               /\ chat_model r = om /\ chat_max_tokens r = 500).
    { right. exists rq. repeat split. }
    assert (Hnil : [EvOptimize rq] = [] -> prompt = prompt) by reflexivity.
    destruct (optimizer_api w rq) as [msg|code t body].
    { exists prompt, [EvOptimize rq]. repeat split; auto. }
    destruct (code =? 200).
    2:{ exists prompt, [EvOptimize rq]. repeat split; auto. }
    destruct (response_json body) as [result|e].
    2:{ exists prompt, [EvOptimize rq]. repeat split; auto. }
    destruct (optimized_text result) as [optimized|e] eqn:Ho.
    2:{ exists prompt, [EvOptimize rq]. repeat split; auto. }
    destruct (String.eqb_spec optimized "") as [->|Hne]; simpl.
    { exists prompt, [EvOptimize rq]. repeat split; auto. }
    exists optimized, [EvOptimize rq]. split; [reflexivity|]. split; [exact Hev|].
    split; [|discriminate].
    right. split; [exact Hne|].
    destruct (optimized_text_stripped _ _ Ho) as [c ->]. apply strip_idem.
Qed.

(** X15.  [_extract_image_data] returns [None] when the response has no
    [data], when [data] is null, empty, 0 or false, and when the selected
    item has none of the fields [b64_json], [url], [image_url]; it raises
    when the response is not an object; and it returns a field only from
    an item that is a dict, as [first_image_field] selects it. *)
Theorem extraction_without_payload (response : json) :
  (forall top, response = JObj top ->
     (Py.assoc "data" top = None
      \/ exists v, Py.assoc "data" top = Some v /\ Py.truthy v = false) ->
     _extract_image_data response = Ok None)
  /\ (forall top fields, response = JObj top ->
        payload_item response fields ->
        Py.assoc "b64_json" fields = None ->
        Py.assoc "url" fields = None ->
        Py.assoc "image_url" fields = None ->
        _extract_image_data response = Ok None)
  /\ ((forall top, response <> JObj top) ->
        exists e, _extract_image_data response = Raise e)
  /\ (forall dct, _extract_image_data response = Ok (Some dct) ->
        exists fields, payload_item response fields /\ first_image_field fields = Some dct).
Proof.
  split; [|split; [|split]].
  - intros top -> [Hd | (v & Hd & Hv)]; unfold _extract_image_data; simpl; rewrite Hd; simpl.
    + reflexivity.
    + rewrite Hv. reflexivity.
  - intros top fields -> Hitem H1 H2 H3.
    rewrite (extract_priority _ _ Hitem). unfold first_image_field.
    rewrite H1, H2, H3. reflexivity.
  - intros Hno. destruct response; try (eexists; reflexivity).
    exfalso. eapply Hno. reflexivity.
  - intros dct. unfold _extract_image_data.
    destruct response as [| | | |?|top]; simpl; try discriminate.
    destruct (Py.assoc "data" top) as [data|] eqn:Hd; simpl; [|discriminate].
    destruct (negb (Py.truthy data)) eqn:Ht; [discriminate|].
    destruct data as [| | |s|[|it others]|fields]; simpl in *; try discriminate.
    + destruct (String.index 0 "b64_json" s); simpl; [discriminate|].
      destruct (String.index 0 "url" s); simpl; [discriminate|].
      destruct (String.index 0 "image_url" s); simpl; discriminate.
    + destruct it as [| | |s|elems|fields]; simpl; try discriminate.
      * destruct (String.index 0 "b64_json" s); simpl; [discriminate|].
        destruct (String.index 0 "url" s); simpl; [discriminate|].
        destruct (String.index 0 "image_url" s); simpl; discriminate.
      * destruct (existsb _ elems); simpl; [discriminate|].
        destruct (existsb _ elems); simpl; [discriminate|].
        destruct (existsb _ elems); simpl; discriminate.
      * pose proof (extract_item fields) as E. simpl in E. rewrite E.
        intros [= H]. exists fields. split; [|exact H].
        exists top. split; [reflexivity|]. left. eauto.
    + pose proof (extract_item fields) as E. simpl in E. rewrite E.
      intros [= H]. exists fields. split; [|exact H].
      exists top. split; [reflexivity|]. right. split; [exact Hd|].
      destruct fields; [discriminate Ht | discriminate].
Qed.

(** A response without [data], and an item without an image field. *)
Lemma extraction_without_payload_witness :
  _extract_image_data (JObj [("created", JNum 1)]) = Ok None
  /\ _extract_image_data (JObj [("data", JArr [JObj [("revised_prompt", JStr "cat")]])])
     = Ok None.
Proof.
  split.
  - refine (proj1 (extraction_without_payload (JObj [("created", JNum 1)])) _ eq_refl _).
    left. reflexivity.
  - refine (proj1 (proj2 (extraction_without_payload
                            (JObj [("data", JArr [JObj [("revised_prompt", JStr "cat")]])])))
              _ [("revised_prompt", JStr "cat")] eq_refl _ eq_refl eq_refl eq_refl).
    eexists. split; [reflexivity|]. left. exists []. reflexivity.
Defined.

(** ** History and deletion *)

Lemma size_pos_lookup {A} (m : gmap Z A) :
  (0 <? base.size m)%nat = true <-> exists k x, m !! k = Some x.
Proof.
  rewrite Nat.ltb_lt. split.
  - intros H. apply map_size_ne_0_lookup. lia.
  - intros H. apply map_size_ne_0_lookup in H. lia.
Qed.

Lemma delete_generations_run uid ids st :
  delete_generations uid ids st
  = (Ok (0 <? base.size (filter (listed uid ids) (generations (db st))))%nat,
     {| db := {| users := users (db st); api_configs := api_configs (db st);
                 generations := filter (fun kv => ~ listed uid ids kv) (generations (db st));
                 generation_seq := generation_seq (db st) |};
        events := events st; snapshots := snapshots st |}).
Proof. reflexivity. Qed.

Lemma clear_user_generations_run uid st :
  clear_user_generations uid st
  = (Ok (0 <? base.size (filter (owned_by uid) (generations (db st))))%nat,
     {| db := {| users := users (db st); api_configs := api_configs (db st);
                 generations := filter (fun kv => ~ owned_by uid kv) (generations (db st));
                 generation_seq := generation_seq (db st) |};
        events := events st; snapshots := snapshots st |}).
Proof. reflexivity. Qed.

(** X16.  [delete_generations] removes exactly the rows whose id is listed
    and that belong to the caller: a listed row of another user and every
    unlisted row stay as they are.  It returns [True] exactly when such a
    row existed, and touches nothing else. *)
Theorem delete_generations_only_own (uid : Z) (generation_ids : list Z) (st : St) :
  exists b st',
    delete_generations uid generation_ids st = (Ok b, st')
    /\ (forall k,
          generations (db st') !! k
          = match generations (db st) !! k with
            | Some g => if decide (k ∈ generation_ids /\ gen_user_id g = uid)
                        then None else Some g
            | None => None
            end)
    /\ (b = true <-> exists k g, k ∈ generation_ids /\ generations (db st) !! k = Some g
                                 /\ gen_user_id g = uid)
    /\ users (db st') = users (db st)
    /\ api_configs (db st') = api_configs (db st)
    /\ generation_seq (db st') = generation_seq (db st)
    /\ events st' = events st.
Proof.
  rewrite delete_generations_run. eexists. eexists. split; [reflexivity|]. simpl.
  split; [|split; [|repeat split]].
  - intros k. rewrite map_lookup_filter.
    destruct (generations (db st) !! k) as [g|]; simpl; [|reflexivity].
    unfold listed. simpl.
    destruct (decide (k ∈ generation_ids /\ gen_user_id g = uid)) as [H|H].
    + rewrite option_guard_False by tauto. reflexivity.
    + rewrite option_guard_True by exact H. reflexivity.
  - rewrite size_pos_lookup. split.
    + intros (k & g & H). apply map_lookup_filter_Some in H as (Hk & Hin & Ho).
      exists k, g. repeat split; assumption.
    + intros (k & g & Hin & Hk & Ho). exists k, g.
      apply map_lookup_filter_Some. repeat split; assumption.
Qed.

(** X17.  [clear_user_generations] removes all rows of the caller and no
    row of anyone else, and returns [True] exactly when the caller had a
    row.  Afterwards a second call returns [False] and changes nothing,
    and the history of the caller is empty with a total of 0. *)
Theorem clear_user_generations_only_own
    (newest_first : list Generation -> list Generation) (uid : Z) (st : St) :
  (forall l, newest_first l ≡ₚ l) ->
  exists b st',
    clear_user_generations uid st = (Ok b, st')
    /\ (forall k,
          generations (db st') !! k
          = match generations (db st) !! k with
            | Some g => if decide (gen_user_id g = uid) then None else Some g
            | None => None
            end)
    /\ (b = true <-> exists k g, generations (db st) !! k = Some g /\ gen_user_id g = uid)
    /\ users (db st') = users (db st)
    /\ clear_user_generations uid st' = (Ok false, st')
    /\ forall skip limit,
         get_generation_history newest_first (db st') uid skip limit
         = {| history_generations := []; total_count := 0 |}.
Proof.
  intros Hperm. rewrite clear_user_generations_run. eexists. eexists.
  split; [reflexivity|]. simpl.
  assert (Hgone : filter (owned_by uid)
                    (filter (fun kv => ~ owned_by uid kv) (generations (db st)))
                  = (∅ : gmap Z Generation)).
  { apply map_eq. intros k. rewrite lookup_empty. apply map_lookup_filter_None.
    right. intros g Hg Ho. apply map_lookup_filter_Some in Hg as [_ Hn]. contradiction. }
  split; [|split; [|split; [reflexivity|split]]].
  - intros k. rewrite map_lookup_filter.
    destruct (generations (db st) !! k) as [g|]; simpl; [|reflexivity].
    unfold owned_by. simpl.
    destruct (decide (gen_user_id g = uid)) as [H|H].
    + rewrite option_guard_False by tauto. reflexivity.
    + rewrite option_guard_True by exact H. reflexivity.
  - rewrite size_pos_lookup. split.
    + intros (k & g & H). apply map_lookup_filter_Some in H as (Hk & Ho). eauto.
    + intros (k & g & Hk & Ho). exists k, g. apply map_lookup_filter_Some. split; assumption.
  - rewrite clear_user_generations_run. simpl. rewrite Hgone, map_size_empty. simpl.
    f_equal. f_equal. f_equal.
    apply map_eq. intros k. rewrite !map_lookup_filter.
    destruct (generations (db st) !! k) as [g|]; simpl; [|reflexivity].
    destruct (decide (~ owned_by uid (k, g))) as [H|H].
    + rewrite option_guard_True by exact H. simpl. rewrite option_guard_True by exact H.
      reflexivity.
    + rewrite option_guard_False by exact H. reflexivity.
  - intros skip limit. unfold get_generation_history, user_rows. simpl.
    rewrite Hgone, map_to_list_empty. simpl.
    assert (Hnil : newest_first [] = []) by (apply Permutation_nil_r; apply Hperm).
    rewrite Hnil, drop_nil, take_nil. reflexivity.
Qed.

(** The session after a batch of two, listed in reverse. *)
Lemma clear_user_generations_only_own_witness :
  exists b st',
    clear_user_generations 7 (snd (sample_run false ["m1"; "m2"] 5)) = (Ok b, st')
    /\ (forall k,
          generations (db st') !! k
          = match generations (db (snd (sample_run false ["m1"; "m2"] 5))) !! k with
            | Some g => if decide (gen_user_id g = 7) then None else Some g
            | None => None
            end)
    /\ (b = true
        <-> exists k g, generations (db (snd (sample_run false ["m1"; "m2"] 5))) !! k
        = Some g /\ gen_user_id g = 7)
    /\ users (db st') = users (db (snd (sample_run false ["m1"; "m2"] 5)))
    /\ clear_user_generations 7 st' = (Ok false, st')
    /\ forall skip limit,
         get_generation_history (@reverse Generation) (db st') 7 skip limit
         = {| history_generations := []; total_count := 0 |}.
Proof.
  refine (clear_user_generations_only_own (@reverse Generation) 7
            (snd (sample_run false ["m1"; "m2"] 5)) _);
    [intros l; apply reverse_Permutation].
Defined.

Lemma user_rows_spec uid d g :
  g ∈ user_rows uid d <-> exists k, generations d !! k = Some g /\ gen_user_id g = uid.
Proof.
  unfold user_rows. rewrite list_elem_of_fmap. split.
  - intros ([k g'] & -> & Hin). apply elem_of_map_to_list in Hin.
    apply map_lookup_filter_Some in Hin as [Hk Ho]. eauto.
  - intros (k & Hk & Ho). exists (k, g). split; [reflexivity|].
    apply elem_of_map_to_list, map_lookup_filter_Some. split; assumption.
Qed.

Lemma user_rows_length uid d :
  length (user_rows uid d) = base.size (filter (owned_by uid) (generations d)).
Proof. unfold user_rows. rewrite length_fmap. apply length_map_to_list. Qed.

(** X18.  [get_generation_history] with any ordering of the rows: a page
    holds only stored rows of the caller and at most [limit] of them;
    [total_count] is the number of the caller's rows whatever the page;
    consecutive pages join to the larger page; a [skip] at or beyond the
    total gives an empty page; and the page from 0 with the total as limit
    lists every row of the caller. *)
Theorem history_pages
    (newest_first : list Generation -> list Generation) (d : DB) (uid : Z)
    (skip limit : nat) :
  (forall l, newest_first l ≡ₚ l) ->
  let h := get_generation_history newest_first d uid skip limit in
  Forall (fun g => gen_user_id g = uid /\ exists k, generations d !! k = Some g)
         (history_generations h)
  /\ (length (history_generations h) <= limit)%nat
  /\ total_count h = base.size (filter (owned_by uid) (generations d))
  /\ (forall more,
        history_generations h
        ++ history_generations (get_generation_history newest_first d uid (skip + limit) more)
        = history_generations (get_generation_history newest_first d uid skip (limit + more)))
  /\ ((total_count h <= skip)%nat -> history_generations h = [])
  /\ history_generations (get_generation_history newest_first d uid 0 (total_count h))
     ≡ₚ user_rows uid d.
Proof.
  intros Hperm h. unfold h, get_generation_history. simpl.
  split; [|split; [|split; [|split; [|split]]]].
  - apply Forall_take, Forall_drop. rewrite (Hperm (user_rows uid d)).
    apply Forall_forall. intros g Hg. apply user_rows_spec in Hg as (k & Hk & Ho).
    split; [exact Ho | eauto].
  - rewrite length_take. lia.
  - apply user_rows_length.
  - intros more. rewrite <- take_take_drop, drop_drop. reflexivity.
  - intros Hle. rewrite drop_ge; [apply take_nil|].
    rewrite (Permutation_length (Hperm (user_rows uid d))). exact Hle.
  - rewrite drop_0, take_ge.
    + apply Hperm.
    + rewrite (Permutation_length (Hperm (user_rows uid d))). lia.
Qed.

(** The second page of length 1 of a history of two records. *)
Lemma history_pages_witness :
  let h := get_generation_history (@reverse Generation) stored_db 7 1%nat 1%nat in
  Forall (fun g => gen_user_id g = 7 /\ exists k, generations stored_db !! k = Some g)
         (history_generations h)
  /\ (length (history_generations h) <= 1%nat)%nat
  /\ total_count h = base.size (filter (owned_by 7) (generations stored_db))
  /\ (forall more,
        history_generations h
        ++ history_generations
            (get_generation_history (@reverse Generation) stored_db 7
            (1%nat + 1%nat) more)
        = history_generations
            (get_generation_history (@reverse Generation) stored_db 7 1%nat
            (1%nat + more)))
  /\ ((total_count h <= 1%nat)%nat -> history_generations h = [])
  /\ history_generations
      (get_generation_history (@reverse Generation) stored_db 7 0 (total_count h))
     ≡ₚ user_rows 7 stored_db.
Proof.
  refine (history_pages (@reverse Generation) stored_db 7 1%nat 1%nat _);
    [intros l; apply reverse_Permutation].
Defined.

(** ** A batch and the history *)

Lemma flush_size_fresh uid (l : list Generation) : forall (T : gmap Z Generation),
  (forall i g, l !! i = Some g ->
     exists k, gen_id g = Some k /\ T !! k = None /\ gen_user_id g = uid
               /\ forall j g', j <> i -> l !! j = Some g' -> gen_id g' <> Some k) ->
  base.size (filter (owned_by uid) (flush l T))
  = (base.size (filter (owned_by uid) T) + length l)%nat.
Proof.
  induction l as [|g l IH]; intros T H; [simpl; lia|].
  destruct (H 0%nat g eq_refl) as (k & Hk & HT & Ho & Hd).
  change (flush (g :: l) T) with (flush l (match gen_id g with
                                          | Some i => <[i:=g]> T | None => T end)).
  rewrite Hk, IH.
  - rewrite map_filter_insert_True by exact Ho.
    rewrite map_size_insert_None; [simpl; lia|].
    apply map_lookup_filter_None. left. exact HT.
  - intros i g' Hi. destruct (H (S i) g' Hi) as (k' & Hk' & HT' & Ho' & Hd').
    exists k'. split; [exact Hk'|]. split.
    + rewrite lookup_insert_ne; [exact HT'|].
      intros ->. apply (Hd' 0%nat g); [discriminate | reflexivity | exact Hk].
    + split; [exact Ho'|]. intros j g'' Hne Hj.
      apply (Hd' (S j) g''); [congruence | exact Hj].
Qed.

Lemma flush_size_overwrite uid (l : list Generation) : forall (T : gmap Z Generation),
  (forall i g, l !! i = Some g ->
     exists k g0, gen_id g = Some k /\ T !! k = Some g0 /\ gen_user_id g0 = uid
                  /\ gen_user_id g = uid
                  /\ forall j g', j <> i -> l !! j = Some g' -> gen_id g' <> Some k) ->
  base.size (filter (owned_by uid) (flush l T)) = base.size (filter (owned_by uid) T).
Proof.
  induction l as [|g l IH]; intros T H; [reflexivity|].
  destruct (H 0%nat g eq_refl) as (k & g0 & Hk & HT & Ho0 & Ho & Hd).
  change (flush (g :: l) T) with (flush l (match gen_id g with
                                          | Some i => <[i:=g]> T | None => T end)).
  rewrite Hk, IH.
  - rewrite map_filter_insert_True by exact Ho.
    apply map_size_insert_Some. exists g0.
    apply map_lookup_filter_Some. split; assumption.
  - intros i g' Hi. destruct (H (S i) g' Hi) as (k' & g0' & Hk' & HT' & Ho0' & Ho' & Hd').
    exists k', g0'. split; [exact Hk'|]. split.
    + rewrite lookup_insert_ne; [exact HT'|].
      intros ->. apply (Hd' 0%nat g); [discriminate | reflexivity | exact Hk].
    + split; [exact Ho0'|]. split; [exact Ho'|]. intros j g'' Hne Hj.
      apply (Hd' (S j) g''); [congruence | exact Hj].
Qed.

Lemma batch_owner d uid request op (l : list Generation) :
  Forall2 same_identity (created_records d uid request op) l ->
  forall i g, l !! i = Some g -> gen_user_id g = uid.
Proof.
  intros Hid i g Hi.
  destruct (Forall2_lookup_r _ _ _ _ _ Hid Hi) as (g0 & H0 & (_ & E & _)).
  rewrite E. pose proof (created_records_blank d uid request op) as Hb.
  rewrite Forall_lookup in Hb. apply (Hb _ _ H0).
Qed.

(** X19.  After a batch that passed its preconditions, with a provider
    whose payload values are strings or null, every returned
    record is in the caller's history (read from the start, with a limit of
    the caller's number of records), the caller's count has grown by the
    number of requested models, and the rows of every other user are the
    rows they had.  The order of the listing is any rearrangement of the
    caller's rows. *)
Theorem batch_is_listed
    (newest_first : list Generation -> list Generation)
    (w : World) (svc : Service) (uid : Z) (request : GenerationRequest)
    (d : DB) (user : User) (cfg : ApiConfig) :
  text_payloads w ->
  (forall l, newest_first l ≡ₚ l) ->
  users d !! uid = Some user ->
  1 <= points user ->
  find cfg_is_active (api_configs d) = Some cfg ->
  table_wf d ->
  exists final st',
    generate_image w svc uid request (session d) = (Ok final, st')
    /\ (forall g, g ∈ final ->
          g ∈ history_generations
                (get_generation_history newest_first (db st') uid 0
                   (total_count (get_generation_history newest_first (db st') uid 0 0))))
    /\ total_count (get_generation_history newest_first (db st') uid 0 0)
       = (total_count (get_generation_history newest_first d uid 0 0)
          + length (models request))%nat
    /\ (forall other, other <> uid -> user_rows other (db st') = user_rows other d).
Proof.
  intros Htext Hperm Hu Hp Hcfg Hwf.
  destruct (generate_image_full w svc uid request d user cfg Htext Hu Hp Hcfg)
    as (op & oevs & called & final & st' & devs & _ & _ & _ & Hsteps & Hgi & Hset & _ & _
        & Htab & Hseq & _).
  exists final, st'. split; [exact Hgi|].
  pose proof (batch_identity _ _ _ _ _ _ _ _ _ Hsteps Hset) as Hid.
  set (created := created_records d uid request op) in *.
  assert (Hid0 : Forall2 same_identity created created).
  { apply Forall_Forall2_diag. apply Forall_forall. intros g _. apply same_identity_refl. }
  destruct (flush_batch d uid request op final (flush created (generations d)) Hid)
    as (Hnew & Hold & _).
  destruct (flush_batch d uid request op created (generations d) Hid0)
    as (Hnew0 & Hold0 & _).
  assert (Hfresh : forall i, generations d !! (generation_seq d + 1 + Z.of_nat i) = None).
  { intros i. destruct (generations d !! _) eqn:E; [|reflexivity].
    assert (generation_seq d + 1 + Z.of_nat i <= generation_seq d) by (apply Hwf; eauto).
    lia. }
  assert (Hdistinct : forall (l : list Generation), Forall2 same_identity created l ->
            forall i g k, l !! i = Some g -> gen_id g = Some k ->
            forall j g', j <> i -> l !! j = Some g' -> gen_id g' <> Some k).
  { intros l Hl i g k Hi Hk j g' Hne Hj.
    rewrite (batch_ids _ _ _ _ _ Hl _ _ Hi) in Hk. injection Hk as <-.
    rewrite (batch_ids _ _ _ _ _ Hl _ _ Hj). intros [= E]. lia. }
  split; [|split].
  - intros g Hg. unfold get_generation_history. simpl.
    rewrite drop_0, take_ge
      by (rewrite (Permutation_length (Hperm _)); lia).
    rewrite (Hperm _). apply user_rows_spec.
    apply list_elem_of_lookup in Hg as [i Hi].
    exists (generation_seq d + 1 + Z.of_nat i). rewrite Htab.
    split; [exact (Hnew _ _ Hi) | exact (batch_owner _ _ _ _ _ Hid _ _ Hi)].
  - unfold get_generation_history. simpl. rewrite !user_rows_length, Htab.
    rewrite (flush_size_overwrite uid final).
    + rewrite (flush_size_fresh uid created).
      * unfold created. rewrite (created_records_length d uid request op). reflexivity.
      * intros i g Hi. exists (generation_seq d + 1 + Z.of_nat i).
        pose proof (batch_ids _ _ _ _ _ Hid0 _ _ Hi) as Hk.
        split; [exact Hk|]. split; [apply Hfresh|].
        split; [exact (batch_owner _ _ _ _ _ Hid0 _ _ Hi)|].
        exact (Hdistinct created Hid0 i g _ Hi Hk).
    + intros i g Hi.
      destruct (Forall2_lookup_r _ _ _ _ _ Hid Hi) as (g0 & Hi0 & _).
      exists (generation_seq d + 1 + Z.of_nat i), g0.
      pose proof (batch_ids _ _ _ _ _ Hid _ _ Hi) as Hk.
      split; [exact Hk|]. split; [exact (Hnew0 _ _ Hi0)|].
      split; [exact (batch_owner _ _ _ _ _ Hid0 _ _ Hi0)|].
      split; [exact (batch_owner _ _ _ _ _ Hid _ _ Hi)|].
      exact (Hdistinct final Hid i g _ Hi Hk).
  - intros other Hne. unfold user_rows. f_equal. f_equal.
    apply map_eq. intros k. rewrite !map_lookup_filter, Htab.
    destruct (decide (k <= generation_seq d)) as [Hk|Hk].
    + rewrite Hold, Hold0 by exact Hk. reflexivity.
    + assert (HN : generations d !! k = None).
      { destruct (generations d !! k) eqn:E; [|reflexivity].
        exfalso. apply Hk, Hwf. eauto. }
      rewrite HN. simpl.
      destruct (flush final (flush created (generations d)) !! k) as [g|] eqn:E;
        [|reflexivity].
      simpl. rewrite option_guard_False; [reflexivity|]. unfold owned_by. simpl.
      assert (Hs : is_Some (flush final (flush created (generations d)) !! k)) by eauto.
      destruct (flush_lookup_some _ _ _ Hs) as [Hex | Hs1].
      * apply Exists_exists in Hex as (g' & Hin & Hg').
        apply list_elem_of_lookup in Hin as [j Hj].
        pose proof (batch_ids _ _ _ _ _ Hid _ _ Hj) as Hkj.
        rewrite Hkj in Hg'. injection Hg' as <-.
        rewrite (Hnew _ _ Hj) in E. injection E as <-.
        rewrite (batch_owner _ _ _ _ _ Hid _ _ Hj). congruence.
      * destruct (flush_lookup_some _ _ _ Hs1) as [Hex | Hs0].
        -- apply Exists_exists in Hex as (g' & Hin & Hg').
           apply list_elem_of_lookup in Hin as [j Hj].
           pose proof (batch_ids _ _ _ _ _ Hid0 _ _ Hj) as Hkj.
           rewrite Hkj in Hg'. injection Hg' as <-.
           destruct (Forall2_lookup_l _ _ _ _ _ Hid Hj) as (g2 & Hj2 & _).
           rewrite (Hnew _ _ Hj2) in E. injection E as <-.
           rewrite (batch_owner _ _ _ _ _ Hid _ _ Hj2). congruence.
        -- rewrite HN in Hs0. destruct Hs0 as [? ?]. discriminate.
Qed.

(** A batch of two on an empty table. *)
Lemma batch_is_listed_witness :
  exists final st',
    generate_image sample_provider sample_service 7 (sample_request false ["m1"; "m2"])
        (session (sample_db 5)) = (Ok final, st')
    /\ (forall g, g ∈ final ->
          g ∈ history_generations
                (get_generation_history (@reverse Generation) (db st') 7 0
                   (total_count
                       (get_generation_history (@reverse Generation) (db st') 7 0 0))))
    /\ total_count (get_generation_history (@reverse Generation) (db st') 7 0 0)
       = (total_count (get_generation_history (@reverse Generation) (sample_db 5) 7 0 0)
          + length (models (sample_request false ["m1"; "m2"])))%nat
    /\ (forall other, other <> 7 -> user_rows other (db st')
        = user_rows other (sample_db 5)).
Proof.
  refine (batch_is_listed (@reverse Generation) sample_provider sample_service 7
            (sample_request false ["m1"; "m2"]) (sample_db 5) (bob 5) sample_config _ _
            _ _ _ _);
    [exact (sample_world_text sample_optimizer)
    | intros l; apply reverse_Permutation
    | reflexivity
    | simpl; lia
    | reflexivity
    | intros k [g Hg]; simpl in Hg; rewrite lookup_empty in Hg; discriminate Hg].
Defined.

(** ** Redemption codes *)

Lemma find_update_first_same {A} (p q : A -> bool) (f : A -> A) (l : list A) :
  (forall x, q (f x) = q x) ->
  (forall x, p x = q x) ->
  find q (update_first p f l) = f <$> find q l.
Proof.
  intros Hq Hpq. induction l as [|x rest IH]; simpl; [reflexivity|].
  rewrite Hpq. destruct (q x) eqn:E; simpl.
  - rewrite Hq, E. reflexivity.
  - rewrite E. exact IH.
Qed.

Lemma find_update_first_other {A} (p q : A -> bool) (f : A -> A) (l : list A) :
  (forall x, p x = true -> q x = false) ->
  (forall x, p x = true -> q (f x) = false) ->
  find q (update_first p f l) = find q l.
Proof.
  intros H1 H2. induction l as [|x rest IH]; simpl; [reflexivity|].
  destruct (p x) eqn:E; simpl.
  - rewrite (H1 _ E), (H2 _ E). reflexivity.
  - destruct (q x); [reflexivity | exact IH].
Qed.

Lemma redeem_code_success utcnow code uid s rc user :
  find (has_code code) (redemption_codes s) = Some rc ->
  rc_is_used rc = false ->
  expired (rc_expires_at rc) (utcnow 0%nat) = false ->
  users (db (shop_st s)) !! uid = Some user ->
  redeem_code utcnow code uid s
  = (Ok {| success := true; message := "Code redeemed successfully";
           points_added := rc_points rc; total_points := points user + rc_points rc |},
     {| shop_st :=
          {| db := {| users := <[uid := set_points user (points user + rc_points rc)]>
                                 (users (db (shop_st s)));
                      api_configs := api_configs (db (shop_st s));
                      generations := generations (db (shop_st s));
                      generation_seq := generation_seq (db (shop_st s)) |};
             events := events (shop_st s); snapshots := snapshots (shop_st s) |};
        redemption_codes :=
          update_first (has_code code) (redeemed_by uid (utcnow 1%nat)) (redemption_codes s);
        redemptions :=
          redemptions s ++ [{| rd_user_id := uid; rd_code_id := rc_id rc;
                               rd_points_redeemed := rc_points rc |}];
        invite_codes := invite_codes s;
        user_seq := user_seq s |}).
Proof.
  intros Hf Hu He Huser.
  unfold redeem_code, sbind, sget. simpl. rewrite Hf, Hu, He.
  unfold lift_st. rewrite (get_user_by_id_found _ _ _ Huser). simpl. reflexivity.
Qed.

(** X20.  Redeeming an unused, unexpired code for an existing user
    succeeds: the response reports the code's points and the new total, the
    account holds its former balance plus the code's points, the code is
    marked used by that user at the second reading of the clock, one
    redemption row is appended, and every other account, every other code
    and the invite codes are as they were. *)
Theorem redeem_code_credits
    (utcnow : nat -> Z) (code : string) (uid : Z) (s : Shop)
    (rc : RedemptionCode) (user : User) :
  find (has_code code) (redemption_codes s) = Some rc ->
  rc_is_used rc = false ->
  expired (rc_expires_at rc) (utcnow 0%nat) = false ->
  users (db (shop_st s)) !! uid = Some user ->
  exists resp s',
    redeem_code utcnow code uid s = (Ok resp, s')
    /\ success resp = true
    /\ points_added resp = rc_points rc
    /\ total_points resp = points user + rc_points rc
    /\ shop_balance uid s' = Some (points user + rc_points rc)
    /\ find (has_code code) (redemption_codes s')
       = Some (redeemed_by uid (utcnow 1%nat) rc)
    /\ redemptions s'
       = redemptions s ++ [{| rd_user_id := uid; rd_code_id := rc_id rc;
                              rd_points_redeemed := rc_points rc |}]
    /\ (forall other, other <> uid ->
          users (db (shop_st s')) !! other = users (db (shop_st s)) !! other)
    /\ (forall c, c <> code ->
          find (has_code c) (redemption_codes s') = find (has_code c) (redemption_codes s))
    /\ invite_codes s' = invite_codes s.
Proof.
  intros Hf Hu He Huser.
  rewrite (redeem_code_success utcnow code uid s rc user Hf Hu He Huser).
  eexists. eexists. split; [reflexivity|]. simpl.
  split; [reflexivity|]. split; [reflexivity|]. split; [reflexivity|].
  split; [apply balance_after_store|].
  split.
  { rewrite (find_update_first_same (has_code code) (has_code code)); [rewrite Hf | |];
      reflexivity. }
  split; [reflexivity|].
  split; [intros other Hne; apply lookup_insert_ne; congruence|].
  split; [|reflexivity].
  intros c Hne. apply find_update_first_other.
  - unfold has_code. intros x Hx. apply String.eqb_eq in Hx. apply String.eqb_neq.
    congruence.
  - unfold has_code. simpl. intros x Hx. apply String.eqb_eq in Hx. apply String.eqb_neq.
    congruence.
Qed.

(** The code of 10 points, redeemed by the user of the sample shop. *)
Lemma redeem_code_credits_witness :
  exists resp s',
    redeem_code sample_clock "GIFT" 7 sample_shop = (Ok resp, s')
    /\ success resp = true
    /\ points_added resp = rc_points gift_code
    /\ total_points resp = points (bob 0) + rc_points gift_code
    /\ shop_balance 7 s' = Some (points (bob 0) + rc_points gift_code)
    /\ find (has_code "GIFT") (redemption_codes s')
       = Some (redeemed_by 7 (sample_clock 1%nat) gift_code)
    /\ redemptions s'
       = redemptions sample_shop ++ [{| rd_user_id := 7; rd_code_id := rc_id gift_code;
                              rd_points_redeemed := rc_points gift_code |}]
    /\ (forall other, other <> 7 ->
          users (db (shop_st s')) !! other = users (db (shop_st sample_shop)) !! other)
    /\ (forall c, c <> "GIFT" ->
          find (has_code c) (redemption_codes s')
              = find (has_code c) (redemption_codes sample_shop))
    /\ invite_codes s' = invite_codes sample_shop.
Proof.
  refine (redeem_code_credits sample_clock "GIFT" 7 sample_shop gift_code (bob 0) _ _ _
            _);
    [reflexivity
    | reflexivity
    | reflexivity
    | reflexivity].
Defined.

Lemma redeem_code_used_after utcnow code uid s rc user :
  find (has_code code) (redemption_codes s) = Some rc ->
  rc_is_used rc = false ->
  expired (rc_expires_at rc) (utcnow 0%nat) = false ->
  users (db (shop_st s)) !! uid = Some user ->
  forall (later : nat -> Z) (anyone : Z),
    redeem_code later code anyone (snd (redeem_code utcnow code uid s))
    = (Raise (HTTPException 400 "Code has already been used"),
       snd (redeem_code utcnow code uid s)).
Proof.
  intros Hf Hu He Huser later anyone.
  rewrite (redeem_code_success utcnow code uid s rc user Hf Hu He Huser). simpl.
  unfold redeem_code, sbind, sget. simpl.
  rewrite (find_update_first_same (has_code code) (has_code code)); [rewrite Hf | |];
    reflexivity.
Qed.

(** X21.  A code is redeemed at most once: after a successful
    redemption, every further attempt with the same code, by any user at
    any time, is refused with 400 "Code has already been used" and leaves
    the state, and so the balance credited by the first redemption, as it
    is. *)
Theorem redeem_code_once
    (utcnow : nat -> Z) (code : string) (uid : Z) (s : Shop)
    (rc : RedemptionCode) (user : User) :
  find (has_code code) (redemption_codes s) = Some rc ->
  rc_is_used rc = false ->
  expired (rc_expires_at rc) (utcnow 0%nat) = false ->
  users (db (shop_st s)) !! uid = Some user ->
  forall (later : nat -> Z) (anyone : Z),
    redeem_code later code anyone (snd (redeem_code utcnow code uid s))
    = (Raise (HTTPException 400 "Code has already been used"),
       snd (redeem_code utcnow code uid s))
    /\ shop_balance uid (snd (redeem_code later code anyone
                                (snd (redeem_code utcnow code uid s))))
       = Some (points user + rc_points rc).
Proof.
  intros Hf Hu He Huser later anyone.
  rewrite (redeem_code_used_after utcnow code uid s rc user Hf Hu He Huser later anyone).
  split; [reflexivity|]. simpl.
  rewrite (redeem_code_success utcnow code uid s rc user Hf Hu He Huser). simpl.
  apply balance_after_store.
Qed.

(** A second attempt, by the same user at the same readings of the clock. *)
Lemma redeem_code_once_witness :
  redeem_code sample_clock "GIFT" 7
      (snd (redeem_code sample_clock "GIFT" 7 sample_shop))
  = (Raise (HTTPException 400 "Code has already been used"),
     snd (redeem_code sample_clock "GIFT" 7 sample_shop))
  /\ shop_balance 7 (snd (redeem_code sample_clock "GIFT" 7
                              (snd (redeem_code sample_clock "GIFT" 7 sample_shop))))
     = Some (points (bob 0) + rc_points gift_code).
Proof.
  refine (redeem_code_once sample_clock "GIFT" 7 sample_shop gift_code (bob 0) _ _ _ _
            sample_clock 7);
    [reflexivity
    | reflexivity
    | reflexivity
    | reflexivity].
Defined.

(** X22.  The refusals of [redeem_code], in the order of the checks:
    an unknown code is 404, a used code 400, an expired unused code 400,
    and an unknown user 404 "User not found"; each of them leaves every
    table as it was. *)
Theorem redeem_code_refusals (utcnow : nat -> Z) (code : string) (uid : Z) (s : Shop) :
  (find (has_code code) (redemption_codes s) = None ->
     redeem_code utcnow code uid s
     = (Raise (HTTPException 404 "Invalid redemption code"), s))
  /\ (forall rc, find (has_code code) (redemption_codes s) = Some rc ->
        (rc_is_used rc = true ->
           redeem_code utcnow code uid s
           = (Raise (HTTPException 400 "Code has already been used"), s))
        /\ (rc_is_used rc = false ->
              expired (rc_expires_at rc) (utcnow 0%nat) = true ->
              redeem_code utcnow code uid s
              = (Raise (HTTPException 400 "Code has expired"), s))
        /\ (rc_is_used rc = false ->
              expired (rc_expires_at rc) (utcnow 0%nat) = false ->
              users (db (shop_st s)) !! uid = None ->
              redeem_code utcnow code uid s
              = (Raise (HTTPException 404 "User not found"), s))).
Proof.
  split.
  - intros Hf. unfold redeem_code, sbind, sget. simpl. rewrite Hf. reflexivity.
  - intros rc Hf. split; [|split].
    + intros Hu. unfold redeem_code, sbind, sget. simpl. rewrite Hf, Hu. reflexivity.
    + intros Hu He. unfold redeem_code, sbind, sget. simpl. rewrite Hf, Hu, He.
      reflexivity.
    + intros Hu He Hno. unfold redeem_code, sbind, sget. simpl. rewrite Hf, Hu, He.
      unfold lift_st. rewrite (get_user_by_id_missing _ _ Hno). simpl.
      destruct s as [[] ? ? ? ?]. reflexivity.
Qed.

(** An unknown code, and a user who is not there. *)
Lemma redeem_code_refusals_witness :
  redeem_code sample_clock "NOPE" 7 sample_shop
  = (Raise (HTTPException 404 "Invalid redemption code"), sample_shop)
  /\ redeem_code sample_clock "GIFT" 9 sample_shop
     = (Raise (HTTPException 404 "User not found"), sample_shop).
Proof.
  split.
  - refine (proj1 (redeem_code_refusals sample_clock "NOPE" 7 sample_shop) _). reflexivity.
  - refine (proj2 (proj2 (proj2 (redeem_code_refusals sample_clock "GIFT" 9 sample_shop)
                                  gift_code _)) _ _ _);
      reflexivity.
Defined.

Lemma fresh_code_first taken rand : forall fuel i n,
  (forall j, (i <= j < i + n)%nat -> taken (rand j) = true) ->
  taken (rand (i + n)%nat) = false ->
  (n < fuel)%nat ->
  fresh_code taken rand fuel i = Some (rand (i + n)%nat).
Proof.
  induction fuel as [|fuel IH]; intros i n Hbefore Hn Hfuel; [lia|].
  simpl. destruct n as [|n].
  - rewrite Nat.add_0_r in Hn. rewrite Hn, Nat.add_0_r. reflexivity.
  - rewrite (Hbefore i) by lia.
    replace (i + S n)%nat with (S i + n)%nat in * by lia.
    apply IH; [|exact Hn | lia]. intros j Hj. apply Hbefore. lia.
Qed.

Lemma fresh_code_is_fresh taken rand : forall fuel i code,
  fresh_code taken rand fuel i = Some code -> taken code = false.
Proof.
  induction fuel as [|fuel IH]; intros i code; simpl; [discriminate|].
  destruct (taken (rand i)) eqn:E; [apply IH|]. intros [= <-]. exact E.
Qed.

Lemma code_taken_find s code :
  code_taken s code = false <-> find (has_code code) (redemption_codes s) = None.
Proof.
  unfold code_taken. induction (redemption_codes s) as [|x l IH]; simpl; [tauto|].
  destruct (has_code code x); simpl; [split; discriminate | exact IH].
Qed.

Lemma find_app_new {A} (p : A -> bool) (l : list A) (x : A) :
  find p (l ++ [x]) = match find p l with
                      | Some y => Some y
                      | None => if p x then Some x else None
                      end.
Proof.
  induction l as [|y l IH]; simpl; [reflexivity|]. destruct (p y); [reflexivity | exact IH].
Qed.

Lemma code_taken_in s code :
  code_taken s code = true <-> code ∈ map rc_code (redemption_codes s).
Proof.
  unfold code_taken. rewrite existsb_exists, list_elem_of_In, in_map_iff. unfold has_code.
  split.
  - intros (x & Hin & Hx). apply String.eqb_eq in Hx. eauto.
  - intros (x & Hx & Hin). exists x. split; [exact Hin|]. apply String.eqb_eq. exact Hx.
Qed.

Lemma generate_redemption_code_run rand fuel pts created_by expires_at s n :
  (forall j, (j < n)%nat -> code_taken s (rand j) = true) ->
  code_taken s (rand n) = false ->
  (n < fuel)%nat ->
  generate_redemption_code rand fuel pts created_by expires_at s
  = Some (Ok (rand n),
          {| shop_st := shop_st s;
             redemption_codes :=
               redemption_codes s
               ++ [new_redemption_code s (rand n) pts created_by expires_at];
             redemptions := redemptions s;
             invite_codes := invite_codes s;
             user_seq := user_seq s |})
  /\ find (has_code (rand n))
       (redemption_codes s ++ [new_redemption_code s (rand n) pts created_by expires_at])
     = Some (new_redemption_code s (rand n) pts created_by expires_at).
Proof.
  intros Hbefore Hn Hfuel.
  unfold generate_redemption_code.
  rewrite (fresh_code_first (code_taken s) rand fuel 0 n); [| | exact Hn | exact Hfuel].
  2:{ intros j Hj. apply Hbefore. lia. }
  split; [reflexivity|].
  rewrite find_app_new, (proj1 (code_taken_find s (rand n)) Hn).
  unfold has_code at 1. simpl. rewrite String.eqb_refl. reflexivity.
Qed.

(** X23.  When the candidates drawn before the n-th are all taken and
    the n-th is not, with n below the bound on the draws,
    [generate_redemption_code] returns the n-th candidate; the code was
    not in the table, it is now there as an unused row with the given
    points, expiry and creator, every code that could be found before is
    found as before, codes stay pairwise distinct if they were, and the
    users and the invite codes are untouched. *)
Theorem generate_redemption_code_fresh
    (rand : nat -> string) (fuel : nat) (pts created_by : Z) (expires_at : option Z)
    (s : Shop) (n : nat) :
  (forall j, (j < n)%nat -> code_taken s (rand j) = true) ->
  code_taken s (rand n) = false ->
  (n < fuel)%nat ->
  exists s',
    generate_redemption_code rand fuel pts created_by expires_at s = Some (Ok (rand n), s')
    /\ find (has_code (rand n)) (redemption_codes s) = None
    /\ (exists row, find (has_code (rand n)) (redemption_codes s') = Some row
                    /\ rc_points row = pts /\ rc_is_used row = false
                    /\ rc_expires_at row = expires_at /\ rc_created_by row = created_by)
    /\ (forall c row, find (has_code c) (redemption_codes s) = Some row ->
          find (has_code c) (redemption_codes s') = Some row)
    /\ (NoDup (map rc_code (redemption_codes s)) ->
          NoDup (map rc_code (redemption_codes s')))
    /\ shop_st s' = shop_st s
    /\ invite_codes s' = invite_codes s.
Proof.
  intros Hbefore Hn Hfuel.
  destruct (generate_redemption_code_run rand fuel pts created_by expires_at s n
              Hbefore Hn Hfuel) as [Hrun Hfind].
  eexists. split; [exact Hrun|]. simpl.
  split; [exact (proj1 (code_taken_find s (rand n)) Hn)|]. split.
  { eexists. split; [exact Hfind|]. repeat split. }
  split.
  { intros c row Hc. rewrite find_app_new, Hc. reflexivity. }
  split; [|split; reflexivity].
  intros Hnd. rewrite List.map_app. simpl. apply NoDup_app. split; [exact Hnd|].
  split; [|apply NoDup_singleton].
  intros c Hc Hin. apply list_elem_of_singleton in Hin as ->.
  apply code_taken_in in Hc. congruence.
Qed.

(** The first candidate is in the table, the second is not. *)
Lemma generate_redemption_code_fresh_witness :
  exists s',
    generate_redemption_code gift_rand 5%nat 25 7 None sample_shop
        = Some (Ok (gift_rand 1%nat), s')
    /\ find (has_code (gift_rand 1%nat)) (redemption_codes sample_shop) = None
    /\ (exists row, find (has_code (gift_rand 1%nat)) (redemption_codes s') = Some row
                    /\ rc_points row = 25 /\ rc_is_used row = false
                    /\ rc_expires_at row = None /\ rc_created_by row = 7)
    /\ (forall c row, find (has_code c) (redemption_codes sample_shop) = Some row ->
          find (has_code c) (redemption_codes s') = Some row)
    /\ (NoDup (map rc_code (redemption_codes sample_shop)) ->
          NoDup (map rc_code (redemption_codes s')))
    /\ shop_st s' = shop_st sample_shop
    /\ invite_codes s' = invite_codes sample_shop.
Proof.
  refine (generate_redemption_code_fresh gift_rand 5%nat 25 7 None sample_shop 1%nat _
            _ _);
    [intros j Hj; assert (j = 0%nat) as -> by lia; reflexivity
    | reflexivity
    | lia].
Defined.

(** X24.  A generated code that has not expired can be redeemed by an
    existing user, once: the redemption credits exactly the points the code
    was generated with, and every later attempt is refused with 400. *)
Theorem generated_code_redeems
    (rand : nat -> string) (fuel : nat) (pts created_by : Z) (expires_at : option Z)
    (s : Shop) (n : nat) (utcnow : nat -> Z) (uid : Z) (user : User) :
  (forall j, (j < n)%nat -> code_taken s (rand j) = true) ->
  code_taken s (rand n) = false ->
  (n < fuel)%nat ->
  expired expires_at (utcnow 0%nat) = false ->
  users (db (shop_st s)) !! uid = Some user ->
  exists s1 resp s2,
    generate_redemption_code rand fuel pts created_by expires_at s = Some (Ok (rand n), s1)
    /\ redeem_code utcnow (rand n) uid s1 = (Ok resp, s2)
    /\ points_added resp = pts
    /\ shop_balance uid s2 = Some (points user + pts)
    /\ forall (later : nat -> Z) (anyone : Z),
         redeem_code later (rand n) anyone s2
         = (Raise (HTTPException 400 "Code has already been used"), s2).
Proof.
  intros Hbefore Hn Hfuel He Huser.
  destruct (generate_redemption_code_run rand fuel pts created_by expires_at s n
              Hbefore Hn Hfuel) as [Hrun Hfind].
  set (row := new_redemption_code s (rand n) pts created_by expires_at) in *.
  set (s1 := {| shop_st := shop_st s; redemption_codes := redemption_codes s ++ [row];
                redemptions := redemptions s; invite_codes := invite_codes s;
                user_seq := user_seq s |}) in *.
  pose proof (redeem_code_success utcnow (rand n) uid s1 row user Hfind eq_refl He Huser)
    as Hred.
  eexists. eexists. eexists. split; [exact Hrun|]. split; [exact Hred|].
  split; [reflexivity|]. split; [apply balance_after_store|].
  intros later anyone.
  pose proof (redeem_code_used_after utcnow (rand n) uid s1 row user Hfind eq_refl He Huser
                later anyone) as Honce.
  rewrite Hred in Honce. exact Honce.
Qed.

(** A generated code of 25 points, redeemed by the user of the sample shop. *)
Lemma generated_code_redeems_witness :
  exists s1 resp s2,
    generate_redemption_code gift_rand 5%nat 25 7 None sample_shop
        = Some (Ok (gift_rand 1%nat), s1)
    /\ redeem_code sample_clock (gift_rand 1%nat) 7 s1 = (Ok resp, s2)
    /\ points_added resp = 25
    /\ shop_balance 7 s2 = Some (points (bob 0) + 25)
    /\ forall (later : nat -> Z) (anyone : Z),
         redeem_code later (gift_rand 1%nat) anyone s2
         = (Raise (HTTPException 400 "Code has already been used"), s2).
Proof.
  refine (generated_code_redeems gift_rand 5%nat 25 7 None sample_shop 1%nat
            sample_clock 7 (bob 0) _ _ _ _ _);
    [intros j Hj; assert (j = 0%nat) as -> by lia; reflexivity
    | reflexivity
    | lia
    | reflexivity
    | reflexivity].
Defined.

(** ** Registration and invite codes *)

Lemma create_user_checked utcnow user_data s invite_code_obj :
  username_taken (db (shop_st s)) (uc_username user_data) = false ->
  check_invite utcnow user_data s = Ok invite_code_obj ->
  create_user utcnow user_data s
  = (Ok (new_user (user_seq s + 1) (uc_username user_data)),
     registered utcnow user_data invite_code_obj s).
Proof.
  intros Hname Hcheck. unfold create_user, sbind, sget. simpl.
  rewrite Hname, Hcheck. reflexivity.
Qed.

Lemma create_user_refused utcnow user_data s e :
  username_taken (db (shop_st s)) (uc_username user_data) = false ->
  check_invite utcnow user_data s = Raise e ->
  create_user utcnow user_data s = (Raise e, s).
Proof.
  intros Hname Hcheck. unfold create_user, sbind, sget. simpl.
  rewrite Hname, Hcheck. reflexivity.
Qed.

Lemma create_user_name_taken utcnow user_data s :
  username_taken (db (shop_st s)) (uc_username user_data) = true ->
  create_user utcnow user_data s = (Raise (HTTPException 400 "用户名已存在"), s).
Proof.
  intros Hname. unfold create_user, sbind, sget. simpl. rewrite Hname. reflexivity.
Qed.

Lemma check_invite_400 utcnow user_data s e :
  check_invite utcnow user_data s = Raise e -> exists detail, e = HTTPException 400 detail.
Proof.
  unfold check_invite. intros H.
  destruct (Py.truthy_str (uc_invite_code user_data)).
  - destruct (find _ (invite_codes s)) as [ic|].
    + destruct (expired _ _); [|discriminate]. injection H as <-. eexists. reflexivity.
    + injection H as <-. eexists. reflexivity.
  - destruct (0 <? _)%nat; [|discriminate]. injection H as <-. eexists. reflexivity.
Qed.

Lemma create_user_raises_400 utcnow user_data s e s' :
  create_user utcnow user_data s = (Raise e, s') ->
  s' = s /\ exists detail, e = HTTPException 400 detail.
Proof.
  intros H.
  destruct (username_taken (db (shop_st s)) (uc_username user_data)) eqn:Hname.
  - rewrite (create_user_name_taken _ _ _ Hname) in H. injection H as <- <-.
    split; [reflexivity | eexists; reflexivity].
  - destruct (check_invite utcnow user_data s) as [o|e0] eqn:Hcheck.
    + rewrite (create_user_checked _ _ _ _ Hname Hcheck) in H. discriminate.
    + rewrite (create_user_refused _ _ _ _ Hname Hcheck) in H. injection H as <- <-.
      split; [reflexivity | exact (check_invite_400 _ _ _ _ Hcheck)].
Qed.

(** X25.  Registration without an invite code (none, or the empty
    string) succeeds exactly when the [users] table is empty: the first
    user gets the next id, 0 points and is not an administrator, and no
    invite code is touched; with any user present the call is refused
    with 400 and changes nothing. *)
Theorem first_user_needs_no_invite
    (utcnow : nat -> Z) (user_data : UserCreate) (s : Shop) :
  Py.truthy_str (uc_invite_code user_data) = false ->
  (users (db (shop_st s)) = ∅ ->
     exists u s',
       create_user utcnow user_data s = (Ok u, s')
       /\ u = new_user (user_seq s + 1) (uc_username user_data)
       /\ is_admin u = false /\ points u = 0
       /\ users (db (shop_st s')) = {[ user_seq s + 1 := u ]}
       /\ invite_codes s' = invite_codes s)
  /\ (users (db (shop_st s)) <> ∅ ->
        exists detail,
          create_user utcnow user_data s = (Raise (HTTPException 400 detail), s)).
Proof.
  intros Hno. split.
  - intros Hempty.
    assert (Hname : username_taken (db (shop_st s)) (uc_username user_data) = false).
    { unfold username_taken. rewrite Hempty, map_to_list_empty. reflexivity. }
    assert (Hcheck : check_invite utcnow user_data s = Ok None).
    { unfold check_invite. rewrite Hno, Hempty, map_size_empty. reflexivity. }
    eexists. eexists. split; [exact (create_user_checked _ _ _ _ Hname Hcheck)|].
    split; [reflexivity|]. split; [reflexivity|]. split; [reflexivity|].
    split; [|reflexivity]. simpl. rewrite Hempty. reflexivity.
  - intros Hne.
    destruct (username_taken (db (shop_st s)) (uc_username user_data)) eqn:Hname.
    + eexists. exact (create_user_name_taken _ _ _ Hname).
    + eexists. apply (create_user_refused _ _ _ _ Hname).
      unfold check_invite. rewrite Hno.
      destruct (Nat.ltb_spec 0 (base.size (users (db (shop_st s))))) as [_|Hle];
        [reflexivity|].
      exfalso. apply Hne. apply map_size_empty_iff. lia.
Qed.

(** The first registration, and one without a code in a shop that has a
    user. *)
Lemma first_user_needs_no_invite_witness :
  (exists s', create_user sample_clock founder empty_shop = (Ok (new_user 1 "root"), s')
              /\ users (db (shop_st s')) = {[ 1 := new_user 1 "root" ]})
  /\ exists detail,
       create_user sample_clock founder sample_shop
       = (Raise (HTTPException 400 detail), sample_shop).
Proof.
  split.
  - destruct (proj1 (first_user_needs_no_invite sample_clock founder empty_shop eq_refl)
                eq_refl) as (u & s' & Hrun & -> & _ & _ & Husers & _).
    exists s'. split; [exact Hrun | exact Husers].
  - refine (proj2 (first_user_needs_no_invite sample_clock founder sample_shop eq_refl) _).
    intros Hempty.
    assert (H : users (db (shop_st sample_shop)) !! 7 = None)
      by (rewrite Hempty; apply lookup_empty).
    discriminate H.
Defined.

Lemma open_invite_code code ic : open_invite code ic = true -> ic_code ic = code.
Proof.
  unfold open_invite. intros H. apply andb_true_iff in H as [H _].
  apply String.eqb_eq. exact H.
Qed.

Lemma find_open_none code (l : list InviteCode) :
  ~ In code (map ic_code l) -> find (open_invite code) l = None.
Proof.
  induction l as [|x l IH]; simpl; intros Hn; [reflexivity|].
  destruct (open_invite code x) eqn:E.
  - exfalso. apply Hn. left. exact (open_invite_code _ _ E).
  - apply IH. intros Hin. apply Hn. right. exact Hin.
Qed.

Lemma invite_consumed code uid now (l : list InviteCode) : forall ic,
  List.NoDup (map ic_code l) ->
  find (open_invite code) l = Some ic ->
  find (open_invite code) (update_first (open_invite code) (invited uid now) l) = None
  /\ In (invited uid now ic) (update_first (open_invite code) (invited uid now) l).
Proof.
  induction l as [|x l IH]; simpl; intros ic Hnd Hf; [discriminate|].
  inversion Hnd as [|? ? Hx Hnd']; subst.
  destruct (open_invite code x) eqn:E.
  - injection Hf as <-. simpl.
    assert (Hused : open_invite code (invited uid now x) = false).
    { unfold open_invite. simpl. apply andb_false_r. }
    rewrite Hused. split; [|left; reflexivity].
    apply find_open_none. rewrite <- (open_invite_code _ _ E). exact Hx.
  - simpl. rewrite E. destruct (IH ic Hnd' Hf) as [H1 H2].
    split; [exact H1 | right; exact H2].
Qed.

Lemma consumed_invite_refused later other_data s code :
  find (open_invite code) (invite_codes s) = None ->
  code <> "" ->
  uc_invite_code other_data = Some code ->
  exists detail, create_user later other_data s = (Raise (HTTPException 400 detail), s).
Proof.
  intros Hgone Hne Hother.
  destruct (username_taken (db (shop_st s)) (uc_username other_data)) eqn:Hn.
  - eexists. exact (create_user_name_taken later other_data s Hn).
  - eexists. apply (create_user_refused later other_data s _ Hn).
    unfold check_invite. rewrite Hother. simpl.
    destruct (String.eqb_spec code ""); [contradiction|]. simpl.
    rewrite Hgone. reflexivity.
Qed.

Lemma invite_taken_in s code :
  invite_taken s code = false -> ~ In code (map ic_code (invite_codes s)).
Proof.
  unfold invite_taken. intros H Hin. apply in_map_iff in Hin as (x & Hx & Hin).
  assert (existsb (fun ic => String.eqb (ic_code ic) code) (invite_codes s) = true);
    [|congruence].
  apply existsb_exists. exists x. split; [exact Hin|]. apply String.eqb_eq. exact Hx.
Qed.

(** X26.  With pairwise distinct invite codes, a registration with an
    unused, unexpired code and a free username succeeds and consumes the
    code: the row is marked used by the id of the new user, the code no
    longer validates, and every later registration that presents it is
    refused with 400 and changes nothing. *)
Theorem invite_code_single_use
    (utcnow : nat -> Z) (user_data : UserCreate) (s : Shop)
    (code : string) (ic : InviteCode) :
  List.NoDup (map ic_code (invite_codes s)) ->
  uc_invite_code user_data = Some code ->
  code <> "" ->
  username_taken (db (shop_st s)) (uc_username user_data) = false ->
  find (open_invite code) (invite_codes s) = Some ic ->
  expired (ic_expires_at ic) (utcnow 0%nat) = false ->
  exists u s',
    create_user utcnow user_data s = (Ok u, s')
    /\ user_id u = user_seq s + 1
    /\ In (invited (user_id u) (utcnow 1%nat) ic) (invite_codes s')
    /\ (forall later, validate_invite_code later code s' = false)
    /\ (forall later other_data,
          uc_invite_code other_data = Some code ->
          exists detail,
            create_user later other_data s' = (Raise (HTTPException 400 detail), s')).
Proof.
  intros Hnd Hcode Hne Hname Hf He.
  assert (Htruthy : Py.truthy_str (Some code) = true).
  { simpl. destruct (String.eqb_spec code ""); [contradiction | reflexivity]. }
  assert (Hcheck : check_invite utcnow user_data s = Ok (Some ic)).
  { unfold check_invite. rewrite Hcode, Htruthy. simpl. rewrite Hf, He. reflexivity. }
  pose proof (open_invite_code code ic (proj2 (find_some _ _ Hf))) as Hic.
  destruct (invite_consumed code (user_seq s + 1) (utcnow 1%nat) (invite_codes s) ic Hnd Hf)
    as [Hgone Hin].
  set (s' := registered utcnow user_data (Some ic) s).
  assert (Hinv : invite_codes s'
                 = update_first (open_invite code) (invited (user_seq s + 1) (utcnow 1%nat))
                     (invite_codes s)).
  { unfold s'. simpl. rewrite Hic. reflexivity. }
  exists (new_user (user_seq s + 1) (uc_username user_data)), s'.
  split; [exact (create_user_checked _ _ _ _ Hname Hcheck)|].
  split; [reflexivity|]. split; [rewrite Hinv; exact Hin|]. split.
  - intros later. unfold validate_invite_code. rewrite Hinv, Hgone. reflexivity.
  - intros later other_data Hother.
    apply (consumed_invite_refused later other_data s' code); [|exact Hne | exact Hother].
    rewrite Hinv. exact Hgone.
Qed.

(** Alice registers with the invite code of the sample shop. *)
Lemma invite_code_single_use_witness :
  exists u s',
    create_user sample_clock alice sample_shop = (Ok u, s')
    /\ user_id u = user_seq sample_shop + 1
    /\ In (invited (user_id u) (sample_clock 1%nat) open_code) (invite_codes s')
    /\ (forall later, validate_invite_code later "INVITE01" s' = false)
    /\ (forall later other_data,
          uc_invite_code other_data = Some "INVITE01" ->
          exists detail,
            create_user later other_data s' = (Raise (HTTPException 400 detail), s')).
Proof.
  refine (invite_code_single_use sample_clock alice sample_shop "INVITE01" open_code _
            _ _ _ _ _);
    [repeat constructor; simpl; tauto
    | reflexivity
    | discriminate
    | reflexivity
    | reflexivity
    | reflexivity].
Defined.

(** X27.  [validate_invite_code] agrees with [create_user]: for a code
    that is not empty and a free username, read at the same time, the
    code validates exactly when the registration that presents it
    succeeds. *)
Theorem validate_invite_code_agrees
    (utcnow : nat -> Z) (user_data : UserCreate) (s : Shop) (code : string) :
  uc_invite_code user_data = Some code ->
  code <> "" ->
  username_taken (db (shop_st s)) (uc_username user_data) = false ->
  validate_invite_code utcnow code s = true
  <-> exists u s', create_user utcnow user_data s = (Ok u, s').
Proof.
  intros Hcode Hne Hname.
  assert (Htruthy : Py.truthy_str (Some code) = true).
  { simpl. destruct (String.eqb_spec code ""); [contradiction | reflexivity]. }
  unfold validate_invite_code. split.
  - intros Hv. destruct (find (open_invite code) (invite_codes s)) as [ic|] eqn:Hf;
      [|discriminate].
    destruct (expired (ic_expires_at ic) (utcnow 0%nat)) eqn:He; [discriminate|].
    eexists. eexists. apply (create_user_checked _ _ _ (Some ic) Hname).
    unfold check_invite. rewrite Hcode, Htruthy. simpl. rewrite Hf, He. reflexivity.
  - intros (u & s' & Hrun).
    destruct (check_invite utcnow user_data s) as [o|e] eqn:Hcheck.
    + unfold check_invite in Hcheck. rewrite Hcode, Htruthy in Hcheck. simpl in Hcheck.
      destruct (find (open_invite code) (invite_codes s)) as [ic|]; [|discriminate].
      destruct (expired (ic_expires_at ic) (utcnow 0%nat)); [discriminate | reflexivity].
    + rewrite (create_user_refused _ _ _ _ Hname Hcheck) in Hrun. discriminate.
Qed.

(** Alice and the invite code of the sample shop. *)
Lemma validate_invite_code_agrees_witness :
  validate_invite_code sample_clock "INVITE01" sample_shop = true
  <-> exists u s', create_user sample_clock alice sample_shop = (Ok u, s').
Proof.
  refine (validate_invite_code_agrees sample_clock alice sample_shop "INVITE01" _ _ _);
    [reflexivity
    | discriminate
    | reflexivity].
Defined.

(** X28.  A new account starts without credit: after a registration
    the new user has a balance of 0 and every earlier row of [users] is
    as it was, so [generate_image] refuses the user with 400 and changes
    nothing; once the user has redeemed a code worth at least 1 point,
    [generate_image] returns, given that every payload value the
    provider sends is a string or null. *)
Theorem new_account_needs_credit
    (w : World) (svc : Service) (request : GenerationRequest)
    (utcnow : nat -> Z) (user_data : UserCreate) (s s1 : Shop) (u : User)
    (code : string) (rc : RedemptionCode) (cfg : ApiConfig) :
  text_payloads w ->
  users_wf s ->
  events (shop_st s) = [] -> snapshots (shop_st s) = [] ->
  create_user utcnow user_data s = (Ok u, s1) ->
  find (has_code code) (redemption_codes s) = Some rc ->
  rc_is_used rc = false ->
  expired (rc_expires_at rc) (utcnow 2%nat) = false ->
  1 <= rc_points rc ->
  find cfg_is_active (api_configs (db (shop_st s))) = Some cfg ->
  shop_balance (user_id u) s1 = Some 0
  /\ users_wf s1
  /\ (forall k old, users (db (shop_st s)) !! k = Some old ->
        users (db (shop_st s1)) !! k = Some old)
  /\ generate_image w svc (user_id u) request (shop_st s1)
     = (Raise (HTTPException 400 "积分不足"), shop_st s1)
  /\ exists resp s2,
       redeem_code (fun i => utcnow (2 + i)%nat) code (user_id u) s1 = (Ok resp, s2)
       /\ total_points resp = rc_points rc
       /\ exists final st',
            generate_image w svc (user_id u) request (shop_st s2) = (Ok final, st').
Proof.
  intros Htext Hwf Hev Hsn Hrun Hf Hu He Hp Hcfg.
  destruct (username_taken (db (shop_st s)) (uc_username user_data)) eqn:Hname;
    [rewrite (create_user_name_taken _ _ _ Hname) in Hrun; discriminate|].
  destruct (check_invite utcnow user_data s) as [o|e] eqn:Hcheck;
    [|rewrite (create_user_refused _ _ _ _ Hname Hcheck) in Hrun; discriminate].
  rewrite (create_user_checked _ _ _ _ Hname Hcheck) in Hrun.
  injection Hrun as <- <-.
  assert (Hfresh : users (db (shop_st s)) !! (user_seq s + 1) = None).
  { destruct (users (db (shop_st s)) !! (user_seq s + 1)) as [x|] eqn:E; [|reflexivity].
    assert (user_seq s + 1 <= user_seq s) by (apply Hwf; rewrite E; eexists; reflexivity).
    lia. }
  set (uid := user_seq s + 1) in *.
  set (s1 := registered utcnow user_data o s).
  assert (Hnew : users (db (shop_st s1)) !! uid
                 = Some (new_user uid (uc_username user_data))).
  { simpl. apply lookup_insert_eq. }
  split.
  { unfold shop_balance, balance. simpl. fold uid. rewrite lookup_insert_eq. reflexivity. }
  split.
  { intros k Hk. simpl in Hk |- *. fold uid in Hk |- *.
    destruct (decide (k = uid)) as [->|Hneq]; [lia|].
    rewrite lookup_insert_ne in Hk by congruence. apply Hwf in Hk. lia. }
  split.
  { intros k old Hk. simpl. fold uid.
    rewrite lookup_insert_ne; [exact Hk|]. intros <-. congruence. }
  split.
  { apply (generate_image_insufficient w svc uid request (shop_st s1) _ Hnew).
    simpl. lia. }
  assert (Hf1 : find (has_code code) (redemption_codes s1) = Some rc) by exact Hf.
  pose proof (redeem_code_success (fun i => utcnow (2 + i)%nat) code uid s1 rc _
                Hf1 Hu He Hnew) as Hred.
  eexists. eexists. split; [exact Hred|]. split; [simpl; lia|].
  simpl. rewrite Hev, Hsn.
  match goal with
  | |- context [generate_image w svc uid request {| db := ?d; events := []; snapshots := [] |}] =>
      change {| db := d; events := []; snapshots := [] |} with (session d);
      destruct (generate_image_full w svc uid request d
                  (set_points (new_user uid (uc_username user_data))
                     (points (new_user uid (uc_username user_data)) + rc_points rc)) cfg
                  Htext)
        as (op & oevs & called & final & st' & devs & _ & _ & _ & _ & Hgen & _)
  end.
  - simpl. apply lookup_insert_eq.
  - simpl. lia.
  - simpl. exact Hcfg.
  - exists final, st'. exact Hgen.
Qed.

(** Alice registers, is refused, redeems the code of 10 points and is
    served. *)
Lemma new_account_needs_credit_witness :
  shop_balance (user_id (new_user 8 "alice"))
      (snd (create_user sample_clock alice sample_shop)) = Some 0
  /\ users_wf (snd (create_user sample_clock alice sample_shop))
  /\ (forall k old, users (db (shop_st sample_shop)) !! k = Some old ->
        users (db (shop_st (snd (create_user sample_clock alice sample_shop)))) !! k
            = Some old)
  /\ generate_image sample_provider sample_service (user_id (new_user 8 "alice"))
      (sample_request false ["m1"])
      (shop_st (snd (create_user sample_clock alice sample_shop)))
     = (Raise (HTTPException 400 "积分不足"), shop_st
         (snd (create_user sample_clock alice sample_shop)))
  /\ exists resp s2,
       redeem_code (fun i => sample_clock (2 + i)%nat) "GIFT"
           (user_id (new_user 8 "alice"))
           (snd (create_user sample_clock alice sample_shop)) = (Ok resp, s2)
       /\ total_points resp = rc_points gift_code
       /\ exists final st',
            generate_image sample_provider sample_service
                (user_id (new_user 8 "alice")) (sample_request false ["m1"])
                (shop_st s2) = (Ok final, st').
Proof.
  refine (new_account_needs_credit sample_provider sample_service
            (sample_request false ["m1"]) sample_clock alice sample_shop
            (snd (create_user sample_clock alice sample_shop)) (new_user 8 "alice")
            "GIFT" gift_code sample_config _ _ _ _ _ _ _ _ _ _);
    [exact (sample_world_text sample_optimizer)
    | intros k [x Hk];
      simpl in Hk;
      destruct (decide (k = 7)) as [->|Hne];
      [simpl; lia | rewrite lookup_singleton_ne in Hk by congruence; discriminate Hk]
    | reflexivity
    | reflexivity
    | vm_compute; reflexivity
    | reflexivity
    | reflexivity
    | reflexivity
    | simpl; lia
    | reflexivity].
Defined.
(** X29.  A generated invite code admits one registration: when the
    n-th candidate is the first that is not in the table,
    [generate_invite_code] returns it and leaves the codes pairwise
    distinct; while it has not expired it validates and a registration
    with a free username that presents it succeeds, after which it no
    longer validates and every further registration with it is refused
    with 400. *)
Theorem generated_invite_registers_once
    (rand : nat -> string) (fuel : nat) (created_by : Z) (expires_at : option Z)
    (s : Shop) (n : nat) (utcnow : nat -> Z) (user_data : UserCreate) :
  List.NoDup (map ic_code (invite_codes s)) ->
  (forall j, (j < n)%nat -> invite_taken s (rand j) = true) ->
  invite_taken s (rand n) = false ->
  (n < fuel)%nat ->
  rand n <> "" ->
  expired expires_at (utcnow 0%nat) = false ->
  uc_invite_code user_data = Some (rand n) ->
  username_taken (db (shop_st s)) (uc_username user_data) = false ->
  exists s1 u s2,
    generate_invite_code rand fuel created_by expires_at s = Some (Ok (rand n), s1)
    /\ shop_st s1 = shop_st s
    /\ List.NoDup (map ic_code (invite_codes s1))
    /\ validate_invite_code utcnow (rand n) s1 = true
    /\ create_user utcnow user_data s1 = (Ok u, s2)
    /\ In (invited (user_id u) (utcnow 1%nat)
             (new_invite_code s (rand n) created_by expires_at)) (invite_codes s2)
    /\ (forall later, validate_invite_code later (rand n) s2 = false)
    /\ (forall later other_data,
          uc_invite_code other_data = Some (rand n) ->
          exists detail,
            create_user later other_data s2 = (Raise (HTTPException 400 detail), s2)).
Proof.
  intros Hnd Hbefore Hn Hfuel Hne He Hcode Hname.
  set (row := new_invite_code s (rand n) created_by expires_at).
  set (s1 := {| shop_st := shop_st s; redemption_codes := redemption_codes s;
                redemptions := redemptions s;
                invite_codes := invite_codes s ++ [row]; user_seq := user_seq s |}).
  assert (Hgen : generate_invite_code rand fuel created_by expires_at s
                 = Some (Ok (rand n), s1)).
  { unfold generate_invite_code.
    rewrite (fresh_code_first (invite_taken s) rand fuel 0 n); [reflexivity | | exact Hn
                                                                | exact Hfuel].
    intros j Hj. apply Hbefore. lia. }
  pose proof (invite_taken_in s (rand n) Hn) as Hnotin.
  assert (Hopen : open_invite (rand n) row = true).
  { unfold open_invite. simpl. rewrite String.eqb_refl. reflexivity. }
  assert (Hf : find (open_invite (rand n)) (invite_codes s1) = Some row).
  { simpl. rewrite find_app_new, (find_open_none _ _ Hnotin), Hopen. reflexivity. }
  assert (Hnd1 : List.NoDup (map ic_code (invite_codes s1))).
  { simpl. rewrite List.map_app. simpl. apply NoDup_ListNoDup, NoDup_app.
    split; [apply NoDup_ListNoDup; exact Hnd|]. split; [|apply NoDup_singleton].
    intros c Hc Hin. apply list_elem_of_singleton in Hin as ->.
    apply Hnotin. apply list_elem_of_In. exact Hc. }
  assert (Hcheck : check_invite utcnow user_data s1 = Ok (Some row)).
  { unfold check_invite. rewrite Hcode. simpl.
    destruct (String.eqb_spec (rand n) ""); [contradiction|]. simpl.
    fold row. fold s1. change (invite_codes s ++ [row]) with (invite_codes s1).
    rewrite Hf. simpl. rewrite He. reflexivity. }
  destruct (invite_consumed (rand n) (user_seq s1 + 1) (utcnow 1%nat) (invite_codes s1)
              row Hnd1 Hf) as [Hgone Hin].
  set (s2 := registered utcnow user_data (Some row) s1).
  assert (Hinv : invite_codes s2
                 = update_first (open_invite (rand n))
                     (invited (user_seq s1 + 1) (utcnow 1%nat)) (invite_codes s1)).
  { reflexivity. }
  exists s1, (new_user (user_seq s1 + 1) (uc_username user_data)), s2.
  split; [exact Hgen|]. split; [reflexivity|]. split; [exact Hnd1|]. split.
  { unfold validate_invite_code. rewrite Hf. simpl. rewrite He. reflexivity. }
  split; [exact (create_user_checked utcnow user_data s1 (Some row) Hname Hcheck)|].
  split; [rewrite Hinv; exact Hin|]. split.
  - intros later. unfold validate_invite_code. rewrite Hinv, Hgone. reflexivity.
  - intros later other_data Hother.
    apply (consumed_invite_refused later other_data s2 (rand n)); [|exact Hne | exact Hother].
    rewrite Hinv. exact Hgone.
Qed.

(** Carol registers with a generated invite code. *)
Lemma generated_invite_registers_once_witness :
  exists s1 u s2,
    generate_invite_code invite_rand 5%nat 7 (Some 5000) sample_shop
        = Some (Ok (invite_rand 1%nat), s1)
    /\ shop_st s1 = shop_st sample_shop
    /\ List.NoDup (map ic_code (invite_codes s1))
    /\ validate_invite_code sample_clock (invite_rand 1%nat) s1 = true
    /\ create_user sample_clock carol s1 = (Ok u, s2)
    /\ In (invited (user_id u) (sample_clock 1%nat)
             (new_invite_code sample_shop (invite_rand 1%nat) 7 (Some 5000)))
                 (invite_codes s2)
    /\ (forall later, validate_invite_code later (invite_rand 1%nat) s2 = false)
    /\ (forall later other_data,
          uc_invite_code other_data = Some (invite_rand 1%nat) ->
          exists detail,
            create_user later other_data s2 = (Raise (HTTPException 400 detail), s2)).
Proof.
  refine (generated_invite_registers_once invite_rand 5%nat 7 (Some 5000) sample_shop
            1%nat sample_clock carol _ _ _ _ _ _ _ _);
    [repeat constructor; simpl; tauto
    | intros j Hj; assert (j = 0%nat) as -> by lia; reflexivity
    | reflexivity
    | lia
    | discriminate
    | reflexivity
    | reflexivity
    | reflexivity].
Defined.

(** ** API configurations *)

Lemma delete_first_app_new {A} (p : A -> bool) (l : list A) (x : A) :
  find p l = None -> p x = true -> delete_first p (l ++ [x]) = l.
Proof.
  intros Hf Hx. induction l as [|y l IH]; simpl in *.
  - rewrite Hx. reflexivity.
  - destruct (p y); [discriminate|]. rewrite (IH Hf). reflexivity.
Qed.

Lemma find_delete_first_other {A} (p q : A -> bool) (l : list A) :
  (forall x, p x = true -> q x = false) ->
  find q (delete_first p l) = find q l.
Proof.
  intros H. induction l as [|y l IH]; simpl; [reflexivity|].
  destruct (p y) eqn:E.
  - rewrite (H _ E). reflexivity.
  - simpl. destruct (q y); [reflexivity | exact IH].
Qed.

(** X30.  A configuration with a new key is created active and can be
    found by its key, but the configuration that [generate_image] uses
    stays the earlier active one when there is one; a second creation with
    the same key is refused with 400; deleting the key again restores the
    session exactly, and deleting a key that is not there is refused with
    404. *)
Theorem api_config_create_delete (config_data : ApiConfigCreate) (st : St) :
  find (has_key (acc_config_key config_data)) (api_configs (db st)) = None ->
  exists config st1,
    create_api_config config_data st = (Ok config, st1)
    /\ config_key config = acc_config_key config_data
    /\ cfg_is_active config = true
    /\ find (has_key (acc_config_key config_data)) (api_configs (db st1)) = Some config
    /\ find cfg_is_active (api_configs (db st1))
       = match find cfg_is_active (api_configs (db st)) with
         | Some earlier => Some earlier
         | None => Some config
         end
    /\ (forall again, acc_config_key again = acc_config_key config_data ->
          create_api_config again st1 = (Raise (HTTPException 400 "配置键已存在"), st1))
    /\ delete_api_config (acc_config_key config_data) st1 = (Ok tt, st)
    /\ delete_api_config (acc_config_key config_data) st
       = (Raise (HTTPException 404 "配置不存在"), st).
Proof.
  intros Hnew.
  set (config := new_api_config config_data).
  set (st1 := {| db := {| users := users (db st);
                          api_configs := api_configs (db st) ++ [config];
                          generations := generations (db st);
                          generation_seq := generation_seq (db st) |};
                 events := events st; snapshots := snapshots st |}).
  assert (Hkey : has_key (acc_config_key config_data) config = true).
  { unfold has_key. simpl. apply String.eqb_refl. }
  assert (Hfind : find (has_key (acc_config_key config_data)) (api_configs (db st1))
                  = Some config).
  { simpl. rewrite find_app_new, Hnew, Hkey. reflexivity. }
  exists config, st1. split.
  { unfold create_api_config, bind, get_db, put_db, ret. simpl. rewrite Hnew. reflexivity. }
  split; [reflexivity|]. split; [reflexivity|]. split; [exact Hfind|].
  split; [simpl; rewrite find_app_new; reflexivity|]. split.
  { intros again Hagain. unfold create_api_config, bind, get_db.
    rewrite Hagain, Hfind. reflexivity. }
  split.
  - unfold delete_api_config, bind, get_db, put_db. rewrite Hfind. simpl.
    rewrite (delete_first_app_new _ _ _ Hnew Hkey).
    destruct st as [[us cfgs gens sq] evs sn]. reflexivity.
  - unfold delete_api_config, bind, get_db. rewrite Hnew. reflexivity.
Qed.

(** A second configuration beside the sample one. *)
Lemma api_config_create_delete_witness :
  exists config st1,
    create_api_config backup_config (session (sample_db 3)) = (Ok config, st1)
    /\ config_key config = acc_config_key backup_config
    /\ cfg_is_active config = true
    /\ find (has_key (acc_config_key backup_config)) (api_configs (db st1))
        = Some config
    /\ find cfg_is_active (api_configs (db st1))
       = match find cfg_is_active (api_configs (db (session (sample_db 3)))) with
         | Some earlier => Some earlier
         | None => Some config
         end
    /\ (forall again, acc_config_key again = acc_config_key backup_config ->
          create_api_config again st1 = (Raise (HTTPException 400 "配置键已存在"), st1))
    /\ delete_api_config (acc_config_key backup_config) st1
        = (Ok tt, (session (sample_db 3)))
    /\ delete_api_config (acc_config_key backup_config) (session (sample_db 3))
       = (Raise (HTTPException 404 "配置不存在"), (session (sample_db 3))).
Proof.
  refine (api_config_create_delete backup_config (session (sample_db 3)) _);
    [reflexivity].
Defined.
